(** * Car stereo: input event pipeline and mode state machine

    A shallow embedding of [main/buttons.c] and [main/car_stereo_state.c]
    together with the properties of the specification that concern them.

    Layout of the development:
    - [CInt]     fixed-width integer arithmetic as the C code performs it;
    - [CFloat]   the IEEE-754 arithmetic behind the [float] frequencies;
    - [Buttons]  the ADC ladder decoder, the quadrature ISR and the
                 long-press monitor of [buttons.c];
    - [Stereo]   the globals, side effects and every handler of
                 [car_stereo_state.c];
    - the theorems, one block per property. *)

From Stdlib Require Import ZArith List Bool String Lia SpecFloat.
Import ListNotations.
Open Scope Z_scope.

(* ===================================================================== *)
(** ** Fixed-width integers *)
(* ===================================================================== *)

Module CInt.

(** [uint8_t], [uint32_t] and [int8_t] values are integers of [Z]; a store
    into a variable of that type reduces the value as the hardware does. *)
Definition u8 (z : Z) : Z := z mod 256.
Definition u32 (z : Z) : Z := z mod 4294967296.
Definition i8 (z : Z) : Z := (z + 128) mod 256 - 128.

(** Truncating division of C ([/] on [int]). *)
Definition cdiv (a b : Z) : Z := Z.quot a b.

End CInt.

(* ===================================================================== *)
(** ** buttons.c *)
(* ===================================================================== *)

Module Buttons.
Import CInt.

(** [button_id_t] of buttons.h, with the numeric value of each enumerator. *)
Inductive button_id_t : Set :=
| BTN_ROTARY | BTN_BAND_UM | BTN_BAND_VF
| BTN_STATION_1 | BTN_STATION_2 | BTN_STATION_3 | BTN_STATION_4
| BTN_STATION_5 | BTN_DOWN | BTN_UP | BTN_NONE.

Definition button_code (b : button_id_t) : Z :=
  match b with
  | BTN_ROTARY => 0 | BTN_BAND_UM => 1 | BTN_BAND_VF => 2
  | BTN_STATION_1 => 3 | BTN_STATION_2 => 4 | BTN_STATION_3 => 5
  | BTN_STATION_4 => 6 | BTN_STATION_5 => 7 | BTN_DOWN => 8
  | BTN_UP => 9 | BTN_NONE => 255
  end.

(** The cast [(button_id_t)(i + 1)] of [adc_read_button]; the loop only
    produces the values 1..9. *)
Definition button_of_code (z : Z) : button_id_t :=
  match z with
  | 0 => BTN_ROTARY | 1 => BTN_BAND_UM | 2 => BTN_BAND_VF
  | 3 => BTN_STATION_1 | 4 => BTN_STATION_2 | 5 => BTN_STATION_3
  | 6 => BTN_STATION_4 | 7 => BTN_STATION_5 | 8 => BTN_DOWN
  | 9 => BTN_UP | _ => BTN_NONE
  end.

Definition button_eqb (a b : button_id_t) : bool :=
  button_code a =? button_code b.

Inductive button_event_type_t : Set :=
| BTN_EVENT_PRESS | BTN_EVENT_RELEASE | BTN_EVENT_LONG_PRESS
| BTN_EVENT_RELEASE_AFTER_LONG | BTN_EVENT_REPEAT
| BTN_EVENT_ROTARY_CW | BTN_EVENT_ROTARY_CCW.

Definition event_type_code (t : button_event_type_t) : Z :=
  match t with
  | BTN_EVENT_PRESS => 0 | BTN_EVENT_RELEASE => 1
  | BTN_EVENT_LONG_PRESS => 2 | BTN_EVENT_RELEASE_AFTER_LONG => 3
  | BTN_EVENT_REPEAT => 4 | BTN_EVENT_ROTARY_CW => 5
  | BTN_EVENT_ROTARY_CCW => 6
  end.

Definition event_type_eqb (a b : button_event_type_t) : bool :=
  event_type_code a =? event_type_code b.

Record button_event_t : Set := mk_event {
  button : button_id_t;
  event : button_event_type_t;
  timestamp : Z
}.

(** The designated initialisers [{.button = b, .event = t}] used all over
    buttons.c leave [timestamp] zero. *)
Definition ev (b : button_id_t) (t : button_event_type_t) : button_event_t :=
  mk_event b t 0.

(* ------------------------------------------------------------------- *)
(** *** Constants *)

Definition button_thresholds : list Z :=
  [201; 346; 757; 1425; 2204; 2830; 3450; 3920; 4095].

Definition THRESHOLD_TOLERANCE : Z := 40.
Definition NUM_BUTTONS : Z := 9.
Definition ADC_SAMPLES : Z := 4.
Definition DEBOUNCE_MS : Z := 50.
Definition ROTARY_DEBOUNCE_MS : Z := 5.
Definition LONG_PRESS_THRESHOLD_MS : Z := 1000.
Definition BUTTON_REPEAT_INTERVAL_MS : Z := 200.

(* ------------------------------------------------------------------- *)
(** *** Quadrature decoder *)

Inductive encoder_state_t : Set :=
| ENC_STATE_00 | ENC_STATE_01 | ENC_STATE_10 | ENC_STATE_11.

Definition encoder_code (e : encoder_state_t) : Z :=
  match e with
  | ENC_STATE_00 => 0 | ENC_STATE_01 => 1
  | ENC_STATE_10 => 2 | ENC_STATE_11 => 3
  end.

(** The cast [(encoder_state_t)((clk_state << 1) | dt_state)]; with both
    levels in {0,1} the operand is one of 0..3. *)
Definition encoder_of_code (z : Z) : encoder_state_t :=
  match z with
  | 0 => ENC_STATE_00 | 1 => ENC_STATE_01 | 2 => ENC_STATE_10
  | _ => ENC_STATE_11
  end.

Definition rotary_transition_table : list (list Z) :=
  [ [ 0; -1;  1;  0];    (* 00 *)
    [ 1;  0;  0; -1];    (* 01 *)
    [-1;  0;  0;  1];    (* 10 *)
    [ 0;  1; -1;  0] ].  (* 11 *)

(** [rotary_transition_table[from][to]]. *)
Definition transition (from to : encoder_state_t) : Z :=
  nth (Z.to_nat (encoder_code to))
      (nth (Z.to_nat (encoder_code from)) rotary_transition_table [])
      0.

(** A GPIO level as [gpio_get_level] reports it: [true] is 1. *)
Definition level := bool.
Definition level_code (l : level) : Z := Z.b2z l.

(** The volatile globals shared by the ISR and the monitor task. *)
Record rotary : Set := mk_rotary {
  g_last_rotary_time : Z;
  g_last_sw_time : Z;
  g_rotary_press_start : Z;
  g_rotary_pressed : bool;
  g_long_press_sent : bool;
  g_encoder_state : encoder_state_t;
  g_encoder_position : Z
}.

(** Values of the static initialisers. *)
Definition rotary_boot : rotary :=
  mk_rotary 0 0 0 false false ENC_STATE_11 0.

(** What one firing of the ISR observes: the tick count in milliseconds
    ([uint32_t]) and the three pin levels. *)
Record isr_input : Set := mk_isr_input {
  isr_now : Z;
  sw_state : level;
  clk_state : level;
  dt_state : level
}.

(** [send_button_event]: the event is offered to the queue; the list is
    what the ISR hands to [xQueueSendFromISR], in order. *)
Definition send_button_event (b : button_id_t) (t : button_event_type_t)
  : list button_event_t := [ev b t].

(** The debounce test at the head of the ISR. *)
Definition isr_debounced (r : rotary) (i : isr_input) : bool :=
  u32 (isr_now i - g_last_rotary_time r) <? ROTARY_DEBOUNCE_MS.

(** First branch: switch low with both phases at rest. *)
Definition isr_sees_press (i : isr_input) : bool :=
  negb (sw_state i) && clk_state i && dt_state i.

(** Second branch: switch high, a press recorded, both phases at rest. *)
Definition isr_sees_release (r : rotary) (i : isr_input) : bool :=
  sw_state i && g_rotary_pressed r && clk_state i && dt_state i.

(** The new state made from the pin readings:
    [(encoder_state_t)((clk_state << 1) | dt_state)]. *)
Definition phase_of (i : isr_input) : encoder_state_t :=
  encoder_of_code
    (Z.lor (Z.shiftl (level_code (clk_state i)) 1) (level_code (dt_state i))).

Definition rotary_encoder_isr (r : rotary) (i : isr_input)
  : rotary * list button_event_t :=
  let now := isr_now i in
  if isr_debounced r i then (r, [])
  else if isr_sees_press i then
    if negb (g_rotary_pressed r) then
      (mk_rotary (g_last_rotary_time r) (g_last_sw_time r)
                 now true false (g_encoder_state r) 0, [])
    else (r, [])
  else if isr_sees_release r i then
    let r' := mk_rotary (g_last_rotary_time r) (g_last_sw_time r)
                        (g_rotary_press_start r) false
                        (g_long_press_sent r) (g_encoder_state r)
                        (g_encoder_position r) in
    let press_duration := u32 (now - g_rotary_press_start r) in
    if press_duration >=? LONG_PRESS_THRESHOLD_MS then
      (r', send_button_event BTN_ROTARY BTN_EVENT_RELEASE_AFTER_LONG)
    else if press_duration >? DEBOUNCE_MS then
      (r', send_button_event BTN_ROTARY BTN_EVENT_PRESS)
    else (r', [])
  else
    let new_state := phase_of i in
    let direction := transition (g_encoder_state r) new_state in
    if negb (direction =? 0) then
      let position := i8 (g_encoder_position r + direction) in
      if position >=? 2 then
        (mk_rotary now (g_last_sw_time r) (g_rotary_press_start r)
                   (g_rotary_pressed r) (g_long_press_sent r) new_state 0,
         send_button_event BTN_ROTARY BTN_EVENT_ROTARY_CW)
      else if position <=? -2 then
        (mk_rotary now (g_last_sw_time r) (g_rotary_press_start r)
                   (g_rotary_pressed r) (g_long_press_sent r) new_state 0,
         send_button_event BTN_ROTARY BTN_EVENT_ROTARY_CCW)
      else
        (mk_rotary now (g_last_sw_time r) (g_rotary_press_start r)
                   (g_rotary_pressed r) (g_long_press_sent r) new_state
                   position, [])
    else
      (mk_rotary (g_last_rotary_time r) (g_last_sw_time r)
                 (g_rotary_press_start r) (g_rotary_pressed r)
                 (g_long_press_sent r) new_state (g_encoder_position r), []).

(** The firing gets past the debounce test and past both push-button
    branches, into the decoding of the phase pair. *)
Definition isr_decodes (r : rotary) (i : isr_input) : bool :=
  negb (isr_debounced r i) && negb (isr_sees_press i) &&
  negb (isr_sees_release r i).

(** Successive firings of the ISR alone. *)
Fixpoint isr_run (r : rotary) (firings : list isr_input) : rotary :=
  match firings with
  | [] => r
  | i :: rest => isr_run (fst (rotary_encoder_isr r i)) rest
  end.

(** The reading of the specification: any two consecutive firings that get
    to read the pins and find the same phase pair. *)
Definition repeated_phase_keeps_accumulator : Prop :=
  forall (r : rotary) (i1 i2 : isr_input),
    let r1 := fst (rotary_encoder_isr r i1) in
    let r2 := fst (rotary_encoder_isr r1 i2) in
    isr_debounced r i1 = false ->
    isr_debounced r1 i2 = false ->
    clk_state i2 = clk_state i1 ->
    dt_state i2 = dt_state i1 ->
    g_encoder_position r2 = g_encoder_position r1.

(* ------------------------------------------------------------------- *)
(** *** ADC ladder decoder *)

(** Straight-line C code with early [return]s: a statement either returns
    a value from the function or falls through to the next statement. *)
Inductive flow (R A : Type) : Type :=
| Return (r : R)
| Fallthrough (a : A).
Arguments Return {R A} r.
Arguments Fallthrough {R A} a.

Definition and_then {R A B} (c : flow R A) (k : A -> flow R B) : flow R B :=
  match c with
  | Return r => Return r
  | Fallthrough a => k a
  end.

Notation "c ;;; k" := (and_then c (fun _ => k))
  (at level 61, right associativity).

(** A C function whose last statement is a [return]. *)
Definition returned {R} (c : flow R R) : R :=
  match c with Return r => r | Fallthrough r => r end.

(** [return r;] as a statement in the middle of a body. *)
Definition return_ {R} (r : R) : flow R unit := Return r.

(** [if (c) return r;] *)
Definition return_if {R} (c : bool) (r : R) : flow R unit :=
  if c then Return r else Fallthrough tt.

(** The outcome of the successive [adc_oneshot_read] calls: [Some v] is
    [ESP_OK] with reading [v], [None] any error, in which case the sample
    is skipped.  A call beyond the end of the list counts as failed. *)
Definition adc_readings := list (option Z).

(** The averaging loop, [i] running from [i] up to [ADC_SAMPLES].  The
    readings are 12-bit, so the [int] sum cannot overflow. *)
Fixpoint adc_sum_loop (n : nat) (i : nat) (rs : adc_readings) (adc_sum : Z)
  : Z :=
  match n with
  | O => adc_sum
  | S n' =>
      let adc_sum' :=
        match nth i rs None with
        | Some reading => adc_sum + reading
        | None => adc_sum
        end in
      adc_sum_loop n' (S i) rs adc_sum'
  end.

(** The threshold-matching loop: first band that contains the reading. *)
Fixpoint match_threshold_loop (n : nat) (i : Z) (adc_reading : Z)
  : flow button_id_t unit :=
  match n with
  | O => Fallthrough tt
  | S n' =>
      let t := nth (Z.to_nat i) button_thresholds 0 in
      return_if ((adc_reading >=? t - THRESHOLD_TOLERANCE) &&
                 (adc_reading <=? t + THRESHOLD_TOLERANCE))
                (button_of_code (i + 1)) ;;;
      match_threshold_loop n' (i + 1) adc_reading
  end.

(** The body of [adc_read_button] after averaging, statement by statement,
    including the bare [return BTN_NONE;] that precedes the threshold
    loop. *)
Definition adc_classify (adc_reading : Z) : flow button_id_t button_id_t :=
  return_if (adc_reading <? 100) BTN_NONE ;;;
  return_ BTN_NONE ;;;
  match_threshold_loop (Z.to_nat NUM_BUTTONS) 0 adc_reading ;;;
  Return BTN_NONE.

Definition adc_read_button (rs : adc_readings) : button_id_t :=
  let adc_sum := adc_sum_loop (Z.to_nat ADC_SAMPLES) 0 rs 0 in
  let adc_reading := cdiv adc_sum ADC_SAMPLES in
  returned (adc_classify adc_reading).

(** The function as it would read without the bare early return: the
    threshold loop as the comments of the source describe it. Used only to
    show that the loop itself is able to decode a button. *)
Definition adc_classify_thresholds (adc_reading : Z)
  : flow button_id_t button_id_t :=
  return_if (adc_reading <? 100) BTN_NONE ;;;
  match_threshold_loop (Z.to_nat NUM_BUTTONS) 0 adc_reading ;;;
  Return BTN_NONE.

(** Locals of [adc_button_monitor_task]. *)
Record adc_monitor : Set := mk_adc_monitor {
  last_button : button_id_t;
  press_time : Z;
  long_press_sent : bool;
  last_repeat_time : Z
}.

Definition adc_monitor_boot : adc_monitor :=
  mk_adc_monitor BTN_NONE 0 false 0.

(** Delivery through [g_callback], when one is registered. *)
Definition call_back (g_callback : bool) (e : button_event_t)
  : list button_event_t :=
  if g_callback then [e] else [].

(** One iteration of the [while (1)] loop of [adc_button_monitor_task]:
    the readings of this poll, the tick count in ms, and the events handed
    to the callback. *)
Definition adc_button_monitor_step (g_callback : bool)
    (m : adc_monitor) (rs : adc_readings) (now : Z)
  : adc_monitor * list button_event_t :=
  let current_button := adc_read_button rs in
  if negb (button_eqb current_button BTN_NONE) &&
     negb (button_eqb current_button (last_button m)) then
    (mk_adc_monitor current_button now false now,
     call_back g_callback (ev current_button BTN_EVENT_PRESS))
  else if negb (button_eqb current_button BTN_NONE) &&
          button_eqb current_button (last_button m) then
    let fire_long :=
      negb (long_press_sent m) && (u32 (now - press_time m) >=? 1000) in
    let sent := if fire_long then true else long_press_sent m in
    let out1 :=
      if fire_long
      then call_back g_callback (ev current_button BTN_EVENT_LONG_PRESS)
      else [] in
    let fire_repeat :=
      sent && (u32 (now - last_repeat_time m) >=? BUTTON_REPEAT_INTERVAL_MS) in
    let out2 :=
      if fire_repeat
      then call_back g_callback (ev current_button BTN_EVENT_REPEAT)
      else [] in
    (mk_adc_monitor current_button (press_time m) sent
                    (if fire_repeat then now else last_repeat_time m),
     out1 ++ out2)
  else if button_eqb current_button BTN_NONE &&
          negb (button_eqb (last_button m) BTN_NONE) then
    (mk_adc_monitor current_button (press_time m) (long_press_sent m)
                    (last_repeat_time m),
     call_back g_callback (ev (last_button m) BTN_EVENT_RELEASE))
  else
    (mk_adc_monitor current_button (press_time m) (long_press_sent m)
                    (last_repeat_time m), []).

(* ------------------------------------------------------------------- *)
(** *** Long-press monitor task

    [button_long_press_monitor_task] runs in thread context and can be
    preempted by the ISR between any two of its accesses to the shared
    globals.  Its loop body is therefore cut at the accesses: the test of
    the two flags, the read of the clock and of the press start followed by
    the delivery of the event, and the final store into the latch. *)

Inductive monitor_pc : Set :=
| MON_DELAY      (* in [vTaskDelay], about to test the flags *)
| MON_TIMING     (* flags tested, about to compute [press_duration] *)
| MON_LATCH.     (* event delivered, about to set [g_long_press_sent] *)

Record system : Set := mk_system {
  shared : rotary;
  monitor : monitor_pc;
  g_callback : bool
}.

Definition monitor_step (s : system) (now : Z)
  : system * list button_event_t :=
  let r := shared s in
  match monitor s with
  | MON_DELAY =>
      if g_rotary_pressed r && negb (g_long_press_sent r)
      then (mk_system r MON_TIMING (g_callback s), [])
      else (s, [])
  | MON_TIMING =>
      let press_duration := u32 (now - g_rotary_press_start r) in
      if press_duration >=? LONG_PRESS_THRESHOLD_MS
      then (mk_system r MON_LATCH (g_callback s),
            call_back (g_callback s) (ev BTN_ROTARY BTN_EVENT_LONG_PRESS))
      else (mk_system r MON_DELAY (g_callback s), [])
  | MON_LATCH =>
      (mk_system (mk_rotary (g_last_rotary_time r) (g_last_sw_time r)
                            (g_rotary_press_start r) (g_rotary_pressed r)
                            true (g_encoder_state r) (g_encoder_position r))
                 MON_DELAY (g_callback s), [])
  end.

(** The two kinds of activity on the shared globals. *)
Inductive activity : Set :=
| IsrFires (i : isr_input)
| MonitorRuns (now : Z).

Definition system_step (s : system) (a : activity)
  : system * list button_event_t :=
  match a with
  | IsrFires i =>
      let '(r', out) := rotary_encoder_isr (shared s) i in
      (mk_system r' (monitor s) (g_callback s), out)
  | MonitorRuns now => monitor_step s now
  end.

(** An interleaving of ISR firings and monitor steps, with every event
    emitted on the way, from either source, in order. *)
Fixpoint system_run (s : system) (tr : list activity)
  : system * list button_event_t :=
  match tr with
  | [] => (s, [])
  | a :: tr' =>
      let '(s1, out1) := system_step s a in
      let '(s2, out2) := system_run s1 tr' in
      (s2, out1 ++ out2)
  end.

(** A firing of the ISR that starts a press: it reaches the first branch
    with no press recorded. *)
Definition press_start (s : system) (a : activity) : bool :=
  match a with
  | IsrFires i =>
      negb (isr_debounced (shared s) i) && isr_sees_press i &&
      negb (g_rotary_pressed (shared s))
  | MonitorRuns _ => false
  end.

(** A firing of the ISR that ends a press: it reaches the second branch. *)
Definition press_release (s : system) (a : activity) : bool :=
  match a with
  | IsrFires i =>
      negb (isr_debounced (shared s) i) && negb (isr_sees_press i) &&
      isr_sees_release (shared s) i
  | MonitorRuns _ => false
  end.

(** No step of the interleaving starts a new press. *)
Fixpoint same_press (s : system) (tr : list activity) : bool :=
  match tr with
  | [] => true
  | a :: tr' =>
      negb (press_start s a) && same_press (fst (system_step s a)) tr'
  end.

(** The press recorded in [s] is still recorded after every step. *)
Fixpoint held_throughout (s : system) (tr : list activity) : bool :=
  g_rotary_pressed (shared s) &&
  match tr with
  | [] => true
  | a :: tr' => held_throughout (fst (system_step s a)) tr'
  end.

Definition is_long_press (e : button_event_t) : bool :=
  event_type_eqb (event e) BTN_EVENT_LONG_PRESS.

Definition long_presses (out : list button_event_t) : nat :=
  List.length (filter is_long_press out).

(** What the monitor can still deliver before the next press start: one
    event when the flags allow the test to pass or have let it pass, none
    when the latch is set or about to be set. *)
Definition pending_long_press (s : system) : nat :=
  match monitor s with
  | MON_DELAY =>
      if g_rotary_pressed (shared s) && negb (g_long_press_sent (shared s))
      then 1%nat else 0%nat
  | MON_TIMING => 1%nat
  | MON_LATCH => 0%nat
  end.

Fixpoint press_starts (s : system) (tr : list activity) : nat :=
  match tr with
  | [] => 0%nat
  | a :: tr' =>
      ((if press_start s a then 1 else 0) +
       press_starts (fst (system_step s a)) tr')%nat
  end.

End Buttons.

(* ===================================================================== *)
(** ** IEEE-754 arithmetic of the frequencies *)
(* ===================================================================== *)

Module CFloat.
Import CInt.

(** The tuned frequency, the presets and the browsing candidate are C
    [float]s; the expressions that compute them mix [float], [double] and
    integer operands.  Values are [spec_float]s, operations are those of
    [SpecFloat] at the precision C selects: binary32 for [float] operands,
    binary64 as soon as a [double] literal takes part. *)
Definition float : Set := spec_float.

Definition f32_add := SFadd 24 128.
Definition f32_mul := SFmul 24 128.
Definition f32_div := SFdiv 24 128.
Definition f64_add := SFadd 53 1024.
Definition f64_sub := SFsub 53 1024.
Definition f64_mul := SFmul 53 1024.
Definition f64_div := SFdiv 53 1024.

(** Conversion of an integer operand. *)
Definition f32_of_Z (z : Z) : float := binary_normalize 24 128 z 0 false.
Definition f64_of_Z (z : Z) : spec_float := binary_normalize 53 1024 z 0 false.

(** Narrowing and widening between the two formats. *)
Definition f32_of_f64 (d : spec_float) : float :=
  match d with
  | S754_finite s m e => binary_normalize 24 128 (cond_Zopp s (Zpos m)) e s
  | _ => d
  end.

Definition f64_of_f32 (f : float) : spec_float :=
  match f with
  | S754_finite s m e => binary_normalize 53 1024 (cond_Zopp s (Zpos m)) e s
  | _ => f
  end.

(** A decimal [double] literal [n/d], e.g. [87.5] as [875/10]: the nearest
    binary64 value, which the correctly rounded quotient of the two
    integers is. *)
Definition f64_lit (n d : Z) : spec_float := f64_div (f64_of_Z n) (f64_of_Z d).

(** A decimal literal stored into a [float]. *)
Definition f32_lit (n d : Z) : float := f32_of_f64 (f64_lit n d).

(** Conversion to an integer type discards the fraction.  Outside the
    range of the target C leaves the result undefined; the value kept here
    is the truncated integer reduced to the width of the target, and
    nothing is claimed from it. *)
Definition truncate (d : spec_float) : Z :=
  match d with
  | S754_finite s m e =>
      cond_Zopp s (if 0 <=? e then Zpos m * 2 ^ e
                   else Z.quot (Zpos m) (2 ^ (- e)))
  | _ => 0
  end.

(** [f > 0] with [f] a [float]. *)
Definition f32_positive (f : float) : bool := SFltb (f32_of_Z 0) f.

(** [(uint32_t)(f * 100)], the hundredths written to the store. *)
Definition hundredths_of (f : float) : Z :=
  u32 (truncate (f32_mul f (f32_of_Z 100))).

(** [u32val / 100.0f], the frequency read back from the store. *)
Definition of_hundredths (u32val : Z) : float :=
  f32_div (f32_of_Z u32val) (f32_of_Z 100).

(** [87.5 + (idx * 0.2)], evaluated in [double] and stored in a [float]. *)
Definition browsing_freq_of (idx : Z) : float :=
  f32_of_f64 (f64_add (f64_lit 875 10) (f64_mul (f64_of_Z idx) (f64_lit 2 10))).

(** [(uint8_t)((freq - 87.5) / 0.2)]. *)
Definition browsing_idx_of (freq : float) : Z :=
  u8 (truncate (f64_div (f64_sub (f64_of_f32 freq) (f64_lit 875 10))
                        (f64_lit 2 10))).

Definition f32_zero : float := S754_zero false.

End CFloat.

(* ===================================================================== *)
(** ** car_stereo_state.c *)
(* ===================================================================== *)

(** The functions of the file are embedded one for one, under their own
    names, as computations over the module-level globals that leave a trail
    of the calls they make to the display handler, the mode-change callback,
    the persistent store, the Bluetooth component and the scheduler.  The
    [ESP_LOG] lines are diagnostics and are left out. *)

Module Stereo.
Import CInt CFloat Buttons.
Local Open Scope string_scope.
Local Open Scope list_scope.
Local Open Scope Z_scope.

(* --------------------------------------------------------------------- *)
(** *** Types of car_stereo_state.h *)

Inductive stereo_mode_t : Set :=
| MODE_OFF | MODE_RADIO | MODE_BLUETOOTH | MODE_PHONE_CALL | MODE_PHONEBOOK.

Definition mode_code (m : stereo_mode_t) : Z :=
  match m with
  | MODE_OFF => 0 | MODE_RADIO => 1 | MODE_BLUETOOTH => 2
  | MODE_PHONE_CALL => 3 | MODE_PHONEBOOK => 4
  end.

Definition mode_eqb (a b : stereo_mode_t) : bool := mode_code a =? mode_code b.

Inductive display_notification_type_t : Set :=
| DISPLAY_RADIO_STATION | DISPLAY_RADIO_SONG | DISPLAY_BT_TRACK
| DISPLAY_BT_ARTIST | DISPLAY_BT_ALBUM | DISPLAY_CALL_INCOMING
| DISPLAY_CALL_ACTIVE | DISPLAY_PHONEBOOK_CONTACT | DISPLAY_VOLUME
| DISPLAY_FREQUENCY | DISPLAY_MODE_CHANGE.

(** The main text of a notification is either a string handed over as it
    is, or the output of one of the [snprintf] formats of the handlers; for
    the latter the format and its arguments are kept, the rendering of
    digits being the C library's. *)
Inductive text_t : Set :=
| Str (s : string)                       (* a string *)
| Fmt_d (v : Z)                          (* "%d" *)
| Fmt_MHz (f : float)                    (* "%.1f MHz" *)
| Fmt_station (n : Z) (f : float)        (* "Station %d: %.1f MHz" *)
| Fmt_saved (n : Z).                     (* "Station %d Saved" *)

Record display_notification_t : Set := mk_notification {
  type : display_notification_type_t;
  text : text_t;
  subtext : string;
  duration_ms : Z;
  priority : Z
}.

Inductive radio_band_t : Set := RADIO_BAND_FM | RADIO_BAND_AM.

Definition band_code (b : radio_band_t) : Z :=
  match b with RADIO_BAND_FM => 0 | RADIO_BAND_AM => 1 end.

Definition band_eqb (a b : radio_band_t) : bool := band_code a =? band_code b.

(** [radio_state_t]. *)
Module Radio.
Record t : Type := mk {
  frequency : float;
  volume : Z;
  band : radio_band_t;
  preset_freq : list (list float);
  station_name : string;
  song_info : string
}.
Definition set_frequency (v : float) (x : t) : t :=
  mk v (volume x) (band x) (preset_freq x) (station_name x) (song_info x).
Definition set_volume (v : Z) (x : t) : t :=
  mk (frequency x) v (band x) (preset_freq x) (station_name x)
    (song_info x).
Definition set_band (v : radio_band_t) (x : t) : t :=
  mk (frequency x) (volume x) v (preset_freq x) (station_name x)
    (song_info x).
Definition set_preset_freq (v : list (list float)) (x : t) : t :=
  mk (frequency x) (volume x) (band x) v (station_name x) (song_info x).
Definition set_station_name (v : string) (x : t) : t :=
  mk (frequency x) (volume x) (band x) (preset_freq x) v (song_info x).
Definition set_song_info (v : string) (x : t) : t :=
  mk (frequency x) (volume x) (band x) (preset_freq x) (station_name x) v.
End Radio.

(** [a2dp_state_t]. *)
Module A2dp.
Record t : Type := mk {
  volume : Z;
  playing : bool;
  track : string;
  artist : string;
  album : string
}.
Definition set_volume (v : Z) (x : t) : t :=
  mk v (playing x) (track x) (artist x) (album x).
Definition set_playing (v : bool) (x : t) : t :=
  mk (volume x) v (track x) (artist x) (album x).
Definition set_track (v : string) (x : t) : t :=
  mk (volume x) (playing x) v (artist x) (album x).
Definition set_artist (v : string) (x : t) : t :=
  mk (volume x) (playing x) (track x) v (album x).
End A2dp.

(** [hfp_state_t]. *)
Module Hfp.
Record t : Type := mk {
  speaker_volume : Z;
  mic_volume : Z;
  call_active : bool;
  caller_id : string
}.
Definition set_speaker_volume (v : Z) (x : t) : t :=
  mk v (mic_volume x) (call_active x) (caller_id x).
Definition set_mic_volume (v : Z) (x : t) : t :=
  mk (speaker_volume x) v (call_active x) (caller_id x).
Definition set_call_active (v : bool) (x : t) : t :=
  mk (speaker_volume x) (mic_volume x) v (caller_id x).
End Hfp.

(** [stereo_config_t]: for each callback, whether it is set.  The radio
    handle is never used. *)
Record stereo_config_t : Set := mk_config {
  display_handler : bool;
  on_mode_change : bool
}.

(** [bt_device_settings_t]. *)
Record bt_device_settings_t : Set := mk_bt_device {
  mac_addr : list Z;
  a2dp_volume : Z;
  hfp_speaker_volume : Z;
  hfp_mic_volume : Z;
  valid : bool
}.

Definition MAX_BT_DEVICES : Z := 5.

(** [bt_volume_target_t] comes from the header of the Bluetooth component,
    which is outside the repository; the handler names three targets and
    has a [default] for anything else. *)
Inductive bt_volume_target_t : Set :=
| BT_VOLUME_TARGET_A2DP | BT_VOLUME_TARGET_HFP_SPEAKER
| BT_VOLUME_TARGET_HFP_MIC | BT_VOLUME_TARGET_other.

(* --------------------------------------------------------------------- *)
(** *** The module-level state *)

(** Every [static] of the file except [g_phonebook_state], which no
    function reads or writes.  [g_station_tune_timer] is [true] while the
    handle of a timer task is stored in it. *)
Record globals : Type := mk_globals {
  g_powered_on : bool;
  g_current_mode : stereo_mode_t;
  g_mode_before_call : stereo_mode_t;
  g_mode_before_phonebook : stereo_mode_t;
  g_radio_state : Radio.t;
  g_a2dp_state : A2dp.t;
  g_hfp_state : Hfp.t;
  g_config : stereo_config_t;
  g_current_band : radio_band_t;
  g_bt_devices : list bt_device_settings_t;
  g_current_bt_device_mac : list Z;
  g_browsing_stations : bool;
  g_browsing_station_idx : Z;
  g_browsing_station_freq : float;
  g_station_tune_timer : bool;
  g_voice_command_active : bool;
  g_caller_id : string;
  g_voice_recognition_active : bool
}.

Definition set_g_powered_on (v : bool) (x : globals) : globals :=
  mk_globals v (g_current_mode x) (g_mode_before_call x)
    (g_mode_before_phonebook x) (g_radio_state x) (g_a2dp_state x)
    (g_hfp_state x) (g_config x) (g_current_band x) (g_bt_devices x)
    (g_current_bt_device_mac x) (g_browsing_stations x)
    (g_browsing_station_idx x) (g_browsing_station_freq x)
    (g_station_tune_timer x) (g_voice_command_active x) (g_caller_id x)
    (g_voice_recognition_active x).
Definition set_g_current_mode (v : stereo_mode_t) (x : globals) : globals :=
  mk_globals (g_powered_on x) v (g_mode_before_call x)
    (g_mode_before_phonebook x) (g_radio_state x) (g_a2dp_state x)
    (g_hfp_state x) (g_config x) (g_current_band x) (g_bt_devices x)
    (g_current_bt_device_mac x) (g_browsing_stations x)
    (g_browsing_station_idx x) (g_browsing_station_freq x)
    (g_station_tune_timer x) (g_voice_command_active x) (g_caller_id x)
    (g_voice_recognition_active x).
Definition set_g_mode_before_call (v : stereo_mode_t) (x : globals) : globals :=
  mk_globals (g_powered_on x) (g_current_mode x) v
    (g_mode_before_phonebook x) (g_radio_state x) (g_a2dp_state x)
    (g_hfp_state x) (g_config x) (g_current_band x) (g_bt_devices x)
    (g_current_bt_device_mac x) (g_browsing_stations x)
    (g_browsing_station_idx x) (g_browsing_station_freq x)
    (g_station_tune_timer x) (g_voice_command_active x) (g_caller_id x)
    (g_voice_recognition_active x).
Definition set_g_radio_state (v : Radio.t) (x : globals) : globals :=
  mk_globals (g_powered_on x) (g_current_mode x) (g_mode_before_call x)
    (g_mode_before_phonebook x) v (g_a2dp_state x) (g_hfp_state x)
    (g_config x) (g_current_band x) (g_bt_devices x)
    (g_current_bt_device_mac x) (g_browsing_stations x)
    (g_browsing_station_idx x) (g_browsing_station_freq x)
    (g_station_tune_timer x) (g_voice_command_active x) (g_caller_id x)
    (g_voice_recognition_active x).
Definition set_g_a2dp_state (v : A2dp.t) (x : globals) : globals :=
  mk_globals (g_powered_on x) (g_current_mode x) (g_mode_before_call x)
    (g_mode_before_phonebook x) (g_radio_state x) v (g_hfp_state x)
    (g_config x) (g_current_band x) (g_bt_devices x)
    (g_current_bt_device_mac x) (g_browsing_stations x)
    (g_browsing_station_idx x) (g_browsing_station_freq x)
    (g_station_tune_timer x) (g_voice_command_active x) (g_caller_id x)
    (g_voice_recognition_active x).
Definition set_g_hfp_state (v : Hfp.t) (x : globals) : globals :=
  mk_globals (g_powered_on x) (g_current_mode x) (g_mode_before_call x)
    (g_mode_before_phonebook x) (g_radio_state x) (g_a2dp_state x) v
    (g_config x) (g_current_band x) (g_bt_devices x)
    (g_current_bt_device_mac x) (g_browsing_stations x)
    (g_browsing_station_idx x) (g_browsing_station_freq x)
    (g_station_tune_timer x) (g_voice_command_active x) (g_caller_id x)
    (g_voice_recognition_active x).
Definition set_g_config (v : stereo_config_t) (x : globals) : globals :=
  mk_globals (g_powered_on x) (g_current_mode x) (g_mode_before_call x)
    (g_mode_before_phonebook x) (g_radio_state x) (g_a2dp_state x)
    (g_hfp_state x) v (g_current_band x) (g_bt_devices x)
    (g_current_bt_device_mac x) (g_browsing_stations x)
    (g_browsing_station_idx x) (g_browsing_station_freq x)
    (g_station_tune_timer x) (g_voice_command_active x) (g_caller_id x)
    (g_voice_recognition_active x).
Definition set_g_current_band (v : radio_band_t) (x : globals) : globals :=
  mk_globals (g_powered_on x) (g_current_mode x) (g_mode_before_call x)
    (g_mode_before_phonebook x) (g_radio_state x) (g_a2dp_state x)
    (g_hfp_state x) (g_config x) v (g_bt_devices x)
    (g_current_bt_device_mac x) (g_browsing_stations x)
    (g_browsing_station_idx x) (g_browsing_station_freq x)
    (g_station_tune_timer x) (g_voice_command_active x) (g_caller_id x)
    (g_voice_recognition_active x).
Definition set_g_bt_devices (v : list bt_device_settings_t) (x : globals) : globals :=
  mk_globals (g_powered_on x) (g_current_mode x) (g_mode_before_call x)
    (g_mode_before_phonebook x) (g_radio_state x) (g_a2dp_state x)
    (g_hfp_state x) (g_config x) (g_current_band x) v
    (g_current_bt_device_mac x) (g_browsing_stations x)
    (g_browsing_station_idx x) (g_browsing_station_freq x)
    (g_station_tune_timer x) (g_voice_command_active x) (g_caller_id x)
    (g_voice_recognition_active x).
Definition set_g_current_bt_device_mac (v : list Z) (x : globals) : globals :=
  mk_globals (g_powered_on x) (g_current_mode x) (g_mode_before_call x)
    (g_mode_before_phonebook x) (g_radio_state x) (g_a2dp_state x)
    (g_hfp_state x) (g_config x) (g_current_band x) (g_bt_devices x) v
    (g_browsing_stations x) (g_browsing_station_idx x)
    (g_browsing_station_freq x) (g_station_tune_timer x)
    (g_voice_command_active x) (g_caller_id x) (g_voice_recognition_active
    x).
Definition set_g_browsing_stations (v : bool) (x : globals) : globals :=
  mk_globals (g_powered_on x) (g_current_mode x) (g_mode_before_call x)
    (g_mode_before_phonebook x) (g_radio_state x) (g_a2dp_state x)
    (g_hfp_state x) (g_config x) (g_current_band x) (g_bt_devices x)
    (g_current_bt_device_mac x) v (g_browsing_station_idx x)
    (g_browsing_station_freq x) (g_station_tune_timer x)
    (g_voice_command_active x) (g_caller_id x) (g_voice_recognition_active
    x).
Definition set_g_browsing_station_idx (v : Z) (x : globals) : globals :=
  mk_globals (g_powered_on x) (g_current_mode x) (g_mode_before_call x)
    (g_mode_before_phonebook x) (g_radio_state x) (g_a2dp_state x)
    (g_hfp_state x) (g_config x) (g_current_band x) (g_bt_devices x)
    (g_current_bt_device_mac x) (g_browsing_stations x) v
    (g_browsing_station_freq x) (g_station_tune_timer x)
    (g_voice_command_active x) (g_caller_id x) (g_voice_recognition_active
    x).
Definition set_g_browsing_station_freq (v : float) (x : globals) : globals :=
  mk_globals (g_powered_on x) (g_current_mode x) (g_mode_before_call x)
    (g_mode_before_phonebook x) (g_radio_state x) (g_a2dp_state x)
    (g_hfp_state x) (g_config x) (g_current_band x) (g_bt_devices x)
    (g_current_bt_device_mac x) (g_browsing_stations x)
    (g_browsing_station_idx x) v (g_station_tune_timer x)
    (g_voice_command_active x) (g_caller_id x) (g_voice_recognition_active
    x).
Definition set_g_station_tune_timer (v : bool) (x : globals) : globals :=
  mk_globals (g_powered_on x) (g_current_mode x) (g_mode_before_call x)
    (g_mode_before_phonebook x) (g_radio_state x) (g_a2dp_state x)
    (g_hfp_state x) (g_config x) (g_current_band x) (g_bt_devices x)
    (g_current_bt_device_mac x) (g_browsing_stations x)
    (g_browsing_station_idx x) (g_browsing_station_freq x) v
    (g_voice_command_active x) (g_caller_id x) (g_voice_recognition_active
    x).
Definition set_g_caller_id (v : string) (x : globals) : globals :=
  mk_globals (g_powered_on x) (g_current_mode x) (g_mode_before_call x)
    (g_mode_before_phonebook x) (g_radio_state x) (g_a2dp_state x)
    (g_hfp_state x) (g_config x) (g_current_band x) (g_bt_devices x)
    (g_current_bt_device_mac x) (g_browsing_stations x)
    (g_browsing_station_idx x) (g_browsing_station_freq x)
    (g_station_tune_timer x) (g_voice_command_active x) v
    (g_voice_recognition_active x).
Definition set_g_voice_recognition_active (v : bool) (x : globals) : globals :=
  mk_globals (g_powered_on x) (g_current_mode x) (g_mode_before_call x)
    (g_mode_before_phonebook x) (g_radio_state x) (g_a2dp_state x)
    (g_hfp_state x) (g_config x) (g_current_band x) (g_bt_devices x)
    (g_current_bt_device_mac x) (g_browsing_stations x)
    (g_browsing_station_idx x) (g_browsing_station_freq x)
    (g_station_tune_timer x) (g_voice_command_active x) (g_caller_id x) v.

(** The state the program starts in: the static initialisers, zero where
    there is none. *)
Definition globals_boot : globals :=
  mk_globals false MODE_OFF MODE_RADIO MODE_RADIO
    (Radio.mk f32_zero 0 RADIO_BAND_FM
       [repeat f32_zero 5; repeat f32_zero 5] "" "")
    (A2dp.mk 0 false "" "" "")
    (Hfp.mk 0 0 false "")
    (mk_config false false)
    RADIO_BAND_FM
    (repeat (mk_bt_device (repeat 0 6) 0 0 0 false) 5)
    (repeat 0 6)
    false 0 (f32_lit 875 10) false false "" false.

(* --------------------------------------------------------------------- *)
(** *** The persistent store

    The namespace ["car_stereo"] as [save_to_nvs] and
    [save_bt_device_settings] lay it out, one field per key, [None] for a
    key that is absent.  Modes and bands are stored as the byte of their
    enumerator, volumes as bytes, frequencies as 32-bit hundredths. *)

Record nvs_image : Set := mk_nvs {
  nvs_power_on : option Z;                 (* "power_on" *)
  nvs_mode : option stereo_mode_t;         (* "mode" *)
  nvs_radio_band : option radio_band_t;    (* "radio_band" *)
  nvs_radio_freq : option Z;               (* "radio_freq" *)
  nvs_radio_vol : option Z;                (* "radio_vol" *)
  nvs_a2dp_vol : option Z;                 (* "a2dp_vol" *)
  nvs_hfp_spk_vol : option Z;              (* "hfp_spk_vol" *)
  nvs_hfp_mic_vol : option Z;              (* "hfp_mic_vol" *)
  nvs_preset_fm : list (option Z);         (* "preset_fm_1" .. "preset_fm_5" *)
  nvs_preset_am : list (option Z)          (* "preset_am_1" .. "preset_am_5" *)
}.

(** The blob of one device: six address bytes and three volumes. *)
Record bt_blob : Set := mk_blob {
  blob_mac : list Z;
  blob_a2dp : Z;
  blob_hfp_speaker : Z;
  blob_hfp_mic : Z
}.

Record nvs_bt_image : Set := mk_nvs_bt {
  nvs_bt_dev_cnt : option Z;               (* "bt_dev_cnt" *)
  nvs_bt_dev : list (option bt_blob)       (* "bt_dev_0" .. "bt_dev_4" *)
}.

(** What [nvs_open] gives access to: [None] when the namespace cannot be
    opened. *)
Definition nvs_store : Set := option (nvs_image * nvs_bt_image).

(* --------------------------------------------------------------------- *)
(** *** Side effects *)

(** Calls into the Bluetooth component. *)
Inductive bt_call : Set :=
| set_a2dp_volume (v : Z)
| set_hfp_speaker_volume (v : Z)
| set_hfp_mic_volume (v : Z)
| avrc_play | avrc_pause | avrc_next | avrc_prev
| answer_call | hangup_call
| start_voice_recognition | stop_voice_recognition
| bt_volume_control_init (a2dp hfp_speaker hfp_mic : Z).

(** What a handler does to the world outside the globals, in order.  A
    save is recorded with the values it hands to the store once the
    namespace is open. *)
Inductive effect : Set :=
| Display (n : display_notification_t)     (* g_config.display_handler *)
| ModeChange (old_mode new_mode : stereo_mode_t) (* g_config.on_mode_change *)
| NvsSave (img : nvs_image)                (* save_to_nvs *)
| NvsSaveBt (img : nvs_bt_image)           (* save_bt_device_settings *)
| Bt (c : bt_call)                         (* a2dpSinkHfpHf_... *)
| TimerDelete                              (* vTaskDelete(g_station_tune_timer) *)
| TimerCreate.                             (* xTaskCreate(station_tune_timer_callback) *)

(** A handler reads and writes the globals and leaves a trail of effects. *)
Definition M (A : Type) : Type := globals -> A * globals * list effect.

Definition ret {A} (a : A) : M A := fun s => (a, s, []).

Definition bind {A B} (c : M A) (k : A -> M B) : M B :=
  fun s =>
    let '(a, s1, o1) := c s in
    let '(b, s2, o2) := k a s1 in
    (b, s2, o1 ++ o2).

Definition get {A} (f : globals -> A) : M A := fun s => (f s, s, []).
Definition modify (f : globals -> globals) : M unit := fun s => (tt, f s, []).
Definition emit (e : effect) : M unit := fun s => (tt, s, [e]).
Definition skip : M unit := ret tt.
Definition when (c : bool) (m : M unit) : M unit := if c then m else skip.

Declare Scope stereo_scope.
Delimit Scope stereo_scope with stereo.
Notation "x <- c ;; k" := (bind c (fun x => k))
  (at level 61, c at next level, right associativity) : stereo_scope.
Notation "c ;; k" := (bind c (fun _ => k))
  (at level 61, right associativity) : stereo_scope.
Open Scope stereo_scope.

(** Running a handler: the globals it leaves and the effects it made. *)
Definition exec (m : M unit) (s : globals) : globals * list effect :=
  let '(_, s', out) := m s in (s', out).

(** Updates of the nested structures. *)
Definition radio (f : Radio.t -> Radio.t) : M unit :=
  modify (fun s => set_g_radio_state (f (g_radio_state s)) s).
Definition a2dp (f : A2dp.t -> A2dp.t) : M unit :=
  modify (fun s => set_g_a2dp_state (f (g_a2dp_state s)) s).
Definition hfp (f : Hfp.t -> Hfp.t) : M unit :=
  modify (fun s => set_g_hfp_state (f (g_hfp_state s)) s).

(** [strncpy(dst, src, n)] into a buffer whose byte [n] is zero. *)
Definition strncpy (n : nat) (src : string) : string := substring 0 n src.

(** Assignment to an element of a C array held as a list; the indices the
    source uses are inside the array. *)
Fixpoint list_set {A} (i : nat) (v : A) (l : list A) : list A :=
  match l, i with
  | [], _ => []
  | _ :: l', O => v :: l'
  | x :: l', S i' => x :: list_set i' v l'
  end.

Definition preset_get (p : list (list float)) (b : radio_band_t) (idx : Z)
  : float :=
  nth (Z.to_nat idx) (nth (Z.to_nat (band_code b)) p []) f32_zero.

Definition preset_set (p : list (list float)) (b : radio_band_t) (idx : Z)
    (f : float) : list (list float) :=
  list_set (Z.to_nat (band_code b))
           (list_set (Z.to_nat idx) f (nth (Z.to_nat (band_code b)) p [])) p.

(* --------------------------------------------------------------------- *)
(** *** NVS persistence *)

Definition nvs_snapshot (s : globals) : nvs_image :=
  let r := g_radio_state s in
  let preset b i := Some (hundredths_of (preset_get (Radio.preset_freq r) b i)) in
  mk_nvs
    (Some (if g_powered_on s then 1 else 0))
    (Some (g_current_mode s))
    (Some (g_current_band s))
    (Some (hundredths_of (Radio.frequency r)))
    (Some (Radio.volume r))
    (Some (A2dp.volume (g_a2dp_state s)))
    (Some (Hfp.speaker_volume (g_hfp_state s)))
    (Some (Hfp.mic_volume (g_hfp_state s)))
    (map (preset RADIO_BAND_FM) [0; 1; 2; 3; 4])
    (map (preset RADIO_BAND_AM) [0; 1; 2; 3; 4]).

Definition save_to_nvs : M unit :=
  s <- get (fun s => s) ;;
  emit (NvsSave (nvs_snapshot s)).

(** [if (nvs_get_...(key, &val) == ESP_OK) assignment;] *)
Definition on_key {A} (v : option A) (f : A -> M unit) : M unit :=
  match v with Some a => f a | None => skip end.

(** The five [if]s of one band of presets. *)
Fixpoint load_presets (b : radio_band_t) (idx : Z) (keys : list (option Z))
  : M unit :=
  match keys with
  | [] => skip
  | k :: keys' =>
      on_key k (fun u32val =>
        radio (fun r => Radio.set_preset_freq
                 (preset_set (Radio.preset_freq r) b idx (of_hundredths u32val))
                 r)) ;;
      load_presets b (idx + 1) keys'
  end.

Definition load_from_nvs (nvs : nvs_store) : M unit :=
  match nvs with
  | Some (img, _) =>
      on_key (nvs_power_on img) (fun u8val =>
        modify (set_g_powered_on (negb (u8val =? 0)))) ;;
      on_key (nvs_mode img) (fun m => modify (set_g_current_mode m)) ;;
      on_key (nvs_radio_band img) (fun b =>
        modify (set_g_current_band b) ;;
        radio (Radio.set_band b)) ;;
      on_key (nvs_radio_freq img) (fun u32val =>
        radio (Radio.set_frequency (of_hundredths u32val))) ;;
      on_key (nvs_radio_vol img) (fun u8val =>
        radio (Radio.set_volume u8val)) ;;
      load_presets RADIO_BAND_FM 0 (firstn 5 (nvs_preset_fm img)) ;;
      load_presets RADIO_BAND_AM 0 (firstn 5 (nvs_preset_am img)) ;;
      on_key (nvs_a2dp_vol img) (fun u8val =>
        a2dp (A2dp.set_volume u8val)) ;;
      on_key (nvs_hfp_spk_vol img) (fun u8val =>
        hfp (Hfp.set_speaker_volume u8val)) ;;
      on_key (nvs_hfp_mic_vol img) (fun u8val =>
        hfp (Hfp.set_mic_volume u8val))
  | None =>
      modify (set_g_powered_on false) ;;
      modify (set_g_current_mode MODE_OFF)
  end.

(** The blob written for slot [i]. *)
Definition blob_of (d : bt_device_settings_t) : bt_blob :=
  mk_blob (mac_addr d) (a2dp_volume d) (hfp_speaker_volume d)
          (hfp_mic_volume d).

Definition save_bt_device_settings : M unit :=
  devs <- get g_bt_devices ;;
  let slots := firstn (Z.to_nat MAX_BT_DEVICES) devs in
  let count := u8 (Z.of_nat (List.length (filter valid slots))) in
  emit (NvsSaveBt
          (mk_nvs_bt (Some count)
             (map (fun d => if valid d then Some (blob_of d) else None) slots))).

(** The loop of [load_bt_device_settings] from slot [i] on. *)
Fixpoint load_bt_loop (n : nat) (i : Z) (count : Z) (blobs : list (option bt_blob))
  : M unit :=
  match n with
  | O => skip
  | S n' =>
      when ((i <? MAX_BT_DEVICES) && (i <? count))
        (on_key (nth (Z.to_nat i) blobs None) (fun b =>
           modify (fun s =>
             set_g_bt_devices
               (list_set (Z.to_nat i)
                  (mk_bt_device (blob_mac b) (blob_a2dp b)
                                (blob_hfp_speaker b) (blob_hfp_mic b) true)
                  (g_bt_devices s)) s)) ;;
         load_bt_loop n' (i + 1) count blobs)
  end.

Definition load_bt_device_settings (nvs : nvs_store) : M unit :=
  match nvs with
  | Some (_, bt) =>
      let count := match nvs_bt_dev_cnt bt with Some c => c | None => 0 end in
      load_bt_loop (Z.to_nat MAX_BT_DEVICES) 0 count (nvs_bt_dev bt)
  | None => skip
  end.

Definition mac_eqb (a b : list Z) : bool :=
  (List.length a =? List.length b)%nat &&
  forallb (fun p => fst p =? snd p) (combine a b).

(** The index of the first valid slot that holds [mac], or -1. *)
Fixpoint find_bt_device_loop (devs : list bt_device_settings_t) (i : Z)
    (mac : list Z) : Z :=
  match devs with
  | [] => -1
  | d :: devs' =>
      if valid d && mac_eqb (firstn 6 (mac_addr d)) (firstn 6 mac) then i
      else find_bt_device_loop devs' (i + 1) mac
  end.

Definition find_bt_device_by_mac (mac : list Z) : M Z :=
  devs <- get g_bt_devices ;;
  ret (find_bt_device_loop (firstn (Z.to_nat MAX_BT_DEVICES) devs) 0 mac).

Fixpoint find_free_loop (devs : list bt_device_settings_t) (i : Z) : Z :=
  match devs with
  | [] => 0
  | d :: devs' => if negb (valid d) then i else find_free_loop devs' (i + 1)
  end.

Definition find_free_bt_device_slot : M Z :=
  devs <- get g_bt_devices ;;
  ret (find_free_loop (firstn (Z.to_nat MAX_BT_DEVICES) devs) 0).

(* --------------------------------------------------------------------- *)
(** *** Display notifications *)

Definition clip (n : nat) (t : text_t) : text_t :=
  match t with
  | Str s => Str (strncpy n s)
  | _ => t
  end.

(** [subtext] is [None] for a [NULL] argument. *)
Definition send_display_notification (ty : display_notification_type_t)
    (t : text_t) (sub : option string) (duration : Z) (prio : Z) : M unit :=
  cfg <- get g_config ;;
  when (display_handler cfg)
    (emit (Display
             (mk_notification ty (clip 127 t)
                (match sub with Some s => strncpy 63 s | None => "" end)
                duration prio))).

Definition notify_mode_change (old_mode new_mode : stereo_mode_t) : M unit :=
  cfg <- get g_config ;;
  when (on_mode_change cfg) (emit (ModeChange old_mode new_mode)).

(* --------------------------------------------------------------------- *)
(** *** Station tuning timer *)

Definition STATION_TUNE_DELAY_MS : Z := 2000.

(** The body of the timer task once its [vTaskDelay] has elapsed. *)
Definition station_tune_timer_callback : M unit :=
  browsing <- get g_browsing_stations ;;
  when browsing
    (freq <- get g_browsing_station_freq ;;
     radio (Radio.set_frequency freq) ;;
     modify (set_g_browsing_stations false) ;;
     send_display_notification DISPLAY_FREQUENCY (Fmt_MHz freq) (Some "Tuned")
       2000 100 ;;
     save_to_nvs) ;;
  modify (set_g_station_tune_timer false).

Definition start_station_tune_timer : M unit :=
  timer <- get g_station_tune_timer ;;
  when timer (emit TimerDelete) ;;
  emit TimerCreate ;;
  modify (set_g_station_tune_timer true).

(* --------------------------------------------------------------------- *)
(** *** Mode handlers *)

(** [event.button >= BTN_STATION_1 && event.button <= BTN_STATION_5]. *)
Definition is_station_button (b : button_id_t) : bool :=
  (button_code b >=? button_code BTN_STATION_1) &&
  (button_code b <=? button_code BTN_STATION_5).

Definition handle_radio_mode (e : button_event_t) : M unit :=
  match event e with
  | BTN_EVENT_ROTARY_CW =>
      browsing <- get g_browsing_stations ;;
      if browsing then
        idx <- get g_browsing_station_idx ;;
        let idx' := u8 ((idx + 1) mod 20) in
        modify (set_g_browsing_station_idx idx') ;;
        modify (set_g_browsing_station_freq (browsing_freq_of idx')) ;;
        send_display_notification DISPLAY_FREQUENCY
          (Fmt_MHz (browsing_freq_of idx')) (Some "Browsing") 0 150 ;;
        start_station_tune_timer
      else
        vol <- get (fun s => Radio.volume (g_radio_state s)) ;;
        when (vol <? 15) (radio (Radio.set_volume (u8 (vol + 1)))) ;;
        vol' <- get (fun s => Radio.volume (g_radio_state s)) ;;
        send_display_notification DISPLAY_VOLUME (Fmt_d vol') (Some "Radio")
          1000 120 ;;
        save_to_nvs
  | BTN_EVENT_ROTARY_CCW =>
      browsing <- get g_browsing_stations ;;
      if browsing then
        idx <- get g_browsing_station_idx ;;
        let idx' := u8 (if idx =? 0 then 19 else idx - 1) in
        modify (set_g_browsing_station_idx idx') ;;
        modify (set_g_browsing_station_freq (browsing_freq_of idx')) ;;
        send_display_notification DISPLAY_FREQUENCY
          (Fmt_MHz (browsing_freq_of idx')) (Some "Browsing") 0 150 ;;
        start_station_tune_timer
      else
        vol <- get (fun s => Radio.volume (g_radio_state s)) ;;
        when (vol >? 0) (radio (Radio.set_volume (u8 (vol - 1)))) ;;
        vol' <- get (fun s => Radio.volume (g_radio_state s)) ;;
        send_display_notification DISPLAY_VOLUME (Fmt_d vol') (Some "Radio")
          1000 120 ;;
        save_to_nvs
  | BTN_EVENT_PRESS =>
      browsing <- get g_browsing_stations ;;
      when (button_eqb (button e) BTN_ROTARY && negb browsing)
        (freq <- get (fun s => Radio.frequency (g_radio_state s)) ;;
         band <- get g_current_band ;;
         send_display_notification DISPLAY_FREQUENCY (Fmt_MHz freq)
           (Some (if band_eqb band RADIO_BAND_FM then "FM" else "AM"))
           2000 130)
  | BTN_EVENT_RELEASE =>
      if is_station_button (button e) then
        let idx := button_code (button e) - button_code BTN_STATION_1 in
        band <- get g_current_band ;;
        freq <- get (fun s =>
                  preset_get (Radio.preset_freq (g_radio_state s)) band idx) ;;
        when (f32_positive freq)
          (radio (Radio.set_frequency freq) ;;
           send_display_notification DISPLAY_FREQUENCY
             (Fmt_station (idx + 1) freq) None 2000 130 ;;
           save_to_nvs)
      else if button_eqb (button e) BTN_UP then
        send_display_notification DISPLAY_MODE_CHANGE (Str "Seeking Up") None
          1000 110
      else if button_eqb (button e) BTN_DOWN then
        send_display_notification DISPLAY_MODE_CHANGE (Str "Seeking Down") None
          1000 110
      else if button_eqb (button e) BTN_ROTARY then
        browsing <- get g_browsing_stations ;;
        modify (set_g_browsing_stations (negb browsing)) ;;
        when (negb browsing)
          (freq <- get (fun s => Radio.frequency (g_radio_state s)) ;;
           modify (set_g_browsing_station_freq freq) ;;
           modify (set_g_browsing_station_idx (browsing_idx_of freq)) ;;
           send_display_notification DISPLAY_FREQUENCY (Fmt_MHz freq)
             (Some "Browse Mode") 0 150)
      else skip
  | BTN_EVENT_LONG_PRESS =>
      when (is_station_button (button e))
        (let idx := button_code (button e) - button_code BTN_STATION_1 in
         band <- get g_current_band ;;
         freq <- get (fun s => Radio.frequency (g_radio_state s)) ;;
         radio (fun r => Radio.set_preset_freq
                  (preset_set (Radio.preset_freq r) band idx freq) r) ;;
         send_display_notification DISPLAY_FREQUENCY (Fmt_saved (idx + 1)) None
           2000 140 ;;
         save_to_nvs)
  | BTN_EVENT_REPEAT => skip
  | BTN_EVENT_RELEASE_AFTER_LONG => skip
  end.

(** The three statements that close every volume change in Bluetooth mode. *)
Definition announce_a2dp_volume : M unit :=
  vol <- get (fun s => A2dp.volume (g_a2dp_state s)) ;;
  send_display_notification DISPLAY_VOLUME (Fmt_d vol) (Some "Bluetooth")
    1000 120 ;;
  emit (Bt (set_a2dp_volume vol)) ;;
  save_to_nvs.

Definition handle_bluetooth_mode (e : button_event_t) : M unit :=
  match event e with
  | BTN_EVENT_PRESS => skip
  | BTN_EVENT_ROTARY_CW =>
      vol <- get (fun s => A2dp.volume (g_a2dp_state s)) ;;
      when (vol <? 15) (a2dp (A2dp.set_volume (u8 (vol + 1)))) ;;
      announce_a2dp_volume
  | BTN_EVENT_ROTARY_CCW =>
      vol <- get (fun s => A2dp.volume (g_a2dp_state s)) ;;
      when (vol >? 0) (a2dp (A2dp.set_volume (u8 (vol - 1)))) ;;
      announce_a2dp_volume
  | BTN_EVENT_RELEASE =>
      if button_eqb (button e) BTN_ROTARY then
        playing <- get (fun s => A2dp.playing (g_a2dp_state s)) ;;
        if playing then
          emit (Bt avrc_pause) ;;
          a2dp (A2dp.set_playing false) ;;
          send_display_notification DISPLAY_MODE_CHANGE (Str "Paused") None
            1000 110
        else
          emit (Bt avrc_play) ;;
          a2dp (A2dp.set_playing true) ;;
          send_display_notification DISPLAY_MODE_CHANGE (Str "Playing") None
            1000 110
      else if button_eqb (button e) BTN_UP then
        emit (Bt avrc_next) ;;
        send_display_notification DISPLAY_MODE_CHANGE (Str "Next Track") None
          1000 110
      else if button_eqb (button e) BTN_DOWN then
        emit (Bt avrc_prev) ;;
        send_display_notification DISPLAY_MODE_CHANGE (Str "Previous Track")
          None 1000 110
      else skip
  | BTN_EVENT_LONG_PRESS => skip
  | BTN_EVENT_RELEASE_AFTER_LONG => skip
  | BTN_EVENT_REPEAT =>
      when (button_eqb (button e) BTN_UP || button_eqb (button e) BTN_DOWN)
        (vol <- get (fun s => A2dp.volume (g_a2dp_state s)) ;;
         (if button_eqb (button e) BTN_UP && (vol <? 15) then
            a2dp (A2dp.set_volume (u8 (vol + 1)))
          else if button_eqb (button e) BTN_DOWN && (vol >? 0) then
            a2dp (A2dp.set_volume (u8 (vol - 1)))
          else skip) ;;
         announce_a2dp_volume)
  end.

Definition handle_phone_call_mode (e : button_event_t) : M unit :=
  match event e with
  | BTN_EVENT_RELEASE => skip
  | BTN_EVENT_LONG_PRESS => skip
  | BTN_EVENT_ROTARY_CW =>
      vol <- get (fun s => A2dp.volume (g_a2dp_state s)) ;;
      when (vol <? 15)
        (a2dp (A2dp.set_volume (u8 (vol + 1))) ;;
         vol' <- get (fun s => A2dp.volume (g_a2dp_state s)) ;;
         send_display_notification DISPLAY_VOLUME (Fmt_d vol')
           (Some "Call Volume") 1000 200 ;;
         spk <- get (fun s => Hfp.speaker_volume (g_hfp_state s)) ;;
         emit (Bt (set_hfp_speaker_volume spk)))
  | BTN_EVENT_ROTARY_CCW =>
      vol <- get (fun s => A2dp.volume (g_a2dp_state s)) ;;
      when (vol >? 0)
        (a2dp (A2dp.set_volume (u8 (vol - 1))) ;;
         vol' <- get (fun s => A2dp.volume (g_a2dp_state s)) ;;
         send_display_notification DISPLAY_VOLUME (Fmt_d vol')
           (Some "Call Volume") 1000 200 ;;
         spk <- get (fun s => Hfp.speaker_volume (g_hfp_state s)) ;;
         emit (Bt (set_hfp_speaker_volume spk)))
  | BTN_EVENT_PRESS =>
      when (button_eqb (button e) BTN_ROTARY)
        (emit (Bt hangup_call) ;;
         send_display_notification DISPLAY_CALL_ACTIVE (Str "Call Ended") None
           2000 250 ;;
         before <- get g_mode_before_call ;;
         modify (set_g_current_mode before) ;;
         notify_mode_change MODE_PHONE_CALL before ;;
         save_to_nvs)
  | BTN_EVENT_RELEASE_AFTER_LONG => skip
  | BTN_EVENT_REPEAT => skip
  end.

Definition handle_phonebook_mode (e : button_event_t) : M unit := skip.

Definition on_bt_volume_changed (target : bt_volume_target_t) (new_volume : Z)
  : M unit :=
  (match target with
   | BT_VOLUME_TARGET_A2DP => a2dp (A2dp.set_volume new_volume)
   | BT_VOLUME_TARGET_HFP_SPEAKER => hfp (Hfp.set_speaker_volume new_volume)
   | BT_VOLUME_TARGET_HFP_MIC => hfp (Hfp.set_mic_volume new_volume)
   | BT_VOLUME_TARGET_other => skip
   end) ;;
  send_display_notification DISPLAY_VOLUME (Fmt_d new_volume)
    (Some (match target with
           | BT_VOLUME_TARGET_A2DP => "Bluetooth"
           | BT_VOLUME_TARGET_HFP_SPEAKER => "Call Volume"
           | BT_VOLUME_TARGET_HFP_MIC => "Mic Volume"
           | BT_VOLUME_TARGET_other => "Volume"
           end)) 1000 120.

(* --------------------------------------------------------------------- *)
(** *** Public API *)

(** The defaults [stereo_state_init] writes before it loads the store. *)
Definition default_presets : list (list float) :=
  [ [f32_lit 879 10; f32_lit 953 10; f32_lit 1011 10; f32_lit 1057 10;
     f32_lit 1079 10];
    [f32_lit 540 1; f32_lit 720 1; f32_lit 950 1; f32_lit 1200 1;
     f32_lit 1450 1] ].

Definition stereo_state_init (config : option stereo_config_t)
    (nvs : nvs_store) : M unit :=
  on_key config (fun c => modify (set_g_config c)) ;;
  radio (Radio.set_frequency (f32_lit 875 10)) ;;
  radio (Radio.set_volume 10) ;;
  radio (Radio.set_preset_freq default_presets) ;;
  a2dp (A2dp.set_volume 10) ;;
  a2dp (A2dp.set_playing false) ;;
  hfp (Hfp.set_speaker_volume 12) ;;
  hfp (Hfp.set_mic_volume 10) ;;
  hfp (Hfp.set_call_active false) ;;
  load_from_nvs nvs ;;
  load_bt_device_settings nvs ;;
  s <- get (fun s => s) ;;
  emit (Bt (bt_volume_control_init
              (A2dp.volume (g_a2dp_state s))
              (Hfp.speaker_volume (g_hfp_state s))
              (Hfp.mic_volume (g_hfp_state s)))) ;;
  if g_powered_on s && mode_eqb (g_current_mode s) MODE_RADIO then
    send_display_notification DISPLAY_MODE_CHANGE (Str "Radio") None 2000 100
  else
    when (negb (g_powered_on s)) (modify (set_g_current_mode MODE_OFF)).

(** What the Bluetooth component answers to the two voice-recognition
    requests: [true] is [ESP_OK]. *)
Record bt_reply : Set := mk_bt_reply {
  start_voice_ok : bool;
  stop_voice_ok : bool
}.

Definition stereo_state_handle_button (bt : bt_reply) (e : button_event_t)
  : M unit :=
  mode <- get g_current_mode ;;
  if button_eqb (button e) BTN_ROTARY &&
     event_type_eqb (event e) BTN_EVENT_PRESS then
    if mode_eqb mode MODE_OFF then
      modify (set_g_powered_on true) ;;
      modify (set_g_current_mode MODE_RADIO) ;;
      send_display_notification DISPLAY_MODE_CHANGE (Str "Power ON") None
        1500 150 ;;
      save_to_nvs ;;
      notify_mode_change MODE_OFF MODE_RADIO
    else
      modify (set_g_powered_on false) ;;
      modify (set_g_current_mode MODE_OFF) ;;
      send_display_notification DISPLAY_MODE_CHANGE (Str "Power OFF") None
        1000 150 ;;
      save_to_nvs ;;
      notify_mode_change mode MODE_OFF
  else if button_eqb (button e) BTN_BAND_UM &&
          event_type_eqb (event e) BTN_EVENT_PRESS then
    active <- get g_voice_recognition_active ;;
    if negb active &&
       (mode_eqb mode MODE_BLUETOOTH || mode_eqb mode MODE_RADIO) then
      emit (Bt start_voice_recognition) ;;
      if start_voice_ok bt then
        modify (set_g_voice_recognition_active true) ;;
        send_display_notification DISPLAY_MODE_CHANGE (Str "Voice Assistant")
          (Some "Listening...") 0 200
      else
        send_display_notification DISPLAY_MODE_CHANGE (Str "Voice Assistant")
          (Some "Failed to Start") 2000 200
    else skip
  else if button_eqb (button e) BTN_BAND_VF &&
          event_type_eqb (event e) BTN_EVENT_PRESS then
    active <- get g_voice_recognition_active ;;
    if active then
      emit (Bt stop_voice_recognition) ;;
      when (stop_voice_ok bt)
        (modify (set_g_voice_recognition_active false) ;;
         send_display_notification DISPLAY_MODE_CHANGE (Str "Voice Assistant")
           (Some "Stopped") 1500 180)
    else skip
  else if mode_eqb mode MODE_OFF then skip
  else
    match mode with
    | MODE_BLUETOOTH => handle_bluetooth_mode e
    | MODE_RADIO => handle_radio_mode e
    | MODE_PHONE_CALL => handle_phone_call_mode e
    | MODE_PHONEBOOK => handle_phonebook_mode e
    | MODE_OFF => skip
    end.

Definition stereo_state_get_mode : M stereo_mode_t := get g_current_mode.

Definition stereo_state_set_power (on : bool) : M unit :=
  powered <- get g_powered_on ;;
  if Bool.eqb on powered then skip
  else
    modify (set_g_powered_on on) ;;
    (if on then
       modify (set_g_current_mode MODE_RADIO) ;;
       send_display_notification DISPLAY_MODE_CHANGE (Str "Power ON")
         (Some "Welcome") 2000 200
     else
       modify (set_g_current_mode MODE_OFF) ;;
       send_display_notification DISPLAY_MODE_CHANGE (Str "Power OFF")
         (Some "Goodbye") 2000 200) ;;
    save_to_nvs ;;
    mode <- get g_current_mode ;;
    notify_mode_change MODE_OFF mode.

Definition stereo_state_is_powered_on : M bool := get g_powered_on.

Definition auto_power_on_if_off (target_mode : stereo_mode_t) (reason : string)
  : M unit :=
  powered <- get g_powered_on ;;
  if powered then
    mode <- get g_current_mode ;;
    when (negb (mode_eqb mode target_mode) &&
          negb (mode_eqb mode MODE_PHONE_CALL))
      (modify (set_g_current_mode target_mode) ;;
       send_display_notification DISPLAY_MODE_CHANGE
         (Str (if mode_eqb target_mode MODE_BLUETOOTH then "Bluetooth"
               else "Phone Call"))
         (Some reason) 1500 180 ;;
       save_to_nvs ;;
       notify_mode_change mode target_mode)
  else
    modify (set_g_powered_on true) ;;
    modify (set_g_current_mode target_mode) ;;
    send_display_notification DISPLAY_MODE_CHANGE (Str "Auto Power ON")
      (Some reason) 2000 200 ;;
    save_to_nvs ;;
    notify_mode_change MODE_OFF target_mode.

(** [caller_id] is [None] for a [NULL] argument. *)
Definition stereo_state_hfp_call_status (call_active : bool)
    (caller_id : option string) : M unit :=
  mode <- get g_current_mode ;;
  if call_active && negb (mode_eqb mode MODE_PHONE_CALL) then
    modify (set_g_caller_id
              (match caller_id with
               | Some c => strncpy 63 c
               | None => "Unknown Caller"
               end)) ;;
    powered <- get g_powered_on ;;
    (if negb powered then
       auto_power_on_if_off MODE_PHONE_CALL "Incoming Call"
     else
       before_phonebook <- get g_mode_before_phonebook ;;
       let before :=
         if mode_eqb mode MODE_PHONEBOOK then before_phonebook else mode in
       modify (set_g_mode_before_call before) ;;
       modify (set_g_current_mode MODE_PHONE_CALL) ;;
       notify_mode_change before MODE_PHONE_CALL) ;;
    cid <- get g_caller_id ;;
    send_display_notification DISPLAY_CALL_INCOMING (Str cid)
      (Some "Press to answer") 0 255 ;;
    emit (Bt answer_call) ;;
    send_display_notification DISPLAY_CALL_ACTIVE (Str cid) (Some "Connected")
      0 250
  else if negb call_active && mode_eqb mode MODE_PHONE_CALL then
    send_display_notification DISPLAY_CALL_ACTIVE (Str "Call Ended") None
      2000 200 ;;
    before <- get g_mode_before_call ;;
    modify (set_g_current_mode before) ;;
    notify_mode_change MODE_PHONE_CALL before ;;
    save_to_nvs
  else skip.

Definition stereo_state_rds_update (station_name song_info : option string)
  : M unit :=
  mode <- get g_current_mode ;;
  if negb (mode_eqb mode MODE_RADIO) then skip
  else
    on_key station_name (fun n =>
      radio (Radio.set_station_name (strncpy 31 n)) ;;
      send_display_notification DISPLAY_RADIO_STATION (Str n) None 5000 80) ;;
    on_key song_info (fun i =>
      radio (Radio.set_song_info (strncpy 63 i)) ;;
      send_display_notification DISPLAY_RADIO_SONG (Str i) station_name
        5000 80).

Definition stereo_state_a2dp_metadata (title artist album : option string)
  : M unit :=
  mode <- get g_current_mode ;;
  if negb (mode_eqb mode MODE_BLUETOOTH) then skip
  else
    on_key title (fun t => a2dp (A2dp.set_track (strncpy 63 t))) ;;
    on_key artist (fun a => a2dp (A2dp.set_artist (strncpy 63 a))) ;;
    send_display_notification DISPLAY_BT_TRACK
      (Str (match title with Some t => t | None => "" end))
      (Some (match artist with Some a => a | None => "" end))
      5000 80.

(** [device_addr] is [None] for a [NULL] argument. *)
Definition stereo_state_bt_device_connected (device_addr : option (list Z))
  : M unit :=
  match device_addr with
  | None => skip
  | Some addr =>
      modify (set_g_current_bt_device_mac (firstn 6 addr)) ;;
      idx <- find_bt_device_by_mac addr ;;
      if idx >=? 0 then
        devs <- get g_bt_devices ;;
        let d := nth (Z.to_nat idx) devs
                     (mk_bt_device [] 0 0 0 false) in
        a2dp (A2dp.set_volume (a2dp_volume d)) ;;
        hfp (Hfp.set_speaker_volume (hfp_speaker_volume d)) ;;
        hfp (Hfp.set_mic_volume (hfp_mic_volume d)) ;;
        emit (Bt (set_a2dp_volume (a2dp_volume d))) ;;
        emit (Bt (set_hfp_speaker_volume (hfp_speaker_volume d))) ;;
        emit (Bt (set_hfp_mic_volume (hfp_mic_volume d))) ;;
        send_display_notification DISPLAY_MODE_CHANGE (Str "Device Connected")
          (Some "Volumes Restored") 2000 140
      else
        s <- get (fun s => s) ;;
        emit (Bt (set_a2dp_volume (A2dp.volume (g_a2dp_state s)))) ;;
        emit (Bt (set_hfp_speaker_volume
                    (Hfp.speaker_volume (g_hfp_state s)))) ;;
        emit (Bt (set_hfp_mic_volume (Hfp.mic_volume (g_hfp_state s)))) ;;
        send_display_notification DISPLAY_MODE_CHANGE (Str "New Device")
          (Some "Default Volumes") 2000 140
  end.

Definition stereo_state_bt_device_disconnected (device_addr : option (list Z))
  : M unit :=
  match device_addr with
  | None => skip
  | Some addr =>
      found <- find_bt_device_by_mac addr ;;
      free <- find_free_bt_device_slot ;;
      let idx := if found <? 0 then free else found in
      modify (fun s =>
        set_g_bt_devices
          (list_set (Z.to_nat idx)
             (mk_bt_device (firstn 6 addr)
                (A2dp.volume (g_a2dp_state s))
                (Hfp.speaker_volume (g_hfp_state s))
                (Hfp.mic_volume (g_hfp_state s)) true)
             (g_bt_devices s)) s) ;;
      save_bt_device_settings ;;
      modify (set_g_current_bt_device_mac (repeat 0 6))
  end.

Definition stereo_state_save : M unit := save_to_nvs.

Definition mode_name (m : stereo_mode_t) : string :=
  match m with
  | MODE_OFF => "OFF" | MODE_RADIO => "RADIO" | MODE_BLUETOOTH => "BLUETOOTH"
  | MODE_PHONE_CALL => "PHONE_CALL" | MODE_PHONEBOOK => "PHONEBOOK"
  end.

Definition stereo_state_set_mode (mode : stereo_mode_t) : M unit :=
  old_mode <- get g_current_mode ;;
  if mode_eqb mode old_mode then skip
  else
    modify (set_g_current_mode mode) ;;
    send_display_notification DISPLAY_MODE_CHANGE (Str (mode_name mode)) None
      2000 150 ;;
    save_to_nvs ;;
    notify_mode_change old_mode mode.

Definition stereo_state_a2dp_streaming (streaming : bool) : M unit :=
  a2dp (A2dp.set_playing streaming) ;;
  when streaming (auto_power_on_if_off MODE_BLUETOOTH "Music Playing").

(* --------------------------------------------------------------------- *)
(** *** Sequences of operations *)

(** What can happen to the state machine: a call of one of its public
    functions, the volume callback it registers with the Bluetooth
    component, or the tuning timer running out. *)
Inductive op : Set :=
| Init (config : option stereo_config_t) (nvs : nvs_store)
| Button (bt : bt_reply) (e : button_event_t)
| SetPower (on : bool)
| SetMode (mode : stereo_mode_t)
| CallStatus (call_active : bool) (caller_id : option string)
| Streaming (streaming : bool)
| VolumeChanged (target : bt_volume_target_t) (new_volume : Z)
| TimerFires
| RdsUpdate (station_name song_info : option string)
| Metadata (title artist album : option string)
| DeviceConnected (device_addr : option (list Z))
| DeviceDisconnected (device_addr : option (list Z))
| Save.

Definition perform (o : op) : M unit :=
  match o with
  | Init config nvs => stereo_state_init config nvs
  | Button bt e => stereo_state_handle_button bt e
  | SetPower on => stereo_state_set_power on
  | SetMode mode => stereo_state_set_mode mode
  | CallStatus call_active caller_id =>
      stereo_state_hfp_call_status call_active caller_id
  | Streaming streaming => stereo_state_a2dp_streaming streaming
  | VolumeChanged target new_volume => on_bt_volume_changed target new_volume
  | TimerFires =>
      timer <- get g_station_tune_timer ;;
      when timer station_tune_timer_callback
  | RdsUpdate station_name song_info =>
      stereo_state_rds_update station_name song_info
  | Metadata title artist album =>
      stereo_state_a2dp_metadata title artist album
  | DeviceConnected device_addr => stereo_state_bt_device_connected device_addr
  | DeviceDisconnected device_addr =>
      stereo_state_bt_device_disconnected device_addr
  | Save => stereo_state_save
  end.

Fixpoint run (ops : list op) (s : globals) : globals * list effect :=
  match ops with
  | [] => (s, [])
  | o :: ops' =>
      let '(s1, out1) := exec (perform o) s in
      let '(s2, out2) := run ops' s1 in
      (s2, out1 ++ out2)
  end.

(** The state a sequence of operations leads to. *)
Definition after (ops : list op) (s : globals) : globals := fst (run ops s).


(* --------------------------------------------------------------------- *)
(** *** Predicates of the properties *)







Definition in_range (v : Z) : Prop := 0 <= v <= 15.
Definition in_rangeb (v : Z) : bool := (0 <=? v) && (v <=? 15).

(** The four volume fields. *)
Definition volumes_in_range (s : globals) : Prop :=
  in_range (Radio.volume (g_radio_state s)) /\
  in_range (A2dp.volume (g_a2dp_state s)) /\
  in_range (Hfp.speaker_volume (g_hfp_state s)) /\
  in_range (Hfp.mic_volume (g_hfp_state s)).

(** The volumes remembered per device. *)
Definition device_in_range (d : bt_device_settings_t) : Prop :=
  in_range (a2dp_volume d) /\ in_range (hfp_speaker_volume d) /\
  in_range (hfp_mic_volume d).

Definition devices_in_range (s : globals) : Prop :=
  Forall device_in_range (g_bt_devices s).

Definition option_in_rangeb (v : option Z) : bool :=
  match v with Some z => in_rangeb z | None => true end.

Definition blob_in_rangeb (b : option bt_blob) : bool :=
  match b with
  | Some b =>
      in_rangeb (blob_a2dp b) && in_rangeb (blob_hfp_speaker b) &&
      in_rangeb (blob_hfp_mic b)
  | None => true
  end.

(** The volumes that come from outside the handlers: the one a volume
    notification carries and the ones found in the store. *)
Definition volume_input_in_range (o : op) : bool :=
  match o with
  | VolumeChanged _ new_volume => in_rangeb new_volume
  | Init _ (Some (img, bt)) =>
      option_in_rangeb (nvs_radio_vol img) &&
      option_in_rangeb (nvs_a2dp_vol img) &&
      option_in_rangeb (nvs_hfp_spk_vol img) &&
      option_in_rangeb (nvs_hfp_mic_vol img) &&
      forallb blob_in_rangeb (nvs_bt_dev bt)
  | _ => true
  end.

(** Rotation events, [true] for clockwise. *)
Definition rotation (cw : bool) : button_event_t :=
  ev BTN_ROTARY (if cw then BTN_EVENT_ROTARY_CW else BTN_EVENT_ROTARY_CCW).

(** The voice-assistant start request is turned down: a session is active,
    or the mode is neither Radio nor Bluetooth. *)
Definition voice_start_rejected (s : globals) : bool :=
  g_voice_recognition_active s ||
  negb (mode_eqb (g_current_mode s) MODE_BLUETOOTH ||
        mode_eqb (g_current_mode s) MODE_RADIO).

(* --------------------------------------------------------------------- *)
(** *** Statements and scenarios of the properties *)

(** The press of button 1, which asks for a voice-assistant session. *)
Definition voice_start_press (ts : Z) : button_event_t :=
  mk_event BTN_BAND_UM BTN_EVENT_PRESS ts.

(** The reading of the specification: a request that is turned down leaves
    the state alone and shows a notification. *)
Definition rejected_start_is_announced : Prop :=
  forall (s : globals) (bt : bt_reply),
    voice_start_rejected s = true ->
    display_handler (g_config s) = true ->
    fst (exec (stereo_state_handle_button bt (voice_start_press 0)) s) = s /\
    exists n : display_notification_t,
      In (Display n)
         (snd (exec (stereo_state_handle_button bt (voice_start_press 0)) s)).

(** The unit right after start-up with both callbacks set and an empty
    store: powered off, mode Off. *)
Definition started : globals :=
  after [Init (Some (mk_config true true)) None] globals_boot.

(** A call that came in on the started unit. *)
Definition in_call : globals :=
  after [CallStatus true (Some "Alice"%string)] started.

(** The two call notifications, as state transformers. *)
Definition call_starts (caller_id : option string) (s : globals) : globals :=
  fst (exec (stereo_state_hfp_call_status true caller_id) s).

Definition call_ends (s : globals) : globals :=
  fst (exec (stereo_state_hfp_call_status false None) s).

(** The reading of the specification: off with a stale mode Radio, the call
    records Radio as the mode to return to and its end returns there. *)
Definition stale_radio_is_recorded : Prop :=
  forall (s : globals) (caller_id : option string),
    g_powered_on s = false ->
    g_current_mode s = MODE_RADIO ->
    g_powered_on (call_starts caller_id s) = true /\
    g_current_mode (call_starts caller_id s) = MODE_PHONE_CALL /\
    g_mode_before_call (call_starts caller_id s) = MODE_RADIO /\
    g_current_mode (call_ends (call_starts caller_id s)) = MODE_RADIO.

(** A unit that took a call while playing from Bluetooth, was switched off
    afterwards and had its mode set to Radio while off. *)
Definition off_after_bluetooth_call : globals :=
  after [ Button (mk_bt_reply true true) (ev BTN_ROTARY BTN_EVENT_PRESS);
          Streaming true;
          CallStatus true None;
          CallStatus false None;
          SetPower false;
          SetMode MODE_RADIO ] started.

(** A unit that is off with the mode set to Radio from outside. *)
Definition off_with_stale_radio : globals := after [SetMode MODE_RADIO] started.

(** The release of the encoder button, which toggles station browsing. *)
Definition rotary_release : button_event_t := ev BTN_ROTARY BTN_EVENT_RELEASE.

(** The state after one button event. *)
Definition press_button (bt : bt_reply) (e : button_event_t) (s : globals)
  : globals :=
  fst (exec (stereo_state_handle_button bt e) s).

(** Detents turned one after the other, the timer never running out in
    between. *)
Fixpoint turn (bt : bt_reply) (rots : list bool) (s : globals) : globals :=
  match rots with
  | [] => s
  | cw :: rots' => turn bt rots' (press_button bt (rotation cw) s)
  end.

(** The radio switched on on the started unit. *)
Definition radio_on : globals :=
  after [Button (mk_bt_reply true true) (ev BTN_ROTARY BTN_EVENT_PRESS)] started.


(** Every volume the state holds is in range. *)
Definition vols_ok (s : globals) : Prop :=
  volumes_in_range s /\ devices_in_range s.

(** A handler takes states with property [P] to states with property [P]. *)
Definition maintains (P : globals -> Prop) (m : M unit) : Prop :=
  forall s : globals, P s -> P (fst (exec m s)).





(** The four volume fields by name. *)
Inductive volume_field : Set :=
| RadioVolume | A2dpVolume | HfpSpeakerVolume | HfpMicVolume.

Definition volume_of (f : volume_field) (s : globals) : Z :=
  match f with
  | RadioVolume => Radio.volume (g_radio_state s)
  | A2dpVolume => A2dp.volume (g_a2dp_state s)
  | HfpSpeakerVolume => Hfp.speaker_volume (g_hfp_state s)
  | HfpMicVolume => Hfp.mic_volume (g_hfp_state s)
  end.

(** The reading of the specification: in range after every sequence of
    operations, the volume notification and the load from the store
    included. *)
Definition volumes_always_in_range : Prop :=
  forall ops : list op, volumes_in_range (after ops globals_boot).

(** The Bluetooth component reports an A2DP volume of 16. *)
Definition loud_notification : list op :=
  [Init (Some (mk_config true true)) None;
   VolumeChanged BT_VOLUME_TARGET_A2DP 16].

(** The radio turned up to 15 from the default 10. *)
Definition radio_at_full : globals :=
  turn (mk_bt_reply true true) [true; true; true; true; true] radio_on.

(** A sequence in which the store, a notification and a remembered device
    all carry volumes in range. *)
Definition quiet_sequence : list op :=
  [ Init (Some (mk_config true true))
      (Some (mk_nvs (Some 1) (Some MODE_BLUETOOTH) None None (Some 15)
               (Some 14) None None [] [],
             mk_nvs_bt (Some 1) [Some (mk_blob [1; 2; 3; 4; 5; 6] 3 4 5)]));
    Button (mk_bt_reply true true) (rotation true);
    Button (mk_bt_reply true true) (rotation true);
    Button (mk_bt_reply true true) (ev BTN_UP BTN_EVENT_REPEAT);
    VolumeChanged BT_VOLUME_TARGET_HFP_MIC 0;
    DeviceConnected (Some [1; 2; 3; 4; 5; 6]);
    Button (mk_bt_reply true true) (rotation false) ].

(** The started unit once a device streams to it: on, in Bluetooth mode. *)
Definition streaming_unit : globals :=
  after [Init (Some (mk_config true true)) None; Streaming true] globals_boot.

(** A store that holds 200 as the radio volume. *)
Definition loud_store : nvs_store :=
  Some (mk_nvs (Some 1) (Some MODE_RADIO) None None (Some 200)
               None None None [] [],
        mk_nvs_bt None []).

End Stereo.
(* ===================================================================== *)
(** ** buttons.c: runs of the ISR and of the polling task *)
(* ===================================================================== *)

Module ButtonRuns.
Import CInt Buttons.

(** Successive firings of the ISR with the events they send, in order. *)
Fixpoint isr_trace (r : rotary) (firings : list isr_input)
  : rotary * list button_event_t :=
  match firings with
  | [] => (r, [])
  | i :: rest =>
      let '(r1, out1) := rotary_encoder_isr r i in
      let '(r2, out2) := isr_trace r1 rest in
      (r2, out1 ++ out2)
  end.

(** Every firing of the sequence gets past the debounce test. *)
Fixpoint undebounced (r : rotary) (firings : list isr_input) : bool :=
  match firings with
  | [] => true
  | i :: rest =>
      negb (isr_debounced r i) &&
      undebounced (fst (rotary_encoder_isr r i)) rest
  end.

(** A firing with the switch released and the phase lines at [clk], [dt]. *)
Definition edge (now : Z) (clk dt : level) : isr_input :=
  mk_isr_input now true clk dt.

(** The four edges of one mechanical click, in the two directions, starting
    and ending at rest. *)
Definition click_cw (t1 t2 t3 t4 : Z) : list isr_input :=
  [edge t1 false true; edge t2 false false; edge t3 true false;
   edge t4 true true].

Definition click_ccw (t1 t2 t3 t4 : Z) : list isr_input :=
  [edge t1 true false; edge t2 false false; edge t3 false true;
   edge t4 true true].

(** The body of the [while (1)] loop of [adc_button_monitor_task] after the
    call of [adc_read_button], with the button that call returned. *)
Definition adc_button_monitor_body (g_callback : bool)
    (m : adc_monitor) (current_button : button_id_t) (now : Z)
  : adc_monitor * list button_event_t :=
  if negb (button_eqb current_button BTN_NONE) &&
     negb (button_eqb current_button (last_button m)) then
    (mk_adc_monitor current_button now false now,
     call_back g_callback (ev current_button BTN_EVENT_PRESS))
  else if negb (button_eqb current_button BTN_NONE) &&
          button_eqb current_button (last_button m) then
    let fire_long :=
      negb (long_press_sent m) && (u32 (now - press_time m) >=? 1000) in
    let sent := if fire_long then true else long_press_sent m in
    let out1 :=
      if fire_long
      then call_back g_callback (ev current_button BTN_EVENT_LONG_PRESS)
      else [] in
    let fire_repeat :=
      sent && (u32 (now - last_repeat_time m) >=? BUTTON_REPEAT_INTERVAL_MS) in
    let out2 :=
      if fire_repeat
      then call_back g_callback (ev current_button BTN_EVENT_REPEAT)
      else [] in
    (mk_adc_monitor current_button (press_time m) sent
                    (if fire_repeat then now else last_repeat_time m),
     out1 ++ out2)
  else if button_eqb current_button BTN_NONE &&
          negb (button_eqb (last_button m) BTN_NONE) then
    (mk_adc_monitor current_button (press_time m) (long_press_sent m)
                    (last_repeat_time m),
     call_back g_callback (ev (last_button m) BTN_EVENT_RELEASE))
  else
    (mk_adc_monitor current_button (press_time m) (long_press_sent m)
                    (last_repeat_time m), []).

(** Iterations of the polling task, one pair of ADC readings and tick count
    per iteration. *)
Fixpoint adc_button_monitor_run (g_callback : bool) (m : adc_monitor)
    (polls : list (adc_readings * Z)) : adc_monitor * list button_event_t :=
  match polls with
  | [] => (m, [])
  | (rs, now) :: rest =>
      let '(m1, out1) := adc_button_monitor_step g_callback m rs now in
      let '(m2, out2) := adc_button_monitor_run g_callback m1 rest in
      (m2, out1 ++ out2)
  end.

(** Iterations of the loop body on the buttons a working decoder would
    report. *)
Fixpoint adc_button_body_run (g_callback : bool) (m : adc_monitor)
    (polls : list (button_id_t * Z)) : adc_monitor * list button_event_t :=
  match polls with
  | [] => (m, [])
  | (b, now) :: rest =>
      let '(m1, out1) := adc_button_monitor_body g_callback m b now in
      let '(m2, out2) := adc_button_body_run g_callback m1 rest in
      (m2, out1 ++ out2)
  end.

(** The number of events of one type in a list. *)
Definition count_events (t : button_event_type_t) (out : list button_event_t)
  : nat :=
  List.length (filter (fun e => event_type_eqb (event e) t) out).

(** The band of button [i] (0-based) of the ladder contains the reading. *)
Definition in_band (i : Z) (adc_reading : Z) : Prop :=
  nth (Z.to_nat i) button_thresholds 0 - THRESHOLD_TOLERANCE <= adc_reading
  <= nth (Z.to_nat i) button_thresholds 0 + THRESHOLD_TOLERANCE.

End ButtonRuns.

(* ===================================================================== *)
(** ** car_stereo_state.c: what a handler keeps and what it leaves behind *)
(* ===================================================================== *)

Module StereoLaws.
Import CInt CFloat Buttons Stereo.

(** A handler keeps [I] true of the globals and leaves only effects that
    satisfy [P]. *)
Definition keeps (I : globals -> Prop) (P : effect -> Prop) (m : M unit)
  : Prop :=
  forall s, I s -> I (fst (exec m s)) /\ Forall P (snd (exec m s)).

(** The button of station key [k], counted from 0. *)
Definition station_button (k : Z) : button_id_t :=
  button_of_code (button_code BTN_STATION_1 + k).

(** [preset_freq] has its two rows of five entries. *)
Definition presets_shaped (p : list (list float)) : Prop :=
  List.length p = 2%nat /\ Forall (fun row => List.length row = 5%nat) p.

(** [g_bt_devices] has its [MAX_BT_DEVICES] slots. *)
Definition table_shaped (s : globals) : Prop :=
  List.length (g_bt_devices s) = Z.to_nat MAX_BT_DEVICES.

(** The three volumes that are kept per device. *)
Definition bt_volumes (s : globals) : Z * Z * Z :=
  (A2dp.volume (g_a2dp_state s), Hfp.speaker_volume (g_hfp_state s),
   Hfp.mic_volume (g_hfp_state s)).

(** The scalar settings that [save_to_nvs] writes. *)
Definition scalar_settings (s : globals)
  : bool * stereo_mode_t * radio_band_t * Z * Z * Z * Z :=
  (g_powered_on s, g_current_mode s, g_current_band s,
   Radio.volume (g_radio_state s), A2dp.volume (g_a2dp_state s),
   Hfp.speaker_volume (g_hfp_state s), Hfp.mic_volume (g_hfp_state s)).

(** Effects by the channel they go to. *)
Definition is_display (e : effect) : bool :=
  match e with Display _ => true | _ => false end.

Definition is_mode_change (e : effect) : bool :=
  match e with ModeChange _ _ => true | _ => false end.

Definition is_table_save (e : effect) : bool :=
  match e with NvsSaveBt _ => true | _ => false end.

Definition is_init (o : op) : bool :=
  match o with Init _ _ => true | _ => false end.

(** The operations that write [g_bt_devices]: the load at start-up and a
    disconnection that comes with an address. *)
Definition writes_table (o : op) : bool :=
  match o with
  | Init _ _ | DeviceDisconnected (Some _) => true
  | _ => false
  end.

(** The radio switched on and tuned to 98.1 MHz. *)
Definition tuned_radio : globals :=
  set_g_radio_state
    (Radio.set_frequency (f32_lit 981 10) (g_radio_state globals_boot))
    (set_g_current_mode MODE_RADIO (set_g_powered_on true globals_boot)).

(** The same with station browsing on, at step 0. *)
Definition browsing_radio : globals :=
  set_g_browsing_stations true tuned_radio.

(** The unit in Radio mode with station browsing entered on the second FM
    preset, 95.3 MHz: [(uint8_t)((95.3 - 87.5) / 0.2)] is 39. *)
Definition browsing_from_preset : globals :=
  set_g_browsing_station_idx 39
    (set_g_browsing_station_freq (f32_lit 953 10)
       (set_g_radio_state
          (Radio.set_frequency (f32_lit 953 10) (g_radio_state globals_boot))
          browsing_radio)).

(** The steps of the browsing index on which [(uint32_t)(f * 100)] comes
    out one short of 8750 + 20 * idx: 128.9 MHz, 129.9 MHz, and so on up
    to 137.9 MHz. *)
Definition short_step (idx : Z) : bool :=
  existsb (Z.eqb idx) [207; 212; 217; 222; 227; 232; 237; 242; 247; 252].

(** The hundredths of a MHz that are stored for step [idx]. *)
Definition stored_step (idx : Z) : Z :=
  8750 + 20 * idx - (if short_step idx then 1 else 0).

(** A slot of the table holds the device [addr]: the test of
    [find_bt_device_by_mac]. *)
Definition holds (addr : list Z) (d : bt_device_settings_t) : bool :=
  valid d && mac_eqb (firstn 6 (mac_addr d)) (firstn 6 addr).

Definition no_device : bt_device_settings_t := mk_bt_device [] 0 0 0 false.

(** The slot a disconnection of [addr] is to write, said without the
    loops: the first slot that holds [addr]; if none does, the first slot
    that is not in use; if all are in use, slot 0. *)
Inductive slot_of (addr : list Z) (l : list bt_device_settings_t) (n : nat)
  : Prop :=
| own_slot :
    (n < List.length l)%nat ->
    holds addr (nth n l no_device) = true ->
    (forall j, (j < n)%nat -> holds addr (nth j l no_device) = false) ->
    slot_of addr l n
| first_free_slot :
    (n < List.length l)%nat ->
    (forall j, (j < List.length l)%nat ->
       holds addr (nth j l no_device) = false) ->
    valid (nth n l no_device) = false ->
    (forall j, (j < n)%nat -> valid (nth j l no_device) = true) ->
    slot_of addr l n
| slot_zero :
    n = 0%nat ->
    (forall j, (j < List.length l)%nat ->
       holds addr (nth j l no_device) = false) ->
    (forall j, (j < List.length l)%nat ->
       valid (nth j l no_device) = true) ->
    slot_of addr l n.

(** The record a disconnection of [addr] writes. *)
Definition remembered (addr : list Z) (s : globals) : bt_device_settings_t :=
  mk_bt_device (firstn 6 addr) (A2dp.volume (g_a2dp_state s))
    (Hfp.speaker_volume (g_hfp_state s)) (Hfp.mic_volume (g_hfp_state s))
    true.

(** What an effect tells the outside about the state: an image written to
    the store is the image of [s], a mode change leads to the mode of
    [s]. *)
Definition reports (s : globals) (e : effect) : Prop :=
  match e with
  | NvsSave img => img = nvs_snapshot s
  | ModeChange _ new_mode => new_mode = g_current_mode s
  | _ => True
  end.

End StereoLaws.

(* ===================================================================== *)
(** ** display.c *)
(* ===================================================================== *)

(** The LCD sits behind a PCF8574 I2C expander.  Every function of the
    driver is embedded as the sequence of bus writes and delays it makes;
    the two file-level variables are passed in, and returned by the two
    functions that assign them.  The result of [pcf8574_write] is dropped
    by every caller and is not modelled. *)

Module Display.
Import CInt Stereo.
Local Open Scope string_scope.
Local Open Scope list_scope.
Local Open Scope Z_scope.

(* --------------------------------------------------------------------- *)
(** *** Constants *)

Definition LCD_BIT_RS : Z := 1.
Definition LCD_BIT_RW : Z := 2.
Definition LCD_BIT_E : Z := 4.
Definition LCD_BIT_BL : Z := 8.

Definition LCD_CMD_CLEAR : Z := 1.
Definition LCD_CMD_HOME : Z := 2.
Definition LCD_CMD_ENTRY_MODE : Z := 4.
Definition LCD_CMD_DISPLAY_CTRL : Z := 8.
Definition LCD_CMD_FUNCTION : Z := 32.
Definition LCD_CMD_DDRAM_ADDR : Z := 128.
Definition LCD_ENTRY_INC : Z := 2.
Definition LCD_DISPLAY_ON : Z := 4.
Definition LCD_4BIT_MODE : Z := 0.
Definition LCD_2_LINE : Z := 8.
Definition LCD_5x8_DOTS : Z := 0.

Definition DISPLAY_COLS : Z := 16.
Definition DISPLAY_ROWS : Z := 2.

Definition ESP_OK : Z := 0.
Definition ESP_ERR_INVALID_STATE : Z := 259.

(* --------------------------------------------------------------------- *)
(** *** The bus *)

Inductive bus_op : Set :=
| I2cWrite (data : Z)      (* pcf8574_write(data) *)
| DelayUs (us : Z)         (* esp_rom_delay_us(us) *)
| DelayMs (ms : Z).        (* vTaskDelay(pdMS_TO_TICKS(ms)) *)

(** [display_initialized] and [backlight_state]. *)
Record driver : Set := mk_driver {
  display_initialized : bool;
  backlight_state : Z
}.

Definition driver_boot : driver := mk_driver false LCD_BIT_BL.

(** The bytes of a C string, as [unsigned char]. *)
Definition bytes (s : string) : list Z :=
  map (fun a => Z.of_N (Ascii.N_of_ascii a)) (list_ascii_of_string s).

(** The C string with the given bytes. *)
Definition text_of (l : list Z) : string :=
  string_of_list_ascii (map (fun z => Ascii.ascii_of_N (Z.to_N z)) l).

Definition pcf8574_write (data : Z) : list bus_op := [I2cWrite data].

Definition lcd_strobe_enable (data : Z) : list bus_op :=
  pcf8574_write (u8 (Z.lor data LCD_BIT_E)) ++
  [DelayUs 1] ++
  pcf8574_write (u8 (Z.land data (Z.lnot LCD_BIT_E))) ++
  [DelayUs 50].

Definition lcd_write_4bits (d : driver) (data : Z) (is_data : bool)
  : list bus_op :=
  let upper := u8 (Z.land data 240) in
  let output := u8 (Z.lor upper (backlight_state d)) in
  let output := if is_data then u8 (Z.lor output LCD_BIT_RS) else output in
  pcf8574_write output ++ lcd_strobe_enable output.

Definition lcd_write_byte (d : driver) (data : Z) (is_data : bool)
  : list bus_op :=
  lcd_write_4bits d (u8 (Z.land data 240)) is_data ++
  lcd_write_4bits d (u8 (Z.land (Z.shiftl data 4) 240)) is_data ++
  [DelayUs 50].

Definition lcd_command (d : driver) (cmd : Z) : list bus_op :=
  lcd_write_byte d cmd false ++
  (if (cmd =? LCD_CMD_CLEAR) || (cmd =? LCD_CMD_HOME) then [DelayMs 2]
   else []).

Definition lcd_data (d : driver) (data : Z) : list bus_op :=
  lcd_write_byte d data true.

Definition row_offsets : list Z := [0; 64; 20; 84].

Definition lcd_set_cursor (d : driver) (col row : Z) : list bus_op :=
  let row := if row >=? DISPLAY_ROWS then 0 else row in
  let col := if col >=? DISPLAY_COLS then 0 else col in
  lcd_command d
    (u8 (Z.lor LCD_CMD_DDRAM_ADDR (col + nth (Z.to_nat row) row_offsets 0))).

Definition lcd_print (d : driver) (str : string) : list bus_op :=
  flat_map (lcd_data d) (bytes str).

(* --------------------------------------------------------------------- *)
(** *** Public functions *)

Definition display_clear (d : driver) : list bus_op :=
  if negb (display_initialized d) then []
  else lcd_command d LCD_CMD_CLEAR.

Definition display_show_splash (d : driver) : list bus_op :=
  if negb (display_initialized d) then []
  else
    display_clear d ++
    lcd_set_cursor d 1 0 ++ lcd_print d "Car Stereo" ++
    lcd_set_cursor d 0 1 ++ lcd_print d "ESP32 Audio" ++
    [DelayMs 3000] ++
    display_clear d.

(** [config_ret] and [install_ret] are what [i2c_param_config] and
    [i2c_driver_install] return. *)
Definition display_init (d : driver) (config_ret install_ret : Z)
  : Z * driver * list bus_op :=
  if negb (config_ret =? ESP_OK) then (config_ret, d, [])
  else if negb (install_ret =? ESP_OK) &&
          negb (install_ret =? ESP_ERR_INVALID_STATE)
  then (install_ret, d, [])
  else
    let d' := mk_driver true (backlight_state d) in
    (ESP_OK, d',
     [DelayMs 50] ++
     lcd_write_4bits d 48 false ++ [DelayMs 5] ++
     lcd_write_4bits d 48 false ++ [DelayUs 50] ++
     lcd_write_4bits d 48 false ++ [DelayUs 50] ++
     lcd_write_4bits d 32 false ++ [DelayUs 50] ++
     lcd_command d (Z.lor (Z.lor (Z.lor LCD_CMD_FUNCTION LCD_4BIT_MODE)
                                 LCD_2_LINE) LCD_5x8_DOTS) ++
     lcd_command d (Z.lor LCD_CMD_DISPLAY_CTRL LCD_DISPLAY_ON) ++
     lcd_command d LCD_CMD_CLEAR ++
     lcd_command d (Z.lor LCD_CMD_ENTRY_MODE LCD_ENTRY_INC) ++
     display_show_splash d').

Inductive display_mode_t : Set :=
| DISPLAY_MODE_OFF | DISPLAY_MODE_RADIO | DISPLAY_MODE_BLUETOOTH
| DISPLAY_MODE_PHONE_CALL | DISPLAY_MODE_PHONEBOOK.

Record display_state_t : Set := mk_display_state {
  mode : display_mode_t;
  line1 : string;
  line2 : string;
  volume : Z;
  playing : bool;
  connected : bool
}.

(** [display_state_t state = {0};] *)
Definition display_state_zero : display_state_t :=
  mk_display_state DISPLAY_MODE_OFF "" "" 0 false false.

Definition digit (z : Z) : string :=
  String (Ascii.ascii_of_N (Z.to_N (48 + z))) "".

(** [%02d] of a [uint8_t]. *)
Definition fmt_02d (v : Z) : string :=
  if v <? 100 then digit (v / 10) ++ digit (v mod 10)
  else digit (v / 100) ++ digit ((v / 10) mod 10) ++ digit (v mod 10).

(** [snprintf(status, sizeof(status), "Vol:%02d %s", ...)] into the
    17-byte buffer. *)
Definition status_line (state : display_state_t) : string :=
  strncpy 16
    ("Vol:" ++ fmt_02d (volume state) ++ " " ++
     (if playing state then ">" else " ")).

(** [state] is [None] for a [NULL] argument. *)
Definition display_update (d : driver) (state : option display_state_t)
  : list bus_op :=
  match state with
  | None => []
  | Some state =>
      if negb (display_initialized d) then []
      else
        display_clear d ++
        lcd_set_cursor d 0 0 ++
        (if (0 <? Z.of_nat (String.length (line1 state))) then
           lcd_print d (strncpy 16 (line1 state))
         else
           match mode state with
           | DISPLAY_MODE_RADIO => lcd_print d "FM Radio"
           | DISPLAY_MODE_BLUETOOTH =>
               lcd_print d (if connected state then "BT: Connected"
                            else "BT: Waiting")
           | DISPLAY_MODE_PHONE_CALL => lcd_print d "CALL"
           | DISPLAY_MODE_OFF => lcd_print d "System OFF"
           | DISPLAY_MODE_PHONEBOOK => []
           end) ++
        lcd_set_cursor d 0 1 ++
        (if (0 <? Z.of_nat (String.length (line2 state))) then
           lcd_print d (strncpy 16 (line2 state))
         else lcd_print d (status_line state))
  end.

(** [line1] and [line2] are [None] for [NULL] arguments. *)
Definition display_notification (d : driver) (l1 l2 : option string)
    (duration_ms : Z) : list bus_op :=
  if negb (display_initialized d) then []
  else
    display_clear d ++
    (match l1 with
     | Some s => lcd_set_cursor d 0 0 ++ lcd_print d (strncpy 16 s)
     | None => []
     end) ++
    (match l2 with
     | Some s => lcd_set_cursor d 0 1 ++ lcd_print d (strncpy 16 s)
     | None => []
     end) ++
    (if duration_ms >? 0 then [DelayMs duration_ms] else []).

Definition display_set_backlight (d : driver) (on : bool)
  : driver * list bus_op :=
  let bl := if on then LCD_BIT_BL else 0 in
  (mk_driver (display_initialized d) bl, pcf8574_write bl).

(** [notification.text[0] != '\0' ? strncpy(.., 16) : fallback]. *)
Definition line_or (s fallback : string) : string :=
  if (0 <? Z.of_nat (String.length s)) then strncpy 16 s else fallback.

(** The handler registered with the state machine.  [current_mode] is
    what [stereo_state_get_mode] returns; [text] and [subtext] are the two
    character arrays of the notification. *)
Definition display_handle_notification (d : driver)
    (current_mode : stereo_mode_t) (text subtext : string) : list bus_op :=
  if negb (display_initialized d) then []
  else
    match current_mode with
    | MODE_OFF =>
        display_clear d ++ lcd_set_cursor d 3 0 ++ lcd_print d "System OFF"
    | MODE_RADIO =>
        display_update d
          (Some (mk_display_state DISPLAY_MODE_RADIO
                   (line_or text "") (line_or subtext "") 10 false false))
    | MODE_BLUETOOTH =>
        display_update d
          (Some (mk_display_state DISPLAY_MODE_BLUETOOTH
                   (line_or text (strncpy 16 "BT: Connected"))
                   (line_or subtext "") 10 true true))
    | MODE_PHONE_CALL =>
        display_update d
          (Some (mk_display_state DISPLAY_MODE_PHONE_CALL
                   (line_or text (strncpy 16 "CALL"))
                   (line_or subtext "") 10 false false))
    | MODE_PHONEBOOK =>
        display_update d
          (Some (mk_display_state DISPLAY_MODE_PHONEBOOK
                   (line_or text (strncpy 16 "Phonebook"))
                   (line_or subtext "") 0 false false))
    end.

(* --------------------------------------------------------------------- *)
(** *** Cleaning of track metadata

    C strings are the lists of their bytes before the terminator. *)

Fixpoint starts_with (needle str : list Z) : bool :=
  match needle, str with
  | [], _ => true
  | _ :: _, [] => false
  | n :: needle', c :: str' => (n =? c) && starts_with needle' str'
  end.

(** [strstr]: the offset of the first occurrence, if there is one. *)
Fixpoint strstr (str needle : list Z) : option nat :=
  if starts_with needle str then Some O
  else match str with
       | [] => None
       | _ :: str' => option_map S (strstr str' needle)
       end.

(** [p = strstr(str, needle); if (p) *p = '\0';] *)
Definition cut_at (needle str : list Z) : list Z :=
  match strstr str needle with
  | Some pos => firstn pos str
  | None => str
  end.

Fixpoint drop_while (f : Z -> bool) (l : list Z) : list Z :=
  match l with
  | [] => []
  | c :: l' => if f c then drop_while f l' else l
  end.

(** [while (len > 0 && f(str[len - 1])) str[--len] = '\0';] *)
Definition drop_trailing (f : Z -> bool) (str : list Z) : list Z :=
  rev (drop_while f (rev str)).

Definition is_blank (c : Z) : bool := (c =? 32) || (c =? 9).
Definition is_printable (c : Z) : bool := (32 <=? c) && (c <=? 126).

Definition strip_known_patterns (str : list Z) : list Z :=
  let str := cut_at [226; 128; 162] str in
  let str := cut_at [32; 63; 32] str in
  drop_trailing is_blank str.

(** The replacement for the three-byte sequence [E2 b2 b3]. *)
Definition e2_replacement (b2 b3 : Z) : Z :=
  if b2 =? 128 then
    if (144 <=? b3) && (b3 <=? 149) then 45
    else if (b3 =? 152) || (b3 =? 153) then 39
    else if (b3 =? 156) || (b3 =? 157) then 34
    else if b3 =? 162 then 42
    else 63
  else 63.

(** The loop of [convert_utf8_to_ascii] with [str] the bytes from [src]
    on and [dst] the number of bytes written so far. *)
Fixpoint convert_loop (str : list Z) (dst : nat) : list Z :=
  match str with
  | [] => []
  | c :: rest =>
      if (255 <=? dst)%nat then []
      else if is_printable c then c :: convert_loop rest (S dst)
      else
        match c =? 226, rest with
        | true, b2 :: b3 :: rest' =>
            e2_replacement b2 b3 :: convert_loop rest' (S dst)
        | _, _ =>
            match c =? 195, rest with
            | true, next :: rest' =>
                if (128 <=? next) && (next <=? 191) then
                  u8 (97 + (next - 128) mod 32) :: convert_loop rest' (S dst)
                else convert_loop rest' dst
            | _, _ => convert_loop rest dst
            end
        end
  end.

Definition convert_utf8_to_ascii (str : list Z) : list Z :=
  convert_loop str 0.

Definition truncate_trailing_garbage (str : list Z) : list Z :=
  drop_trailing is_blank
    (drop_trailing (fun c => negb (is_printable c)) str).

Definition strip_spotify_junk (str : list Z) : list Z :=
  truncate_trailing_garbage (convert_utf8_to_ascii (strip_known_patterns str)).

(** [src] is [None] for a [NULL] argument, [dest_null] tells a [NULL]
    destination; the result is what [dest] holds afterwards, [None] when
    the function returns without writing to it. *)
Definition sanitize_for_lcd (dest_null : bool) (src : option (list Z))
    (max_len : Z) : option (list Z) :=
  match src with
  | None => None
  | Some src =>
      if dest_null || (max_len <? 2) then None
      else
        let temp := firstn 255 src in
        let temp := drop_while (fun c => c <? 32) temp in
        let temp := strip_spotify_junk temp in
        Some (firstn (Z.to_nat (max_len - 1)) temp)
  end.

(* --------------------------------------------------------------------- *)
(** *** The controller behind the expander

    The HD44780 takes the four data lines and RS on the falling edge of E,
    and in 4-bit mode puts two such transfers together, high nibble first.
    [received] is what a controller in 4-bit mode makes of a sequence of
    bus writes. *)

Inductive lcd_byte : Set :=
| Command (b : Z)
| Character (b : Z).

Fixpoint latched (prev : option Z) (trace : list bus_op) : list (bool * Z) :=
  match trace with
  | [] => []
  | I2cWrite v :: rest =>
      match prev with
      | Some p =>
          if Z.testbit p 2 && negb (Z.testbit v 2)
          then (Z.testbit p 0, Z.land p 240) :: latched (Some v) rest
          else latched (Some v) rest
      | None => latched (Some v) rest
      end
  | _ :: rest => latched prev rest
  end.

Fixpoint pair_nibbles (l : list (bool * Z)) : list lcd_byte :=
  match l with
  | (rs, hi) :: (_, lo) :: rest =>
      (if rs then Character else Command) (Z.lor hi (Z.shiftr lo 4))
        :: pair_nibbles rest
  | _ => []
  end.

Definition received (trace : list bus_op) : list lcd_byte :=
  pair_nibbles (latched None trace).

(** E is low on the bus, or nothing has been written yet. *)
Definition e_low (prev : option Z) : bool :=
  match prev with
  | Some p => negb (Z.testbit p 2)
  | None => true
  end.

(** The last byte on the bus after [trace]. *)
Fixpoint last_write (prev : option Z) (trace : list bus_op) : option Z :=
  match trace with
  | [] => prev
  | I2cWrite v :: rest => last_write (Some v) rest
  | _ :: rest => last_write prev rest
  end.

(** The two transfers that carry one byte. *)
Definition nibbles (b : lcd_byte) : list (bool * Z) :=
  match b with
  | Command c => [(false, Z.land c 240); (false, Z.land (Z.shiftl c 4) 240)]
  | Character c => [(true, Z.land c 240); (true, Z.land (Z.shiftl c 4) 240)]
  end.

(** [trace], started with E low, hands exactly the bytes [bs] to the
    controller and leaves E low. *)
Definition delivers (trace : list bus_op) (bs : list lcd_byte) : Prop :=
  forall prev, e_low prev = true ->
    latched prev trace = flat_map nibbles bs /\
    e_low (last_write prev trace) = true.

(** The value of a byte that fits the bus. *)
Definition byte_value (b : lcd_byte) : Z :=
  match b with Command c => c | Character c => c end.

(** The backlight bit holds one of the two values the driver assigns. *)
Definition bl_ok (d : driver) : Prop :=
  backlight_state d = 0 \/ backlight_state d = LCD_BIT_BL.

(** A line as the controller gets it: the cursor address, then at most 16
    characters. *)
Definition shown_line (addr : Z) (l : option string) : list lcd_byte :=
  match l with
  | Some s => Command addr :: map Character (bytes (strncpy 16 s))
  | None => []
  end.

(** The text on line 1 when the notification carries none. *)
Definition fallback_line1 (m : stereo_mode_t) : string :=
  match m with
  | MODE_RADIO => "FM Radio"
  | MODE_BLUETOOTH => "BT: Connected"
  | MODE_PHONE_CALL => "CALL"
  | MODE_PHONEBOOK => "Phonebook"
  | MODE_OFF => ""
  end.

(** The status on line 2 when the notification carries no subtext. *)
Definition fallback_line2 (m : stereo_mode_t) : string :=
  match m with
  | MODE_BLUETOOTH => "Vol:10 >"
  | MODE_PHONEBOOK => "Vol:00  "
  | _ => "Vol:10  "
  end.

End Display.

(* ===================================================================== *)
(** ** main.c *)
(* ===================================================================== *)

(** The callbacks that [app_main] registers with the Bluetooth component
    and with the button driver, as computations on the globals of the
    state machine. *)

Module Main.
Import CInt Buttons Stereo Display.

Definition bt_connection_callback (is_connected : bool)
    (remote_bda : option (list Z)) : M unit :=
  if is_connected then stereo_state_bt_device_connected remote_bda
  else stereo_state_bt_device_disconnected None.

Definition a2dp_audio_state_callback (streaming : bool) : M unit :=
  if streaming then
    current_mode <- stereo_state_get_mode ;;
    when (negb (mode_eqb current_mode MODE_PHONE_CALL) &&
          negb (mode_eqb current_mode MODE_BLUETOOTH))
      (stereo_state_set_mode MODE_BLUETOOTH) ;;
    stereo_state_a2dp_streaming true
  else stereo_state_a2dp_streaming false.

(** Both branches of the function are commented out. *)
Definition hfp_call_state_callback (call_active : bool) (call_state : Z)
  : M unit := skip.

(** [bt_avrc_metadata_t]: the three strings, which the callback
    dereferences before it does anything else. *)
Record bt_avrc_metadata_t : Set := mk_metadata {
  title : list Z;
  artist : list Z;
  album : list Z
}.

(** A local buffer after a call of [sanitize_for_lcd] on it. *)
Definition cleaned (src : list Z) (size : Z) : option string :=
  option_map text_of (sanitize_for_lcd false (Some src) size).

(** [metadata] is [None] for a [NULL] argument. *)
Definition avrcp_metadata_callback (metadata : option bt_avrc_metadata_t)
  : M unit :=
  match metadata with
  | None => skip
  | Some m =>
      stereo_state_a2dp_metadata (cleaned (title m) 128)
        (cleaned (artist m) 64) (cleaned (album m) 64)
  end.

Inductive gap_event : Set :=
| ESP_BT_GAP_AUTH_CMPL_EVT (success : bool) (bda : list Z)
| ESP_BT_GAP_ACL_DISCONN_CMPL_STAT_EVT
| ESP_BT_GAP_other.

Definition gap_event_handler (event : gap_event) : M unit :=
  match event with
  | ESP_BT_GAP_AUTH_CMPL_EVT success bda =>
      when success (stereo_state_bt_device_connected (Some bda))
  | ESP_BT_GAP_ACL_DISCONN_CMPL_STAT_EVT =>
      stereo_state_bt_device_disconnected None
  | ESP_BT_GAP_other => skip
  end.

Definition button_event_callback (bt : bt_reply) (event : button_event_t)
  : M unit :=
  stereo_state_handle_button bt event.

(** What the firmware reacts to once [app_main] has set everything up. *)
Inductive stimulus : Set :=
| Connection (is_connected : bool) (remote_bda : option (list Z))
| AudioState (streaming : bool)
| CallState (call_active : bool) (call_state : Z)
| TrackMetadata (metadata : option bt_avrc_metadata_t)
| Gap (event : gap_event)
| ButtonEvent (bt : bt_reply) (event : button_event_t)
| VolumeReport (target : bt_volume_target_t) (new_volume : Z)
| TuneTimer.

Definition react (x : stimulus) : M unit :=
  match x with
  | Connection is_connected remote_bda =>
      bt_connection_callback is_connected remote_bda
  | AudioState streaming => a2dp_audio_state_callback streaming
  | CallState call_active call_state =>
      hfp_call_state_callback call_active call_state
  | TrackMetadata metadata => avrcp_metadata_callback metadata
  | Gap event => gap_event_handler event
  | ButtonEvent bt event => button_event_callback bt event
  | VolumeReport target new_volume => on_bt_volume_changed target new_volume
  | TuneTimer => perform TimerFires
  end.

Fixpoint react_all (xs : list stimulus) (s : globals)
  : globals * list effect :=
  match xs with
  | [] => (s, [])
  | x :: xs' =>
      let '(s1, out1) := exec (react x) s in
      let '(s2, out2) := react_all xs' s1 in
      (s2, out1 ++ out2)
  end.

End Main.


(* ===================================================================== *)
(** ** Properties of buttons.c *)
(* ===================================================================== *)

Section ButtonsProperties.
Import CInt Buttons.

(* ------------------------------------------------------------------- *)
(** *** The ADC ladder decoder *)

(** Whatever the mean, the body of [adc_read_button] leaves through one of
    its first two statements. *)
Lemma adc_classify_returns_none (adc_reading : Z) :
  adc_classify adc_reading = Return BTN_NONE.
Proof.
  unfold adc_classify, return_if, return_.
  destruct (adc_reading <? 100); reflexivity.
Qed.

(** C2.  For every sequence of raw ADC samples, whether the individual
    reads succeed or fail, [adc_read_button] returns [BTN_NONE]: the bare
    [return BTN_NONE;] placed before the threshold loop is reached by every
    mean that passes the noise-floor test, so no ladder button is ever
    decoded. *)
Theorem adc_read_button_always_none (rs : adc_readings) :
  adc_read_button rs = BTN_NONE.
Proof.
  unfold adc_read_button.
  rewrite adc_classify_returns_none.
  reflexivity.
Qed.

(** The threshold loop behind the early return is able to decode: a mean
    of 757 is inside the band of [BTN_STATION_1]. *)
Example thresholds_would_decode :
  returned (adc_classify_thresholds 757) = BTN_STATION_1.
Proof. reflexivity. Qed.

(** A consequence for the polling task: started from its initial locals it
    never delivers an event and never leaves them. *)
Lemma adc_monitor_silent (cb : bool) (rs : adc_readings) (now : Z) :
  adc_button_monitor_step cb adc_monitor_boot rs now = (adc_monitor_boot, []).
Proof.
  unfold adc_button_monitor_step, adc_read_button.
  rewrite adc_classify_returns_none.
  reflexivity.
Qed.

(* ------------------------------------------------------------------- *)
(** *** The quadrature decoder *)

Lemma transition_diagonal (s : encoder_state_t) : transition s s = 0.
Proof. destruct s; reflexivity. Qed.

Lemma phase_of_cases (i : isr_input) :
  phase_of i =
  match clk_state i, dt_state i with
  | false, false => ENC_STATE_00
  | false, true => ENC_STATE_01
  | true, false => ENC_STATE_10
  | true, true => ENC_STATE_11
  end.
Proof.
  unfold phase_of. destruct (clk_state i), (dt_state i); reflexivity.
Qed.

(** Away from the rest position the push-button branches cannot be taken. *)
Lemma isr_decodes_off_rest (r : rotary) (i : isr_input) :
  clk_state i && dt_state i = false ->
  isr_decodes r i = negb (isr_debounced r i).
Proof.
  unfold isr_decodes, isr_sees_press, isr_sees_release.
  destruct (isr_debounced r i), (sw_state i), (g_rotary_pressed r),
    (clk_state i), (dt_state i); simpl; congruence.
Qed.

(** A decoding firing leaves the phase it read in [g_encoder_state]. *)
Lemma isr_decodes_state (r : rotary) (i : isr_input) :
  isr_decodes r i = true ->
  g_encoder_state (fst (rotary_encoder_isr r i)) = phase_of i.
Proof.
  unfold isr_decodes, rotary_encoder_isr.
  destruct (isr_debounced r i); [discriminate|].
  destruct (isr_sees_press i); [discriminate|].
  destruct (isr_sees_release r i); [discriminate|]. intros _.
  destruct (negb (transition (g_encoder_state r) (phase_of i) =? 0));
    [|reflexivity].
  destruct (i8 (g_encoder_position r +
                transition (g_encoder_state r) (phase_of i)) >=? 2);
    [reflexivity|].
  destruct (i8 (g_encoder_position r +
                transition (g_encoder_state r) (phase_of i)) <=? -2);
    reflexivity.
Qed.

(** A decoding firing that finds the phase already held changes nothing. *)
Lemma isr_same_phase_idle (r : rotary) (i : isr_input) :
  isr_decodes r i = true ->
  phase_of i = g_encoder_state r ->
  rotary_encoder_isr r i = (r, []).
Proof.
  unfold isr_decodes, rotary_encoder_isr.
  destruct (isr_debounced r i); [discriminate|].
  destruct (isr_sees_press i); [discriminate|].
  destruct (isr_sees_release r i); [discriminate|]. intros _ ->.
  rewrite transition_diagonal. destruct r; reflexivity.
Qed.

(** C8 (counterexample).  The reading of the specification fails on the
    board as it boots: a phase edge [a], its return to rest swallowed by the debounce window
    [b], a press [c] and its release [d], then one more edge at rest [e].
    The firings [d] and [e] both read the pair 11; [d] is taken as the
    release and leaves the stale phase 01 in place, so [e] decodes a
    movement and takes the accumulator from 0 to -1. *)
Lemma repeated_phase_counterexample : ~ repeated_phase_keeps_accumulator.
Proof.
  pose (a := mk_isr_input 10 true false true).
  pose (b := mk_isr_input 12 true true true).
  pose (c := mk_isr_input 100 false true true).
  pose (d := mk_isr_input 300 true true true).
  pose (e := mk_isr_input 310 true true true).
  intro H.
  specialize (H (isr_run rotary_boot [a; b; c]) d e
                eq_refl eq_refl eq_refl eq_refl).
  vm_compute in H. discriminate H.
Qed.

(** Two decoding firings in a row that read the same pair: the second is
    idle. *)
Lemma second_reading_idle (r : rotary) (i1 i2 : isr_input) :
  isr_decodes r i1 = true ->
  isr_decodes (fst (rotary_encoder_isr r i1)) i2 = true ->
  clk_state i2 = clk_state i1 ->
  dt_state i2 = dt_state i1 ->
  rotary_encoder_isr (fst (rotary_encoder_isr r i1)) i2
    = (fst (rotary_encoder_isr r i1), []).
Proof.
  intros D1 D2 Hclk Hdt.
  apply isr_same_phase_idle; [exact D2|].
  rewrite (isr_decodes_state r i1 D1).
  unfold phase_of. rewrite Hclk, Hdt. reflexivity.
Qed.

(** C8 (amended).  Two consecutive firings of the ISR that both reach the
    decoding of the phase lines (past the debounce test and not taken as a
    press or release of the encoder button) and read the same phase pair:
    the table entry looked up by the second is a diagonal one and is 0, and
    the second firing leaves the accumulator, and in fact every global,
    unchanged and sends no event. *)
Theorem repeated_phase_idempotent (r : rotary) (i1 i2 : isr_input) :
  isr_decodes r i1 = true ->
  isr_decodes (fst (rotary_encoder_isr r i1)) i2 = true ->
  clk_state i2 = clk_state i1 ->
  dt_state i2 = dt_state i1 ->
  transition (g_encoder_state (fst (rotary_encoder_isr r i1))) (phase_of i2)
    = 0 /\
  g_encoder_position (fst (rotary_encoder_isr (fst (rotary_encoder_isr r i1)) i2))
    = g_encoder_position (fst (rotary_encoder_isr r i1)) /\
  rotary_encoder_isr (fst (rotary_encoder_isr r i1)) i2
    = (fst (rotary_encoder_isr r i1), []).
Proof.
  intros D1 D2 Hclk Hdt.
  pose proof (second_reading_idle r i1 i2 D1 D2 Hclk Hdt) as Hidle.
  split; [|split].
  - rewrite (isr_decodes_state r i1 D1).
    replace (phase_of i2) with (phase_of i1)
      by (unfold phase_of; rewrite Hclk, Hdt; reflexivity).
    apply transition_diagonal.
  - rewrite Hidle. reflexivity.
  - exact Hidle.
Qed.

(** The theorem at work on the booted board: the phase pair 01 read twice. *)
Lemma repeated_phase_idempotent_witness :
  let i1 := mk_isr_input 10 true false true in
  let i2 := mk_isr_input 20 true false true in
  g_encoder_position (fst (rotary_encoder_isr rotary_boot i1)) = 1 /\
  g_encoder_position
    (fst (rotary_encoder_isr (fst (rotary_encoder_isr rotary_boot i1)) i2))
    = g_encoder_position (fst (rotary_encoder_isr rotary_boot i1)).
Proof.
  split; [reflexivity|].
  apply (repeated_phase_idempotent rotary_boot
           (mk_isr_input 10 true false true)
           (mk_isr_input 20 true false true));
    reflexivity.
Defined.

(** Every phase pair other than the rest position always reaches the
    decoding branch, so there the hypothesis on the branches is void. *)
Lemma repeated_phase_off_rest (r : rotary) (i1 i2 : isr_input) :
  isr_debounced r i1 = false ->
  isr_debounced (fst (rotary_encoder_isr r i1)) i2 = false ->
  clk_state i1 && dt_state i1 = false ->
  clk_state i2 = clk_state i1 ->
  dt_state i2 = dt_state i1 ->
  rotary_encoder_isr (fst (rotary_encoder_isr r i1)) i2
    = (fst (rotary_encoder_isr r i1), []).
Proof.
  intros B1 B2 Hoff Hclk Hdt.
  apply (second_reading_idle r i1 i2); auto.
  - rewrite isr_decodes_off_rest, B1; auto.
  - rewrite isr_decodes_off_rest, B2; auto. rewrite Hclk, Hdt. exact Hoff.
Qed.

(* ------------------------------------------------------------------- *)
(** *** The long-press latch *)

(** The ISR sends releases, short presses and rotations, never a long
    press. *)
Lemma isr_sends_no_long_press (r : rotary) (i : isr_input) :
  long_presses (snd (rotary_encoder_isr r i)) = 0%nat.
Proof.
  unfold rotary_encoder_isr.
  repeat match goal with
         | |- context [if ?b then _ else _] => destruct b
         end; reflexivity.
Qed.

Lemma long_presses_app (xs ys : list button_event_t) :
  long_presses (xs ++ ys) = (long_presses xs + long_presses ys)%nat.
Proof.
  unfold long_presses. rewrite filter_app, length_app. reflexivity.
Qed.

(** One step of the interleaving: the long presses it emits are paid for
    by what was pending, or by the press it starts. *)
Lemma step_accounting (s : system) (a : activity) :
  (long_presses (snd (system_step s a)) +
     pending_long_press (fst (system_step s a))
   <= pending_long_press s + (if press_start s a then 1 else 0))%nat.
Proof.
  destruct s as [r pc cb], a as [i | now].
  - pose proof (isr_sends_no_long_press r i) as Hnone.
    unfold system_step, press_start, pending_long_press.
    cbn [shared monitor g_callback].
    replace (snd (let '(r', out) := rotary_encoder_isr r i in
                  (mk_system r' pc cb, out)))
      with (snd (rotary_encoder_isr r i))
      by (destruct (rotary_encoder_isr r i); reflexivity).
    replace (fst (let '(r', out) := rotary_encoder_isr r i in
                  (mk_system r' pc cb, out)))
      with (mk_system (fst (rotary_encoder_isr r i)) pc cb)
      by (destruct (rotary_encoder_isr r i); reflexivity).
    rewrite Hnone. cbn [monitor shared].
    destruct pc; try lia.
    unfold rotary_encoder_isr, isr_sees_press, isr_sees_release.
    destruct (isr_debounced r i);
      destruct r as [lt st ps pressed sent es pos],
               i as [now sw clk dt];
      cbn [g_rotary_pressed g_long_press_sent sw_state clk_state dt_state
           isr_now g_rotary_press_start g_encoder_state g_encoder_position
           g_last_rotary_time g_last_sw_time];
      destruct pressed, sent, sw, clk, dt; cbn;
      repeat match goal with
             | |- context [if ?x >=? ?y then _ else _] =>
                 destruct (x >=? y); cbn
             | |- context [if ?x >? ?y then _ else _] =>
                 destruct (x >? y); cbn
             | |- context [if ?x <=? ?y then _ else _] =>
                 destruct (x <=? y); cbn
             | |- context [if negb (?x =? ?y) then _ else _] =>
                 destruct (x =? y); cbn
             end; lia.
  - unfold system_step, monitor_step, press_start, pending_long_press.
    cbn [shared monitor g_callback].
    destruct pc.
    + destruct (g_rotary_pressed r && negb (g_long_press_sent r)) eqn:E;
        cbn; rewrite ?E; cbn; lia.
    + destruct (u32 (now - g_rotary_press_start r) >=? LONG_PRESS_THRESHOLD_MS);
        cbn; [destruct cb; cbn; lia|].
      destruct (g_rotary_pressed r && negb (g_long_press_sent r)); lia.
    + cbn. rewrite andb_false_r. lia.
Qed.

Lemma run_accounting (tr : list activity) : forall s : system,
  (long_presses (snd (system_run s tr)) +
     pending_long_press (fst (system_run s tr))
   <= pending_long_press s + press_starts s tr)%nat.
Proof.
  induction tr as [|a tr IH]; intros s; cbn [system_run press_starts].
  - cbn. lia.
  - pose proof (step_accounting s a) as Hstep.
    destruct (system_step s a) as [s1 out1] eqn:E1. cbn [fst snd] in *.
    specialize (IH s1).
    destruct (system_run s1 tr) as [s2 out2]. cbn [fst snd] in *.
    rewrite long_presses_app. lia.
Qed.

Lemma same_press_no_start (tr : list activity) : forall s : system,
  same_press s tr = true -> press_starts s tr = 0%nat.
Proof.
  induction tr as [|a tr IH]; intros s H; cbn in *; [reflexivity|].
  apply andb_true_iff in H as [Ha Htr].
  destruct (press_start s a); [discriminate|].
  rewrite (IH _ Htr). reflexivity.
Qed.

(** While the recorded press lasts no press can start. *)
Lemma held_is_same_press (tr : list activity) : forall s : system,
  held_throughout s tr = true -> same_press s tr = true.
Proof.
  induction tr as [|a tr IH]; intros s H; cbn in *; [reflexivity|].
  apply andb_true_iff in H as [Hp Htr].
  rewrite (IH _ Htr), andb_true_r.
  destruct a as [i|now]; cbn; [|reflexivity].
  rewrite Hp, andb_false_r. reflexivity.
Qed.

Lemma pending_at_most_one (s : system) : (pending_long_press s <= 1)%nat.
Proof.
  unfold pending_long_press.
  destruct (monitor s);
    try destruct (g_rotary_pressed (shared s) &&
                  negb (g_long_press_sent (shared s))); lia.
Qed.

(** The latch goes from set to clear in one step only. *)
Lemma latch_cleared_by_press_start (s : system) (a : activity) :
  g_long_press_sent (shared s) = true ->
  g_long_press_sent (shared (fst (system_step s a))) = false ->
  press_start s a = true.
Proof.
  destruct s as [r pc cb], a as [i | now];
    unfold system_step, monitor_step, press_start;
    cbn [shared monitor g_callback]; intros Hset Hclr.
  - replace (g_long_press_sent
               (shared (fst (let '(r', out) := rotary_encoder_isr r i in
                             (mk_system r' pc cb, out)))))
      with (g_long_press_sent (fst (rotary_encoder_isr r i))) in Hclr
      by (destruct (rotary_encoder_isr r i); reflexivity).
    unfold rotary_encoder_isr in Hclr.
    destruct (isr_debounced r i); [cbn in Hclr; congruence|].
    destruct (isr_sees_press i).
    + destruct (negb (g_rotary_pressed r)); [reflexivity|].
      cbn in Hclr; congruence.
    + exfalso.
      repeat match type of Hclr with
             | context [if ?b then _ else _] => destruct b
             end; cbn in Hclr; congruence.
  - destruct pc; cbn in Hclr.
    + destruct (g_rotary_pressed r && negb (g_long_press_sent r));
        cbn in Hclr; congruence.
    + destruct (u32 (now - g_rotary_press_start r) >=? LONG_PRESS_THRESHOLD_MS);
        cbn in Hclr; congruence.
    + discriminate.
Qed.

(** A press start clears the latch, whatever it held before. *)
Lemma press_start_clears_latch (s : system) (a : activity) :
  press_start s a = true ->
  g_long_press_sent (shared (fst (system_step s a))) = false.
Proof.
  destruct s as [r pc cb], a as [i | now];
    unfold system_step, press_start;
    cbn [shared monitor g_callback]; intros Hstart; [|discriminate].
  replace (g_long_press_sent
             (shared (fst (let '(r', out) := rotary_encoder_isr r i in
                           (mk_system r' pc cb, out)))))
    with (g_long_press_sent (fst (rotary_encoder_isr r i)))
    by (destruct (rotary_encoder_isr r i); reflexivity).
  apply andb_true_iff in Hstart as [Hstart Hup].
  apply andb_true_iff in Hstart as [Hdeb Hsees].
  apply negb_true_iff in Hdeb.
  unfold rotary_encoder_isr.
  rewrite Hdeb, Hsees, Hup. reflexivity.
Qed.

(** C6.  Take any press of the encoder button: a firing [a] of the ISR
    that starts it, followed by any interleaving [tr] of further ISR
    firings (edges, bounces, the release) and monitor steps, at arbitrary
    times, up to but excluding the next press start.  Over the whole of it
    at most one [BTN_EVENT_LONG_PRESS] is emitted, counting the queue of
    the ISR and the callback of the monitor task together.  The latch
    [g_long_press_sent] is reset at the next press start and only there:
    once set, it is cleared by no step other than a press start, and every
    press start leaves it clear. *)
Theorem long_press_at_most_once :
  (forall (s : system) (a : activity) (tr : list activity),
      press_start s a = true ->
      same_press (fst (system_step s a)) tr = true ->
      (long_presses (snd (system_run s (a :: tr))) <= 1)%nat) /\
  (forall (s : system) (a : activity),
      g_long_press_sent (shared s) = true ->
      g_long_press_sent (shared (fst (system_step s a))) = false ->
      press_start s a = true) /\
  (forall (s : system) (a : activity),
      press_start s a = true ->
      g_long_press_sent (shared (fst (system_step s a))) = false).
Proof.
  split; [|split;
           [exact latch_cleared_by_press_start
           |exact press_start_clears_latch]].
  intros s a tr Hstart Hsame.
  cbn [system_run].
  pose proof (step_accounting s a) as Hstep.
  destruct (system_step s a) as [s1 out1] eqn:E1. cbn [fst snd] in *.
  pose proof (run_accounting tr s1) as Hrun.
  rewrite (same_press_no_start tr s1 Hsame) in Hrun.
  destruct (system_run s1 tr) as [s2 out2]. cbn [fst snd] in *.
  rewrite long_presses_app.
  assert (Hout1 : long_presses out1 = 0%nat).
  { destruct a as [i|now]; [|discriminate Hstart].
    unfold system_step in E1.
    pose proof (isr_sends_no_long_press (shared s) i) as Hnone.
    destruct (rotary_encoder_isr (shared s) i) as [r' o].
    inversion E1; subst. exact Hnone. }
  pose proof (pending_at_most_one s1). lia.
Qed.

(** A press that lasts two seconds on the booted board: the monitor polls
    before and after the threshold, the release follows.  One long press
    is delivered, and the bound applies.  The latch is still set after the
    release; the press that follows a second later clears it. *)
Lemma long_press_at_most_once_witness :
  let s := mk_system rotary_boot MON_DELAY true in
  let a := IsrFires (mk_isr_input 100 false true true) in
  let tr := [ MonitorRuns 600; MonitorRuns 600;
              MonitorRuns 1200; MonitorRuns 1200; MonitorRuns 1200;
              MonitorRuns 1300; MonitorRuns 1300;
              IsrFires (mk_isr_input 2100 true true true);
              MonitorRuns 2200 ] in
  let s' := fst (system_run s (a :: tr)) in
  let a' := IsrFires (mk_isr_input 3100 false true true) in
  long_presses (snd (system_run s (a :: tr))) = 1%nat /\
  (long_presses (snd (system_run s (a :: tr))) <= 1)%nat /\
  g_long_press_sent (shared s') = true /\
  press_start s' a' = true /\
  g_long_press_sent (shared (fst (system_step s' a'))) = false.
Proof.
  split; [reflexivity|].
  split.
  { apply (proj1 long_press_at_most_once
             (mk_system rotary_boot MON_DELAY true)
             (IsrFires (mk_isr_input 100 false true true)));
      reflexivity. }
  split; [reflexivity|].
  split; [reflexivity|].
  apply (proj2 (proj2 long_press_at_most_once)).
  reflexivity.
Defined.

End ButtonsProperties.

(* ===================================================================== *)
(** ** Properties of car_stereo_state.c *)
(* ===================================================================== *)

Section StereoProperties.
Import CInt CFloat Buttons Stereo.

(** Terms that are carried along, never computed with, while a handler is
    stepped through. *)
Arguments nvs_snapshot : simpl never.
Arguments browsing_freq_of : simpl never.
Arguments browsing_idx_of : simpl never.
Arguments f32_positive : simpl never.
Arguments f32_lit : simpl never.
Arguments preset_get : simpl never.
Arguments preset_set : simpl never.
Arguments u8 : simpl never.
Arguments strncpy : simpl never.
Arguments list_set : simpl never.
Arguments mode_eqb : simpl nomatch.
Arguments button_eqb : simpl nomatch.
Arguments event_type_eqb : simpl nomatch.
Arguments band_eqb : simpl nomatch.

(** Unfolding of the plumbing of [M]. *)
Ltac monad :=
  cbv beta iota zeta delta
    [exec bind get modify emit ret skip when on_key radio a2dp hfp
     send_display_notification notify_mode_change save_to_nvs
     start_station_tune_timer announce_a2dp_volume].

(** Case analysis on the innermost undecided test. *)
Ltac break_if :=
  match goal with
  | |- context [if ?c then _ else _] =>
      lazymatch c with
      | context [if _ then _ else _] => fail
      | context [match _ with _ => _ end] => fail
      | _ => destruct c eqn:?
      end
  end.

(** Stepping through a handler: unfold, compute, split on the next test. *)
Ltac grind := repeat (monad; cbn; try break_if).

(** The same with the helpers of the device table and the timer body
    unfolded as well. *)
Ltac monad_all :=
  cbv beta iota zeta delta
    [exec bind get modify emit ret skip when on_key radio a2dp hfp
     send_display_notification notify_mode_change save_to_nvs
     start_station_tune_timer announce_a2dp_volume
     find_bt_device_by_mac find_free_bt_device_slot save_bt_device_settings
     station_tune_timer_callback].

Ltac grind_all := repeat (monad_all; cbn; try break_if).


(* --------------------------------------------------------------------- *)
(** *** Handlers that maintain a property *)

Lemma exec_seq_fst (a b : M unit) (s : globals) :
  fst (exec (a ;; b) s) = fst (exec b (fst (exec a s))).
Proof.
  unfold exec, bind.
  destruct (a s) as [[[] s1] o1]. cbn.
  destruct (b s1) as [[[] s2] o2]. reflexivity.
Qed.

Lemma maintains_seq (P : globals -> Prop) (a b : M unit) :
  maintains P a -> maintains P b -> maintains P (a ;; b).
Proof.
  intros Ha Hb s Hs. rewrite exec_seq_fst. apply Hb, Ha, Hs.
Qed.

Lemma maintains_skip (P : globals -> Prop) : maintains P skip.
Proof. intros s Hs. exact Hs. Qed.

Lemma maintains_when (P : globals -> Prop) (c : bool) (m : M unit) :
  maintains P m -> maintains P (when c m).
Proof. destruct c; [auto | intros _; apply maintains_skip]. Qed.

Lemma maintains_on_key {A} (P : globals -> Prop) (v : option A)
    (f : A -> M unit) :
  (forall a, v = Some a -> maintains P (f a)) -> maintains P (on_key v f).
Proof. destruct v; cbn; [auto | intros _; apply maintains_skip]. Qed.

Lemma maintains_modify (P : globals -> Prop) (f : globals -> globals) :
  (forall s, P s -> P (f s)) -> maintains P (modify f).
Proof. intros H s Hs. cbn. auto. Qed.

Lemma maintains_emit (P : globals -> Prop) (e : effect) : maintains P (emit e).
Proof. intros s Hs. exact Hs. Qed.

Lemma load_presets_maintains (P : globals -> Prop) :
  (forall s p, P s ->
     P (set_g_radio_state (Radio.set_preset_freq p (g_radio_state s)) s)) ->
  forall keys b idx, maintains P (load_presets b idx keys).
Proof.
  intros HP. induction keys as [|k keys IH]; intros b idx; cbn [load_presets].
  - apply maintains_skip.
  - apply maintains_seq; [|apply IH].
    apply maintains_on_key. intros u _. unfold radio.
    apply maintains_modify. intros s Hs. apply HP, Hs.
Qed.

Lemma load_bt_loop_maintains (P : globals -> Prop) (blobs : list (option bt_blob)) :
  (forall s i b, P s -> nth i blobs None = Some b ->
     P (set_g_bt_devices
          (list_set i (mk_bt_device (blob_mac b) (blob_a2dp b)
                         (blob_hfp_speaker b) (blob_hfp_mic b) true)
             (g_bt_devices s)) s)) ->
  forall n i count, maintains P (load_bt_loop n i count blobs).
Proof.
  intros HP. induction n as [|n IH]; intros i count; cbn [load_bt_loop].
  - apply maintains_skip.
  - apply maintains_when, maintains_seq; [|apply IH].
    apply maintains_on_key. intros b Hb.
    apply maintains_modify. intros s Hs. apply (HP s _ b Hs Hb).
Qed.

(** Structural proof that a sequence of statements maintains a property. *)
Ltac maintain :=
  repeat first
    [ apply load_presets_maintains; intros
    | apply load_bt_loop_maintains; intros
    | apply maintains_seq
    | apply maintains_on_key; intros
    | apply maintains_when
    | apply maintains_skip
    | apply maintains_emit
    | unfold radio, a2dp, hfp; apply maintains_modify; intros ].

(* --------------------------------------------------------------------- *)
(** *** Power and mode *)











(** The converse direction fails as well: the mode set to Off on a unit
    that is on leaves the power on. *)
Lemma mode_off_while_on :
  let s := after [Init (Some (mk_config true true)) None;
                  SetPower true; SetMode MODE_OFF] globals_boot in
  g_current_mode s = MODE_OFF /\ g_powered_on s = true.
Proof. split; reflexivity. Qed.



(* --------------------------------------------------------------------- *)
(** *** [stereo_state_set_power] *)

Lemma set_power_to_current (s : globals) :
  exec (stereo_state_set_power (g_powered_on s)) s = (s, []).
Proof.
  unfold stereo_state_set_power. monad.
  rewrite Bool.eqb_reflx. reflexivity.
Qed.

Lemma set_power_reaches (on : bool) (s : globals) :
  g_powered_on (fst (exec (stereo_state_set_power on) s)) = on.
Proof.
  unfold stereo_state_set_power. monad.
  destruct (Bool.eqb on (g_powered_on s)) eqn:E.
  - apply eqb_prop in E. cbn. congruence.
  - destruct on; grind; reflexivity.
Qed.

(** C10.  [stereo_state_set_power] called with the value [g_powered_on]
    already has returns at its first statement: every global is left as it
    was, and nothing is saved, displayed or reported to the mode-change
    callback.  Hence a second call with the same argument adds nothing to
    the first. *)
Theorem set_power_idempotent :
  (forall s : globals,
      exec (stereo_state_set_power (g_powered_on s)) s = (s, [])) /\
  (forall (on : bool) (s : globals),
      let s1 := fst (exec (stereo_state_set_power on) s) in
      exec (stereo_state_set_power on) s1 = (s1, [])).
Proof.
  split; [exact set_power_to_current|].
  intros on s s1.
  rewrite <- (set_power_reaches on s) at 1. fold s1.
  apply set_power_to_current.
Qed.

(* --------------------------------------------------------------------- *)
(** *** The voice-assistant start button *)

(** C9 (counterexample).  Pressed while the unit is off, with a display
    handler registered, the start button reaches the handler with nothing. *)
Lemma rejected_start_counterexample : ~ rejected_start_is_announced.
Proof.
  intro H.
  destruct (H started (mk_bt_reply true true) eq_refl eq_refl) as [_ [n Hn]].
  vm_compute in Hn. exact Hn.
Qed.

(** C9 (amended).  A press of the start button while a session is active,
    or while the mode is neither Radio nor Bluetooth (Off included), is
    turned down without a trace: every global is left as it was and no
    effect is produced, in particular no display notification and no call
    into the Bluetooth component. *)
Theorem rejected_start_is_silent (s : globals) (bt : bt_reply) (ts : Z) :
  voice_start_rejected s = true ->
  exec (stereo_state_handle_button bt (voice_start_press ts)) s = (s, []).
Proof.
  unfold voice_start_rejected, stereo_state_handle_button, voice_start_press.
  cbn [button event]. intros H. monad. cbn.
  destruct (g_voice_recognition_active s); cbn in *; [reflexivity|].
  destruct (mode_eqb (g_current_mode s) MODE_BLUETOOTH ||
            mode_eqb (g_current_mode s) MODE_RADIO); [discriminate|].
  reflexivity.
Qed.

Lemma rejected_start_is_silent_witness :
  exec (stereo_state_handle_button (mk_bt_reply true true)
          (voice_start_press 0)) started = (started, []).
Proof.
  apply (rejected_start_is_silent started (mk_bt_reply true true) 0).
  reflexivity.
Defined.

(** The test is on the mode, not on the power flag: with the power off and
    the mode left at Radio the request goes through. *)
Lemma start_goes_through_on_stale_mode :
  g_powered_on off_with_stale_radio = false /\
  snd (exec (stereo_state_handle_button (mk_bt_reply true true)
               (voice_start_press 0)) off_with_stale_radio)
  = [Bt start_voice_recognition;
     Display (mk_notification DISPLAY_MODE_CHANGE (Str "Voice Assistant")
                "Listening..." 0 200)].
Proof. split; reflexivity. Qed.

(** The one failure the display hears of: the Bluetooth component refusing
    a request that the state machine let through. *)
Lemma refused_start_is_announced :
  let s := after [Button (mk_bt_reply true true) (ev BTN_ROTARY BTN_EVENT_PRESS)]
                 started in
  snd (exec (stereo_state_handle_button (mk_bt_reply false true)
               (voice_start_press 0)) s)
  = [Bt start_voice_recognition;
     Display (mk_notification DISPLAY_MODE_CHANGE (Str "Voice Assistant")
                "Failed to Start" 2000 200)].
Proof. reflexivity. Qed.

(* --------------------------------------------------------------------- *)
(** *** Rotation during a call *)

(** C3 (the code at the failing input).  In PhoneCall mode, with the call
    speaker volume at 12 and the A2DP volume at 10, a clockwise detent takes
    the A2DP volume to 11, shows that number as "Call Volume", leaves the
    speaker volume at 12 and forwards the unchanged 12 to the Bluetooth
    component; a counter-clockwise detent likewise moves the A2DP volume. *)
Lemma phone_call_rotation_moves_a2dp_volume :
  let bt := mk_bt_reply true true in
  let cw := exec (stereo_state_handle_button bt (rotation true)) in_call in
  let ccw := exec (stereo_state_handle_button bt (rotation false)) in_call in
  g_current_mode in_call = MODE_PHONE_CALL /\
  Hfp.speaker_volume (g_hfp_state in_call) = 12 /\
  A2dp.volume (g_a2dp_state in_call) = 10 /\
  Hfp.speaker_volume (g_hfp_state (fst cw)) = 12 /\
  A2dp.volume (g_a2dp_state (fst cw)) = 11 /\
  snd cw = [Display (mk_notification DISPLAY_VOLUME (Fmt_d 11) "Call Volume"
                       1000 200);
            Bt (set_hfp_speaker_volume 12)] /\
  Hfp.speaker_volume (g_hfp_state (fst ccw)) = 12 /\
  A2dp.volume (g_a2dp_state (fst ccw)) = 9.
Proof. vm_compute. repeat split. Qed.

(** The same for every state in PhoneCall mode: no rotation changes the
    speaker volume, and what is forwarded is the value it had. *)
Lemma phone_call_rotation_keeps_speaker_volume
    (s : globals) (bt : bt_reply) (cw : bool) :
  g_current_mode s = MODE_PHONE_CALL ->
  Hfp.speaker_volume
    (g_hfp_state (fst (exec (stereo_state_handle_button bt (rotation cw)) s)))
  = Hfp.speaker_volume (g_hfp_state s) /\
  forall v : Z,
    In (Bt (set_hfp_speaker_volume v))
       (snd (exec (stereo_state_handle_button bt (rotation cw)) s)) ->
    v = Hfp.speaker_volume (g_hfp_state s).
Proof.
  intros Hmode. unfold stereo_state_handle_button, rotation.
  destruct cw; cbn [button event]; monad; cbn; rewrite Hmode; cbn;
    unfold handle_phone_call_mode; cbn [event]; grind;
    (split; [reflexivity|]); intros v Hin; cbn in Hin;
    repeat (destruct Hin as [Hin|Hin]; try congruence); try contradiction.
Qed.

(* --------------------------------------------------------------------- *)
(** *** An incoming call on a unit that is off *)

(** C4 (counterexample).  There the next call leaves Bluetooth recorded,
    and ends in Bluetooth. *)
Lemma stale_radio_counterexample : ~ stale_radio_is_recorded.
Proof.
  intro H.
  destruct (H off_after_bluetooth_call None eq_refl eq_refl)
    as (_ & _ & Hbefore & _).
  vm_compute in Hbefore. discriminate Hbefore.
Qed.

(** C4 (amended).  An incoming call on a unit that is off with the stale
    mode Radio powers it on and makes the mode PhoneCall.  This path stores
    nothing in [g_mode_before_call]: the mode recorded for restoration is
    the one recorded before, and the end of the call returns to it.  It is
    Radio, and the call ends in Radio, whenever [g_mode_before_call] was
    Radio, the value it has from boot until a call interrupts another
    mode. *)
Theorem call_while_off_keeps_recorded_mode
    (s : globals) (caller_id : option string) :
  g_powered_on s = false ->
  g_current_mode s = MODE_RADIO ->
  g_powered_on (call_starts caller_id s) = true /\
  g_current_mode (call_starts caller_id s) = MODE_PHONE_CALL /\
  g_mode_before_call (call_starts caller_id s) = g_mode_before_call s /\
  g_current_mode (call_ends (call_starts caller_id s)) = g_mode_before_call s /\
  (g_mode_before_call s = MODE_RADIO ->
   g_mode_before_call (call_starts caller_id s) = MODE_RADIO /\
   g_current_mode (call_ends (call_starts caller_id s)) = MODE_RADIO).
Proof.
  intros Hoff Hmode.
  assert (Hstart :
    g_powered_on (call_starts caller_id s) = true /\
    g_current_mode (call_starts caller_id s) = MODE_PHONE_CALL /\
    g_mode_before_call (call_starts caller_id s) = g_mode_before_call s).
  { unfold call_starts, stereo_state_hfp_call_status, auto_power_on_if_off.
    monad. cbn. rewrite Hmode. cbn. rewrite Hoff. cbn.
    grind; repeat split; congruence. }
  destruct Hstart as (Hon & Hcall & Hbefore).
  assert (Hend : g_current_mode (call_ends (call_starts caller_id s))
                 = g_mode_before_call s).
  { rewrite <- Hbefore. generalize dependent (call_starts caller_id s).
    intros s1 _ Hcall1 _.
    unfold call_ends, stereo_state_hfp_call_status. monad. cbn.
    rewrite Hcall1. cbn. grind; reflexivity. }
  repeat split; try assumption; congruence.
Qed.

Lemma call_while_off_keeps_recorded_mode_witness :
  g_powered_on (call_starts None off_with_stale_radio) = true /\
  g_current_mode (call_ends (call_starts None off_with_stale_radio))
    = MODE_RADIO.
Proof.
  destruct (call_while_off_keeps_recorded_mode off_with_stale_radio None
              eq_refl eq_refl) as (Hon & _ & _ & _ & Hradio).
  split; [exact Hon|]. apply Hradio. reflexivity.
Defined.

(* --------------------------------------------------------------------- *)
(** *** Station browsing and the commit timer *)

Lemma browsing_rotation_keeps_frequency (bt : bt_reply) (cw : bool) (s : globals) :
  g_current_mode s = MODE_RADIO ->
  g_browsing_stations s = true ->
  let s' := press_button bt (rotation cw) s in
  g_current_mode s' = MODE_RADIO /\
  g_browsing_stations s' = true /\
  Radio.frequency (g_radio_state s') = Radio.frequency (g_radio_state s).
Proof.
  intros Hmode Hbrowse.
  unfold press_button, stereo_state_handle_button, rotation.
  destruct cw; cbn [button event]; monad; cbn; rewrite Hmode; cbn;
    unfold handle_radio_mode; cbn [event]; monad; cbn; rewrite Hbrowse;
    grind; repeat split; assumption.
Qed.

Lemma browsing_turn_keeps_frequency (bt : bt_reply) (rots : list bool) :
  forall s : globals,
    g_current_mode s = MODE_RADIO ->
    g_browsing_stations s = true ->
    g_current_mode (turn bt rots s) = MODE_RADIO /\
    g_browsing_stations (turn bt rots s) = true /\
    Radio.frequency (g_radio_state (turn bt rots s))
      = Radio.frequency (g_radio_state s).
Proof.
  induction rots as [|cw rots IH]; intros s Hmode Hbrowse; cbn [turn].
  - repeat split; assumption.
  - destruct (browsing_rotation_keeps_frequency bt cw s Hmode Hbrowse)
      as (Hm & Hb & Hf).
    destruct (IH _ Hm Hb) as (Hm' & Hb' & Hf').
    repeat split; try assumption. congruence.
Qed.

Lemma rotary_release_toggles_browsing (bt : bt_reply) (s : globals) :
  g_current_mode s = MODE_RADIO ->
  let s' := press_button bt rotary_release s in
  g_current_mode s' = MODE_RADIO /\
  g_browsing_stations s' = negb (g_browsing_stations s) /\
  Radio.frequency (g_radio_state s') = Radio.frequency (g_radio_state s).
Proof.
  intros Hmode.
  unfold press_button, stereo_state_handle_button, rotary_release.
  cbn [button event ev]. monad. cbn. rewrite Hmode. cbn.
  unfold handle_radio_mode. cbn [event button]. monad. cbn.
  destruct (g_browsing_stations s); grind; repeat split; assumption.
Qed.

(** With browsing off the timer task only clears its handle. *)
Lemma timer_idle_when_not_browsing (s : globals) :
  g_browsing_stations s = false ->
  exec station_tune_timer_callback s = (set_g_station_tune_timer false s, []).
Proof.
  intros H. unfold station_tune_timer_callback. monad. rewrite H. reflexivity.
Qed.

(** C7.  In Radio mode with browsing off: the encoder button is released
    (browsing starts), any number of detents are turned in either direction,
    the button is released again (browsing stops), and then the commit
    timer runs out.  Browsing is off when the timer fires, the timer task
    does nothing but clear its handle - no notification, no save - and the
    tuned frequency is the one from before browsing. *)
Theorem browsing_cancelled_keeps_frequency
    (s : globals) (bt : bt_reply) (rots : list bool) :
  g_current_mode s = MODE_RADIO ->
  g_browsing_stations s = false ->
  let s1 := press_button bt rotary_release s in
  let s2 := turn bt rots s1 in
  let s3 := press_button bt rotary_release s2 in
  let s4 := fst (exec station_tune_timer_callback s3) in
  g_browsing_stations s1 = true /\
  g_browsing_stations s3 = false /\
  exec station_tune_timer_callback s3 = (set_g_station_tune_timer false s3, []) /\
  Radio.frequency (g_radio_state s4) = Radio.frequency (g_radio_state s).
Proof.
  intros Hmode Hbrowse s1 s2 s3 s4.
  destruct (rotary_release_toggles_browsing bt s Hmode) as (Hm1 & Hb1 & Hf1).
  fold s1 in Hm1, Hb1, Hf1. rewrite Hbrowse in Hb1. cbn in Hb1.
  destruct (browsing_turn_keeps_frequency bt rots s1 Hm1 Hb1)
    as (Hm2 & Hb2 & Hf2).
  fold s2 in Hm2, Hb2, Hf2.
  destruct (rotary_release_toggles_browsing bt s2 Hm2) as (Hm3 & Hb3 & Hf3).
  fold s3 in Hm3, Hb3, Hf3. rewrite Hb2 in Hb3. cbn in Hb3.
  pose proof (timer_idle_when_not_browsing s3 Hb3) as Hidle.
  repeat split; try assumption.
  subst s4. rewrite Hidle. cbn. congruence.
Qed.

(** The example of the specification: three clockwise detents.  The
    candidate moves to 88.1 MHz and a timer is pending, yet the tuned
    frequency stays 87.5 MHz when it fires. *)
Lemma browsing_cancelled_keeps_frequency_witness :
  let bt := mk_bt_reply true true in
  let s3 := press_button bt rotary_release
              (turn bt [true; true; true]
                 (press_button bt rotary_release radio_on)) in
  g_browsing_station_freq s3 = browsing_freq_of 3 /\
  g_station_tune_timer s3 = true /\
  Radio.frequency (g_radio_state (after [TimerFires] s3)) = f32_lit 875 10 /\
  Radio.frequency (g_radio_state (fst (exec station_tune_timer_callback s3)))
    = Radio.frequency (g_radio_state radio_on).
Proof.
  split; [reflexivity|]. split; [reflexivity|]. split; [reflexivity|].
  apply (browsing_cancelled_keeps_frequency radio_on (mk_bt_reply true true)
           [true; true; true]); reflexivity.
Defined.

(* --------------------------------------------------------------------- *)
(** *** Volumes *)

Lemma in_range_up (v : Z) : in_range v -> (v <? 15) = true -> in_range (u8 (v + 1)).
Proof.
  unfold in_range, u8. intros H L. apply Z.ltb_lt in L.
  rewrite Z.mod_small; lia.
Qed.

Lemma in_range_down (v : Z) : in_range v -> (v >? 0) = true -> in_range (u8 (v - 1)).
Proof.
  unfold in_range, u8. intros H L. apply Z.gtb_lt in L.
  rewrite Z.mod_small; lia.
Qed.

Lemma in_rangeb_spec (v : Z) : in_rangeb v = true <-> in_range v.
Proof.
  unfold in_rangeb, in_range. rewrite andb_true_iff, Z.leb_le, Z.leb_le.
  reflexivity.
Qed.

Lemma Forall_list_set {A} (P : A -> Prop) (v : A) (l : list A) :
  forall i : nat, Forall P l -> P v -> Forall P (list_set i v l).
Proof.
  induction l as [|x l IH]; intros i Hl Hv; destruct i; cbn;
    try constructor; inversion Hl; subst; auto.
Qed.

Lemma forallb_nth_blob (blobs : list (option bt_blob)) (i : nat) (b : bt_blob) :
  forallb blob_in_rangeb blobs = true ->
  nth i blobs None = Some b ->
  blob_in_rangeb (Some b) = true.
Proof.
  revert i. induction blobs as [|x blobs IH]; intros i Hall Hnth.
  - destruct i; discriminate.
  - cbn [forallb] in Hall. apply andb_true_iff in Hall as [Hx Hrest].
    destruct i; cbn in Hnth; [subst; exact Hx | eauto].
Qed.

Lemma nth_device_in_range (devs : list bt_device_settings_t) (i : nat) :
  Forall device_in_range devs ->
  device_in_range (nth i devs (mk_bt_device [] 0 0 0 false)).
Proof.
  intros H. revert i. induction H as [|d devs Hd Hdevs IH]; intros i.
  - destruct i; cbn; repeat split; cbn; lia.
  - destruct i; cbn; auto.
Qed.

Ltac vol_goal :=
  unfold vols_ok, volumes_in_range, devices_in_range in *; cbn;
  repeat match goal with
         | H : _ /\ _ |- _ => destruct H
         | H : _ && _ = true |- _ => apply andb_true_iff in H
         end;
  repeat match goal with
         | |- _ /\ _ => split
         end;
  auto using in_range_up, in_range_down.

Lemma handle_button_vols (bt : bt_reply) (e : button_event_t) (s : globals) :
  vols_ok s -> vols_ok (fst (exec (stereo_state_handle_button bt e) s)).
Proof.
  intros H.
  destruct e as [b t ts]. unfold stereo_state_handle_button.
  cbn [button event].
  destruct (button_eqb b BTN_ROTARY && event_type_eqb t BTN_EVENT_PRESS) eqn:E1;
    [grind; vol_goal|].
  destruct (button_eqb b BTN_BAND_UM && event_type_eqb t BTN_EVENT_PRESS) eqn:E2;
    [grind; vol_goal|].
  destruct (button_eqb b BTN_BAND_VF && event_type_eqb t BTN_EVENT_PRESS) eqn:E3;
    [grind; vol_goal|].
  monad. cbn.
  destruct (g_current_mode s) eqn:Hm; cbn; try assumption.
  + unfold handle_radio_mode. cbn [event button]. destruct t; grind; vol_goal.
  + unfold handle_bluetooth_mode. cbn [event button]. destruct t; grind; vol_goal.
  + unfold handle_phone_call_mode. cbn [event button].
    destruct t; grind; vol_goal.
Qed.

Lemma load_from_nvs_vols (img : nvs_image) (bt : nvs_bt_image) :
  option_in_rangeb (nvs_radio_vol img) = true ->
  option_in_rangeb (nvs_a2dp_vol img) = true ->
  option_in_rangeb (nvs_hfp_spk_vol img) = true ->
  option_in_rangeb (nvs_hfp_mic_vol img) = true ->
  maintains vols_ok (load_from_nvs (Some (img, bt))).
Proof.
  intros Hr Ha Hs Hm. unfold load_from_nvs.
  maintain;
    match goal with
    | E : ?k = Some _, H : option_in_rangeb ?k = true |- _ =>
        rewrite E in H; cbn in H; apply in_rangeb_spec in H
    | _ => idtac
    end;
    vol_goal.
Qed.

Lemma load_bt_device_settings_vols (img : nvs_image) (bt : nvs_bt_image) :
  forallb blob_in_rangeb (nvs_bt_dev bt) = true ->
  maintains vols_ok (load_bt_device_settings (Some (img, bt))).
Proof.
  intros Hb. unfold load_bt_device_settings.
  maintain.
  match goal with
  | E : nth _ _ None = Some _ |- _ =>
      pose proof (forallb_nth_blob _ _ _ Hb E) as Hin
  end.
  cbn in Hin. apply andb_true_iff in Hin as [Hin H3].
  apply andb_true_iff in Hin as [H1 H2].
  apply in_rangeb_spec in H1, H2, H3.
  unfold vols_ok, volumes_in_range, devices_in_range in *. cbn.
  split; [tauto|].
  apply Forall_list_set; [tauto|]. unfold device_in_range. cbn. tauto.
Qed.

Lemma init_vols (config : option stereo_config_t) (nvs : nvs_store) :
  volume_input_in_range (Init config nvs) = true ->
  maintains vols_ok (stereo_state_init config nvs).
Proof.
  intros Hin. unfold stereo_state_init.
  assert (Hload : maintains vols_ok (load_from_nvs nvs)).
  { destruct nvs as [[img bt]|].
    - cbn in Hin. repeat (apply andb_true_iff in Hin as [Hin ?]).
      apply load_from_nvs_vols; assumption.
    - cbn [load_from_nvs]. maintain; vol_goal. }
  assert (Hbt : maintains vols_ok (load_bt_device_settings nvs)).
  { destruct nvs as [[img bt]|].
    - cbn in Hin. repeat (apply andb_true_iff in Hin as [Hin ?]).
      apply load_bt_device_settings_vols; assumption.
    - apply maintains_skip. }
  repeat first
    [ exact Hload | exact Hbt
    | apply maintains_seq
    | apply maintains_on_key; intros
    | unfold radio, a2dp, hfp; apply maintains_modify; intros ];
    try (vol_goal; unfold in_range; lia).
  unfold fst. grind; vol_goal.
Qed.

Lemma perform_vols (o : op) (s : globals) :
  vols_ok s ->
  volume_input_in_range o = true ->
  vols_ok (fst (exec (perform o) s)).
Proof.
  intros Hs Hin. destruct o; unfold perform.
  - apply init_vols; assumption.
  - apply handle_button_vols; assumption.
  - unfold stereo_state_set_power. grind; vol_goal.
  - unfold stereo_state_set_mode. grind; vol_goal.
  - unfold stereo_state_hfp_call_status, auto_power_on_if_off.
    grind; vol_goal.
  - unfold stereo_state_a2dp_streaming, auto_power_on_if_off.
    grind; vol_goal.
  - cbn in Hin. apply in_rangeb_spec in Hin.
    unfold on_bt_volume_changed. destruct target; grind; vol_goal.
  - grind_all; vol_goal.
  - unfold stereo_state_rds_update.
    destruct station_name, song_info; grind_all; vol_goal.
  - unfold stereo_state_a2dp_metadata.
    destruct title, artist; grind_all; vol_goal.
  - unfold stereo_state_bt_device_connected.
    destruct device_addr as [addr|]; [|exact Hs].
    destruct Hs as [Hv Hd].
    pose proof (fun i => nth_device_in_range (g_bt_devices s) i Hd) as Hnth.
    grind_all; unfold vols_ok, volumes_in_range, devices_in_range in *; cbn;
      try match goal with
          | |- context [nth ?i _ _] => destruct (Hnth i) as (? & ? & ?)
          end; tauto.
  - unfold stereo_state_bt_device_disconnected.
    destruct device_addr as [addr|]; [|exact Hs].
    destruct Hs as [Hv Hd].
    grind_all; unfold vols_ok, volumes_in_range, devices_in_range in *; cbn;
      (split; [tauto|]);
      apply Forall_list_set; try exact Hd;
      unfold device_in_range; cbn; tauto.
  - unfold stereo_state_save. grind_all; vol_goal.
Qed.

Lemma run_vols (ops : list op) : forall s : globals,
  vols_ok s ->
  forallb volume_input_in_range ops = true ->
  vols_ok (after ops s).
Proof.
  unfold after.
  induction ops as [|o ops IH]; intros s Hs Hin; cbn [run forallb] in *.
  - exact Hs.
  - apply andb_true_iff in Hin as [Ho Hrest].
    pose proof (perform_vols o s Hs Ho) as H1.
    specialize (IH _ H1 Hrest).
    destruct (exec (perform o) s) as [s1 out1]. cbn [fst] in *.
    destruct (run ops s1) as [s2 out2]. exact IH.
Qed.

(** A clockwise detent never moves a volume that stands at 15. *)
Lemma clockwise_keeps_full (bt : bt_reply) (f : volume_field) (s : globals) :
  volume_of f s = 15 ->
  volume_of f (fst (exec (stereo_state_handle_button bt (rotation true)) s))
    = 15.
Proof.
  intros H. unfold stereo_state_handle_button, rotation. cbn [button event ev].
  monad. cbn.
  destruct (g_current_mode s) eqn:Hm; cbn; try exact H.
  - unfold handle_radio_mode. cbn [event].
    destruct f; cbn in H |- *; grind; try exact H;
      rewrite H in *; discriminate.
  - unfold handle_bluetooth_mode. cbn [event].
    destruct f; cbn in H |- *; grind; try exact H;
      rewrite H in *; discriminate.
  - unfold handle_phone_call_mode. cbn [event].
    destruct f; cbn in H |- *; grind; try exact H;
      rewrite H in *; discriminate.
Qed.

(** Not every sequence of operations keeps the volumes in range: after
    [loud_notification] the A2DP volume is 16. *)
Lemma volumes_counterexample : ~ volumes_always_in_range.
Proof.
  intro H. specialize (H loud_notification).
  destruct H as (_ & (_ & Ha) & _). vm_compute in Ha. apply Ha. reflexivity.
Qed.

(** The load from the store is no different: a stored radio volume of 200
    is the radio volume after initialisation. *)
Lemma stored_volume_is_loaded_unclamped :
  let img := mk_nvs (Some 1) (Some MODE_RADIO) None None (Some 200)
                    None None None [] [] in
  let s := after [Init None (Some (img, mk_nvs_bt None []))] globals_boot in
  Radio.volume (g_radio_state s) = 200.
Proof. reflexivity. Qed.

(** What the handlers do keep: they clamp what they compute, and what
    comes from outside is stored as it comes.  If the four volume fields and
    the per-device volumes lie in [0,15], they do so after any sequence of
    operations - button events of every kind (rotations and Repeat
    included), power, mode, call and streaming notifications, the timer,
    device connections - in which every volume notification carries, and
    every store loaded holds, volumes in [0,15].  And a volume field that
    stands at 15 stands at 15 after three clockwise detents, in whatever mode
    they arrive. *)
Theorem volumes_stay_in_range :
  (forall (s : globals) (ops : list op),
      volumes_in_range s ->
      devices_in_range s ->
      forallb volume_input_in_range ops = true ->
      volumes_in_range (after ops s)) /\
  (forall (s : globals) (bt : bt_reply) (f : volume_field),
      volume_of f s = 15 ->
      let cw := Button bt (rotation true) in
      volume_of f (after [cw; cw; cw] s) = 15).
Proof.
  split.
  - intros s ops Hv Hd Hin.
    apply (run_vols ops s (conj Hv Hd) Hin).
  - intros s bt f H cw. unfold after. cbn [run perform cw].
    pose proof (clockwise_keeps_full bt f s H) as H1.
    destruct (exec (stereo_state_handle_button bt (rotation true)) s)
      as [s1 o1]. cbn [fst] in H1.
    pose proof (clockwise_keeps_full bt f s1 H1) as H2.
    destruct (exec (stereo_state_handle_button bt (rotation true)) s1)
      as [s2 o2]. cbn [fst] in H2.
    pose proof (clockwise_keeps_full bt f s2 H2) as H3.
    destruct (exec (stereo_state_handle_button bt (rotation true)) s2)
      as [s3 o3]. exact H3.
Qed.

Lemma volumes_stay_in_range_witness :
  volumes_in_range (after quiet_sequence globals_boot) /\
  Radio.volume (g_radio_state radio_at_full) = 15 /\
  (let cw := Button (mk_bt_reply true true) (rotation true) in
   volume_of RadioVolume (after [cw; cw; cw] radio_at_full) = 15).
Proof.
  split; [|split].
  - apply (proj1 volumes_stay_in_range globals_boot quiet_sequence).
    + unfold volumes_in_range, in_range. cbn. lia.
    + unfold devices_in_range, device_in_range, in_range. cbn.
      repeat constructor; cbn; lia.
    + reflexivity.
  - reflexivity.
  - apply (proj2 volumes_stay_in_range radio_at_full (mk_bt_reply true true)
             RadioVolume).
    reflexivity.
Defined.

(** C5 (the code at the failing input).  [car_stereo_state.h] documents
    each of the four volume fields as "(0-15)".  [on_bt_volume_changed]
    stores the byte it is given in the field its target names, whatever the
    state and whatever the byte.  On the unit that streams over Bluetooth, a
    notified A2DP volume of 200 becomes the A2DP volume, outside [0,15], and
    is shown.  A clockwise detent then leaves the 200 in place, shows it,
    forwards it to the Bluetooth component and saves it; a counter-clockwise
    detent makes it 199.  [load_from_nvs] is no different: a stored radio
    volume of 200 is the radio volume after initialisation. *)
Theorem volume_notification_is_stored_unclamped :
  (forall (s : globals) (new_volume : Z),
      A2dp.volume
        (g_a2dp_state
           (after [VolumeChanged BT_VOLUME_TARGET_A2DP new_volume] s))
      = new_volume /\
      Hfp.speaker_volume
        (g_hfp_state
           (after [VolumeChanged BT_VOLUME_TARGET_HFP_SPEAKER new_volume] s))
      = new_volume /\
      Hfp.mic_volume
        (g_hfp_state
           (after [VolumeChanged BT_VOLUME_TARGET_HFP_MIC new_volume] s))
      = new_volume) /\
  (let bt := mk_bt_reply true true in
   let told := run [VolumeChanged BT_VOLUME_TARGET_A2DP 200] streaming_unit in
   let cw := run [Button bt (rotation true)] (fst told) in
   let ccw := run [Button bt (rotation false)] (fst told) in
   g_powered_on streaming_unit = true /\
   g_current_mode streaming_unit = MODE_BLUETOOTH /\
   volumes_in_range streaming_unit /\
   A2dp.volume (g_a2dp_state (fst told)) = 200 /\
   ~ volumes_in_range (fst told) /\
   snd told = [Display (mk_notification DISPLAY_VOLUME (Fmt_d 200) "Bluetooth"
                          1000 120)] /\
   A2dp.volume (g_a2dp_state (fst cw)) = 200 /\
   snd cw = [Display (mk_notification DISPLAY_VOLUME (Fmt_d 200) "Bluetooth"
                        1000 120);
             Bt (set_a2dp_volume 200);
             NvsSave (nvs_snapshot (fst cw))] /\
   nvs_a2dp_vol (nvs_snapshot (fst cw)) = Some 200 /\
   A2dp.volume (g_a2dp_state (fst ccw)) = 199 /\
   In (Bt (set_a2dp_volume 199)) (snd ccw)) /\
  (let s := after [Init None loud_store] globals_boot in
   Radio.volume (g_radio_state s) = 200 /\ ~ volumes_in_range s).
Proof.
  split; [|split].
  - intros s new_volume. unfold after. cbn [run perform].
    unfold on_bt_volume_changed. monad. cbn.
    repeat split; destruct (display_handler (g_config s)); reflexivity.
  - cbv zeta. repeat split;
      solve [ vm_compute; congruence
            | vm_compute; intuition congruence
            | vm_compute; auto ].
  - cbv zeta. split; [reflexivity|].
    unfold volumes_in_range, in_range. vm_compute. intuition congruence.
Qed.

End StereoProperties.

(* ===================================================================== *)
(** ** Further properties of buttons.c *)
(* ===================================================================== *)

Section ButtonRunsProperties.
Import CInt Buttons ButtonRuns.

(* --------------------------------------------------------------------- *)
(** *** The accumulator *)

Lemma transition_range (a b : encoder_state_t) : -1 <= transition a b <= 1.
Proof. destruct a, b; vm_compute; split; discriminate. Qed.

Lemma i8_small (z : Z) : -128 <= z <= 127 -> i8 z = z.
Proof. intros H. unfold i8. rewrite Z.mod_small; lia. Qed.

Lemma isr_keeps_accumulator_small (r : rotary) (i : isr_input) :
  -1 <= g_encoder_position r <= 1 ->
  -1 <= g_encoder_position (fst (rotary_encoder_isr r i)) <= 1.
Proof.
  intros H. unfold rotary_encoder_isr.
  pose proof (transition_range (g_encoder_state r) (phase_of i)) as Ht.
  set (d := transition (g_encoder_state r) (phase_of i)) in *.
  destruct (isr_debounced r i); [exact H|].
  destruct (isr_sees_press i).
  { destruct (negb (g_rotary_pressed r)); cbn [fst g_encoder_position]; lia. }
  destruct (isr_sees_release r i).
  { repeat match goal with
           | |- context [if ?b then _ else _] => destruct b
           end; cbn [fst g_encoder_position]; lia. }
  cbn zeta.
  rewrite i8_small by lia.
  destruct (negb (d =? 0)); [|cbn [fst g_encoder_position]; lia].
  destruct (g_encoder_position r + d >=? 2) eqn:E1;
    [cbn [fst g_encoder_position]; lia|].
  destruct (g_encoder_position r + d <=? -2) eqn:E2;
    [cbn [fst g_encoder_position]; lia|].
  rewrite Z.geb_leb in E1. apply Z.leb_gt in E1. apply Z.leb_gt in E2.
  cbn [fst g_encoder_position]. lia.
Qed.

(** X1.  Whatever fires the ISR, from the state the firmware boots in the
    rotation accumulator [g_encoder_position] never leaves [-1, 1]: it is
    reset as soon as it reaches 2 or -2, so the [int8_t] cannot overflow. *)
Theorem accumulator_stays_small (firings : list isr_input) :
  -1 <= g_encoder_position (isr_run rotary_boot firings) <= 1.
Proof.
  assert (H : forall r, -1 <= g_encoder_position r <= 1 ->
                        -1 <= g_encoder_position (isr_run r firings) <= 1).
  { induction firings as [|i rest IH]; intros r Hr; cbn [isr_run].
    - exact Hr.
    - apply IH, isr_keeps_accumulator_small, Hr. }
  apply H. cbn. lia.
Qed.

(* --------------------------------------------------------------------- *)
(** *** Contact bounce and whole clicks *)

Lemma transition_antisym (a b : encoder_state_t) :
  transition b a = - transition a b.
Proof. destruct a, b; reflexivity. Qed.

(** A decoding firing met with the accumulator at 0: the table entry goes
    into the accumulator and nothing is sent. *)
Lemma decoding_from_zero (r : rotary) (i : isr_input) :
  g_encoder_position r = 0 ->
  isr_decodes r i = true ->
  snd (rotary_encoder_isr r i) = [] /\
  g_encoder_position (fst (rotary_encoder_isr r i))
    = transition (g_encoder_state r) (phase_of i) /\
  g_encoder_state (fst (rotary_encoder_isr r i)) = phase_of i.
Proof.
  intros Hp D. unfold isr_decodes in D. unfold rotary_encoder_isr.
  destruct (isr_debounced r i); [discriminate|].
  destruct (isr_sees_press i); [discriminate|].
  destruct (isr_sees_release r i); [discriminate|]. clear D.
  rewrite Hp. cbn zeta.
  pose proof (transition_range (g_encoder_state r) (phase_of i)) as Ht.
  set (d := transition (g_encoder_state r) (phase_of i)) in *.
  rewrite i8_small by lia. rewrite Z.add_0_l.
  destruct (d =? 0) eqn:E0; cbn [negb].
  - apply Z.eqb_eq in E0. cbn. auto.
  - replace (d >=? 2) with false by (symmetry; rewrite Z.geb_leb; apply Z.leb_gt; lia).
    replace (d <=? -2) with false by (symmetry; apply Z.leb_gt; lia).
    cbn. auto.
Qed.

(** X2.  Contact bounce is absorbed: with the accumulator at 0, a decoded
    edge to any phase followed by a decoded edge back to the phase held
    before sends no event and leaves accumulator and phase as they were.
    The table is antisymmetric, so the second edge takes back what the
    first one added. *)
Theorem bounce_is_absorbed (r : rotary) (i1 i2 : isr_input) :
  g_encoder_position r = 0 ->
  isr_decodes r i1 = true ->
  isr_decodes (fst (rotary_encoder_isr r i1)) i2 = true ->
  phase_of i2 = g_encoder_state r ->
  snd (isr_trace r [i1; i2]) = [] /\
  g_encoder_position (fst (isr_trace r [i1; i2])) = 0 /\
  g_encoder_state (fst (isr_trace r [i1; i2])) = g_encoder_state r.
Proof.
  intros Hp D1 D2 Hback.
  destruct (decoding_from_zero r i1 Hp D1) as (Hout1 & Hpos1 & Hst1).
  cbn [isr_trace].
  destruct (rotary_encoder_isr r i1) as [r1 out1] eqn:E1.
  cbn [fst snd] in *. subst out1.
  pose proof (transition_range (g_encoder_state r) (phase_of i1)) as Ht.
  unfold isr_decodes in D2. unfold rotary_encoder_isr.
  destruct (isr_debounced r1 i2); [discriminate|].
  destruct (isr_sees_press i2); [discriminate|].
  destruct (isr_sees_release r1 i2); [discriminate|]. clear D2.
  cbn zeta. rewrite Hback, Hst1, Hpos1.
  rewrite (transition_antisym (g_encoder_state r) (phase_of i1)).
  set (d := transition (g_encoder_state r) (phase_of i1)) in *.
  replace (d + - d) with 0 by lia.
  rewrite i8_small by lia.
  destruct (- d =? 0) eqn:E0; cbn [negb fst snd g_encoder_position
                                    g_encoder_state Z.geb Z.leb Z.compare].
  - apply Z.eqb_eq in E0. repeat split. lia.
  - repeat split.
Qed.

Lemma bounce_is_absorbed_witness :
  snd (isr_trace rotary_boot [edge 10 false true; edge 20 true true]) = [] /\
  g_encoder_position
    (fst (isr_trace rotary_boot [edge 10 false true; edge 20 true true])) = 0 /\
  g_encoder_state
    (fst (isr_trace rotary_boot [edge 10 false true; edge 20 true true]))
    = g_encoder_state rotary_boot.
Proof.
  apply (bounce_is_absorbed rotary_boot (edge 10 false true)
                            (edge 20 true true)); reflexivity.
Defined.

Lemma andb_negb_split (a b : bool) :
  negb a && b = true -> a = false /\ b = true.
Proof. destruct a, b; cbn; auto. Qed.

(** With the switch released and no press recorded, a firing past the
    debounce window goes to the decoding branch. *)
Lemma decode_step (lrt lst ps : Z) (sent : bool) (es : encoder_state_t)
    (pos now : Z) (clk dt : level) :
  let r := mk_rotary lrt lst ps false sent es pos in
  let i := mk_isr_input now true clk dt in
  isr_debounced r i = false ->
  rotary_encoder_isr r i =
    let new_state := phase_of i in
    let direction := transition es new_state in
    if negb (direction =? 0) then
      let position := i8 (pos + direction) in
      if position >=? 2 then
        (mk_rotary now lst ps false sent new_state 0,
         [ev BTN_ROTARY BTN_EVENT_ROTARY_CW])
      else if position <=? -2 then
        (mk_rotary now lst ps false sent new_state 0,
         [ev BTN_ROTARY BTN_EVENT_ROTARY_CCW])
      else (mk_rotary now lst ps false sent new_state position, [])
    else (mk_rotary lrt lst ps false sent new_state pos, []).
Proof.
  intros r i Hd. unfold rotary_encoder_isr. rewrite Hd. reflexivity.
Qed.

Ltac isr_fire H :=
  apply andb_negb_split in H;
  let Hd := fresh "Hd" in
  destruct H as [Hd H];
  rewrite (decode_step _ _ _ _ _ _ _ _ _ Hd) in H |- *; clear Hd;
  cbv -[rotary_encoder_isr isr_debounced] in H |- *.

(** X3.  One full quadrature cycle of the knob sends exactly two events.
    From rest (both lines high, accumulator 0, no press recorded), the
    four edges of a clockwise cycle, none of them swallowed by the
    debounce window, send one [ROTARY_CW] on the second edge and another
    on the fourth; the mirrored order sends [ROTARY_CCW] twice.  The knob
    ends at rest with the accumulator back at 0. *)
Theorem whole_click_sends_two_events (r : rotary) (t1 t2 t3 t4 : Z) :
  g_encoder_state r = ENC_STATE_11 ->
  g_encoder_position r = 0 ->
  g_rotary_pressed r = false ->
  (undebounced r (click_cw t1 t2 t3 t4) = true ->
   snd (isr_trace r (click_cw t1 t2 t3 t4))
     = [ev BTN_ROTARY BTN_EVENT_ROTARY_CW; ev BTN_ROTARY BTN_EVENT_ROTARY_CW]
   /\ g_encoder_state (fst (isr_trace r (click_cw t1 t2 t3 t4)))
      = ENC_STATE_11
   /\ g_encoder_position (fst (isr_trace r (click_cw t1 t2 t3 t4))) = 0) /\
  (undebounced r (click_ccw t1 t2 t3 t4) = true ->
   snd (isr_trace r (click_ccw t1 t2 t3 t4))
     = [ev BTN_ROTARY BTN_EVENT_ROTARY_CCW;
        ev BTN_ROTARY BTN_EVENT_ROTARY_CCW]
   /\ g_encoder_state (fst (isr_trace r (click_ccw t1 t2 t3 t4)))
      = ENC_STATE_11
   /\ g_encoder_position (fst (isr_trace r (click_ccw t1 t2 t3 t4))) = 0).
Proof.
  destruct r as [lrt lst ps pressed sent es pos].
  cbn [g_encoder_state g_encoder_position g_rotary_pressed].
  intros -> -> ->.
  split; intros H; cbv -[rotary_encoder_isr isr_debounced] in H |- *;
    do 3 isr_fire H; apply andb_negb_split in H; destruct H as [Hd _];
    rewrite (decode_step _ _ _ _ _ _ _ _ _ Hd); cbv; auto.
Qed.

Lemma whole_click_sends_two_events_witness :
  snd (isr_trace rotary_boot (click_cw 10 20 30 40))
    = [ev BTN_ROTARY BTN_EVENT_ROTARY_CW; ev BTN_ROTARY BTN_EVENT_ROTARY_CW]
  /\ snd (isr_trace rotary_boot (click_ccw 10 20 30 40))
    = [ev BTN_ROTARY BTN_EVENT_ROTARY_CCW;
       ev BTN_ROTARY BTN_EVENT_ROTARY_CCW].
Proof.
  destruct (whole_click_sends_two_events rotary_boot 10 20 30 40
              eq_refl eq_refl eq_refl) as [Hcw Hccw].
  split; [apply Hcw | apply Hccw]; vm_compute; reflexivity.
Defined.

(* --------------------------------------------------------------------- *)
(** *** The push button of the encoder *)

(** X4.  A press of the knob is classified when it is released, by its
    duration in 32-bit tick arithmetic.  The firing that sees the switch go
    low with no press recorded sends nothing; the firing that sees it
    high again sends [RELEASE_AFTER_LONG] from 1000 ms on, [PRESS] above
    50 ms, and nothing for a shorter contact.  Either way the press is no
    longer recorded afterwards. *)
Theorem press_is_classified_at_release (r : rotary) (t0 t1 : Z) :
  let down := mk_isr_input t0 false true true in
  let up := mk_isr_input t1 true true true in
  let held := u32 (t1 - t0) in
  g_rotary_pressed r = false ->
  undebounced r [down; up] = true ->
  snd (isr_trace r [down; up]) =
    (if held >=? LONG_PRESS_THRESHOLD_MS
     then [ev BTN_ROTARY BTN_EVENT_RELEASE_AFTER_LONG]
     else if held >? DEBOUNCE_MS then [ev BTN_ROTARY BTN_EVENT_PRESS]
     else []) /\
  g_rotary_pressed (fst (isr_trace r [down; up])) = false.
Proof.
  intros down up held Hp H.
  destruct r as [lrt lst ps pressed sent es pos].
  cbn [g_rotary_pressed] in Hp. subst pressed.
  cbn [undebounced] in H.
  apply andb_negb_split in H. destruct H as [Hd1 H].
  assert (E1 : rotary_encoder_isr (mk_rotary lrt lst ps false sent es pos) down
               = (mk_rotary lrt lst t0 true false es 0, [])).
  { unfold rotary_encoder_isr. rewrite Hd1. reflexivity. }
  rewrite E1 in H. cbn [fst] in H.
  apply andb_negb_split in H. destruct H as [Hd2 _].
  cbn [isr_trace]. rewrite E1.
  unfold rotary_encoder_isr. rewrite Hd2.
  cbn [isr_sees_press isr_sees_release up sw_state clk_state dt_state
       g_rotary_pressed g_rotary_press_start isr_now negb andb].
  fold held.
  destruct (held >=? LONG_PRESS_THRESHOLD_MS); [split; reflexivity|].
  destruct (held >? DEBOUNCE_MS); split; reflexivity.
Qed.

Lemma press_is_classified_at_release_witness :
  snd (isr_trace rotary_boot [mk_isr_input 100 false true true;
                              mk_isr_input 400 true true true])
    = [ev BTN_ROTARY BTN_EVENT_PRESS].
Proof.
  apply (press_is_classified_at_release rotary_boot 100 400);
    vm_compute; reflexivity.
Defined.

(** X5.  A press held for a second is reported while it is still held.
    With a press recorded and not yet reported, three undisturbed steps of
    the monitor task (test of the flags, timing, latch) deliver
    [LONG_PRESS] exactly once if the press has lasted 1000 ms at
    the timing step, and set [g_long_press_sent]; after that the task
    stays silent for as long as nothing else touches the globals. *)
Theorem held_press_is_reported (s : system) (n1 n2 n3 : Z)
    (later : list Z) :
  monitor s = MON_DELAY ->
  g_callback s = true ->
  g_rotary_pressed (shared s) = true ->
  g_long_press_sent (shared s) = false ->
  u32 (n2 - g_rotary_press_start (shared s)) >= LONG_PRESS_THRESHOLD_MS ->
  snd (system_run s (map MonitorRuns (n1 :: n2 :: n3 :: later)))
    = [ev BTN_ROTARY BTN_EVENT_LONG_PRESS] /\
  g_long_press_sent
    (shared (fst (system_run s (map MonitorRuns (n1 :: n2 :: n3 :: later)))))
    = true.
Proof.
  destruct s as [[lrt lst ps pressed sent es pos] pc cb].
  cbn [monitor g_callback shared g_rotary_pressed g_long_press_sent
       g_rotary_press_start].
  intros -> -> -> -> Hlong.
  assert (Hidle : forall ns,
    system_run (mk_system (mk_rotary lrt lst ps true true es pos)
                          MON_DELAY true) (map MonitorRuns ns)
    = (mk_system (mk_rotary lrt lst ps true true es pos) MON_DELAY true, [])).
  { induction ns as [|n ns IH]; [reflexivity|].
    cbn [map system_run system_step]. unfold monitor_step at 1.
    cbn [monitor shared g_rotary_pressed g_long_press_sent andb negb].
    rewrite IH. reflexivity. }
  cbn [map system_run system_step].
  unfold monitor_step.
  cbn [monitor shared g_rotary_pressed g_long_press_sent g_callback andb negb
       g_rotary_press_start g_last_rotary_time g_last_sw_time g_encoder_state
       g_encoder_position].
  replace (u32 (n2 - ps) >=? LONG_PRESS_THRESHOLD_MS) with true
    by (symmetry; rewrite Z.geb_leb; apply Z.leb_le; lia).
  cbn [monitor shared g_rotary_pressed g_long_press_sent g_callback andb negb
       g_rotary_press_start g_last_rotary_time g_last_sw_time g_encoder_state
       g_encoder_position].
  fold (map MonitorRuns later). rewrite Hidle.
  split; reflexivity.
Qed.

Lemma held_press_is_reported_witness :
  snd (system_run
         (mk_system (mk_rotary 0 0 100 true false ENC_STATE_11 0)
                    MON_DELAY true)
         (map MonitorRuns [1090; 1100; 1100; 1110; 1120]))
    = [ev BTN_ROTARY BTN_EVENT_LONG_PRESS].
Proof.
  apply (held_press_is_reported
           (mk_system (mk_rotary 0 0 100 true false ENC_STATE_11 0)
                      MON_DELAY true) 1090 1100 1100 [1110; 1120]);
    try reflexivity.
  vm_compute. discriminate.
Defined.

(* --------------------------------------------------------------------- *)
(** *** The polling task of the ladder *)

(** X6.  The polling task of the resistor ladder is silent for ever: from
    its initial locals, over any number of iterations, whatever the ADC
    reads and whether or not a callback is registered, it hands no event
    to the callback and its locals never change. *)
Theorem adc_task_never_reports (cb : bool) (polls : list (adc_readings * Z)) :
  adc_button_monitor_run cb adc_monitor_boot polls = (adc_monitor_boot, []).
Proof.
  induction polls as [|[rs now] rest IH]; [reflexivity|].
  cbn [adc_button_monitor_run].
  replace (adc_button_monitor_step cb adc_monitor_boot rs now)
    with (adc_monitor_boot, @nil button_event_t).
  - rewrite IH. reflexivity.
  - unfold adc_button_monitor_step, adc_read_button.
    rewrite adc_classify_returns_none. reflexivity.
Qed.

Lemma band_test_true (v t : Z) :
  (v >=? t - THRESHOLD_TOLERANCE) && (v <=? t + THRESHOLD_TOLERANCE) = true
  <-> t - THRESHOLD_TOLERANCE <= v <= t + THRESHOLD_TOLERANCE.
Proof.
  rewrite andb_true_iff, Z.geb_leb, !Z.leb_le. tauto.
Qed.

Lemma band_test_false (v t : Z) :
  (v >=? t - THRESHOLD_TOLERANCE) && (v <=? t + THRESHOLD_TOLERANCE) = false
  <-> ~ (t - THRESHOLD_TOLERANCE <= v <= t + THRESHOLD_TOLERANCE).
Proof.
  rewrite <- band_test_true.
  destruct ((v >=? t - THRESHOLD_TOLERANCE) &&
            (v <=? t + THRESHOLD_TOLERANCE)); split; congruence.
Qed.

Lemma threshold_loop_unfolded (v : Z) :
  match_threshold_loop (Z.to_nat NUM_BUTTONS) 0 v =
  let band t :=
    (v >=? t - THRESHOLD_TOLERANCE) && (v <=? t + THRESHOLD_TOLERANCE) in
  return_if (band 201) BTN_BAND_UM ;;;
  return_if (band 346) BTN_BAND_VF ;;;
  return_if (band 757) BTN_STATION_1 ;;;
  return_if (band 1425) BTN_STATION_2 ;;;
  return_if (band 2204) BTN_STATION_3 ;;;
  return_if (band 2830) BTN_STATION_4 ;;;
  return_if (band 3450) BTN_STATION_5 ;;;
  return_if (band 3920) BTN_DOWN ;;;
  return_if (band 4095) BTN_UP ;;;
  Fallthrough tt.
Proof. reflexivity. Qed.

Ltac band_cases :=
  repeat match goal with
  | |- context [if ?c then _ else _] =>
      let E := fresh "E" in
      destruct c eqn:E;
      [apply band_test_true in E | apply band_test_false in E]
  end.

(** X7.  The threshold loop of [adc_read_button], taken on its own, maps
    every mean within 40 counts of the i-th threshold to button i+1 of
    [button_id_t] and every other mean to no button; the nine bands
    do not overlap, so the first match is the only one. *)
Theorem threshold_loop_decodes_bands (v : Z) :
  (forall i, 0 <= i < NUM_BUTTONS -> in_band i v ->
     match_threshold_loop (Z.to_nat NUM_BUTTONS) 0 v
       = Return (button_of_code (i + 1))) /\
  ((forall i, 0 <= i < NUM_BUTTONS -> ~ in_band i v) ->
     match_threshold_loop (Z.to_nat NUM_BUTTONS) 0 v = Fallthrough tt).
Proof.
  rewrite threshold_loop_unfolded. cbv zeta. unfold return_if, and_then.
  split.
  - intros i Hi Hb. unfold NUM_BUTTONS in Hi.
    assert (Hcases : i = 0 \/ i = 1 \/ i = 2 \/ i = 3 \/ i = 4 \/ i = 5 \/
                     i = 6 \/ i = 7 \/ i = 8) by lia.
    unfold in_band in Hb.
    repeat (destruct Hcases as [-> | Hcases]); try subst i;
      match type of Hb with
      | context [nth ?n button_thresholds 0] =>
          let t := eval vm_compute in (nth n button_thresholds 0) in
          change (nth n button_thresholds 0) with t in Hb
      end;
      band_cases; unfold THRESHOLD_TOLERANCE in *;
      first [reflexivity | exfalso; lia].
  - intros Hout.
    pose proof (Hout 0) as H0. pose proof (Hout 1) as H1.
    pose proof (Hout 2) as H2. pose proof (Hout 3) as H3.
    pose proof (Hout 4) as H4. pose proof (Hout 5) as H5.
    pose proof (Hout 6) as H6. pose proof (Hout 7) as H7.
    pose proof (Hout 8) as H8. clear Hout.
    unfold in_band, NUM_BUTTONS in *.
    change (nth (Z.to_nat 0) button_thresholds 0) with 201 in H0.
    change (nth (Z.to_nat 1) button_thresholds 0) with 346 in H1.
    change (nth (Z.to_nat 2) button_thresholds 0) with 757 in H2.
    change (nth (Z.to_nat 3) button_thresholds 0) with 1425 in H3.
    change (nth (Z.to_nat 4) button_thresholds 0) with 2204 in H4.
    change (nth (Z.to_nat 5) button_thresholds 0) with 2830 in H5.
    change (nth (Z.to_nat 6) button_thresholds 0) with 3450 in H6.
    change (nth (Z.to_nat 7) button_thresholds 0) with 3920 in H7.
    change (nth (Z.to_nat 8) button_thresholds 0) with 4095 in H8.
    band_cases; unfold THRESHOLD_TOLERANCE in *;
      first [reflexivity | exfalso; lia].
Qed.

Lemma button_eqb_refl (b : button_id_t) : button_eqb b b = true.
Proof. unfold button_eqb. apply Z.eqb_refl. Qed.

Lemma button_eqb_neq (a b : button_id_t) : a <> b -> button_eqb a b = false.
Proof. intros H. destruct a, b; try reflexivity; congruence. Qed.

Lemma body_run_app (cb : bool) (m : adc_monitor)
    (p q : list (button_id_t * Z)) :
  adc_button_body_run cb m (p ++ q) =
  let '(m1, out1) := adc_button_body_run cb m p in
  let '(m2, out2) := adc_button_body_run cb m1 q in
  (m2, out1 ++ out2).
Proof.
  revert m. induction p as [|[b now] p IH]; intros m; cbn [app adc_button_body_run].
  - destruct (adc_button_body_run cb m q). reflexivity.
  - destruct (adc_button_monitor_body cb m b now) as [m1 o1].
    rewrite IH.
    destruct (adc_button_body_run cb m1 p) as [m2 o2].
    destruct (adc_button_body_run cb m2 q) as [m3 o3].
    rewrite app_assoc. reflexivity.
Qed.

(** While one button stays down the body sends only [LONG_PRESS] and
    [REPEAT] for it, the former at most once and not at all once sent. *)
Lemma body_hold (x : button_id_t) (ts : list Z) (m : adc_monitor) :
  x <> BTN_NONE ->
  last_button m = x ->
  let '(m', out) :=
    adc_button_body_run true m (map (fun t => (x, t)) ts) in
  last_button m' = x /\
  Forall (fun e => button e = x /\
                   (event e = BTN_EVENT_LONG_PRESS \/
                    event e = BTN_EVENT_REPEAT)) out /\
  (count_events BTN_EVENT_LONG_PRESS out
   <= if long_press_sent m then 0 else 1)%nat.
Proof.
  intros Hx. revert m.
  induction ts as [|t ts IH]; intros m Hm; cbn [map adc_button_body_run].
  - repeat split; [exact Hm | constructor | cbn; destruct (long_press_sent m); lia].
  - unfold adc_button_monitor_body.
    rewrite Hm, button_eqb_refl, (button_eqb_neq x BTN_NONE Hx).
    cbn [negb andb call_back].
    set (fire_long := negb (long_press_sent m) && (u32 (t - press_time m) >=? 1000)).
    set (sent := if fire_long then true else long_press_sent m).
    set (fire_repeat := sent && (u32 (t - last_repeat_time m) >=? BUTTON_REPEAT_INTERVAL_MS)).
    set (m1 := mk_adc_monitor x (press_time m) sent
                 (if fire_repeat then t else last_repeat_time m)).
    specialize (IH m1 eq_refl).
    destruct (adc_button_body_run true m1 (map (fun t0 => (x, t0)) ts))
      as [m2 out2].
    destruct IH as (Hl & Hall & Hcount).
    split; [exact Hl|]. split.
    + apply Forall_app. split; [|exact Hall].
      apply Forall_app. split.
      * destruct fire_long; constructor; [cbn; auto | constructor].
      * destruct fire_repeat; constructor; [cbn; auto | constructor].
    + unfold count_events in *. rewrite !filter_app, !length_app.
      cbn [long_press_sent m1] in Hcount.
      subst sent fire_long.
      destruct (long_press_sent m); cbn [negb andb] in *.
      * destruct fire_repeat; cbn in *; lia.
      * destruct (u32 (t - press_time m) >=? 1000);
          destruct fire_repeat; cbn in *; lia.
Qed.

(** X8.  The bookkeeping of the polling loop, on the buttons a decoder
    would report: a button [x] first seen while another (or none) was
    current, held over any number of polls and then released, is reported
    as one [PRESS], then only [LONG_PRESS] and [REPEAT] events for [x] with
    at most one [LONG_PRESS], then one [RELEASE]; the loop ends with no
    button current. *)
Theorem held_button_is_bracketed (m : adc_monitor) (x : button_id_t)
    (t0 tn : Z) (ts : list Z) :
  x <> BTN_NONE ->
  last_button m <> x ->
  let polls := (x, t0) :: map (fun t => (x, t)) ts ++ [(BTN_NONE, tn)] in
  exists middle,
    snd (adc_button_body_run true m polls)
      = ev x BTN_EVENT_PRESS :: middle ++ [ev x BTN_EVENT_RELEASE] /\
    Forall (fun e => button e = x /\
                     (event e = BTN_EVENT_LONG_PRESS \/
                      event e = BTN_EVENT_REPEAT)) middle /\
    (count_events BTN_EVENT_LONG_PRESS middle <= 1)%nat /\
    last_button (fst (adc_button_body_run true m polls)) = BTN_NONE.
Proof.
  intros Hx Hm polls. subst polls.
  pose proof (body_hold x ts (mk_adc_monitor x t0 false t0) Hx eq_refl) as Hh.
  destruct (adc_button_body_run true (mk_adc_monitor x t0 false t0)
              (map (fun t => (x, t)) ts)) as [m1 mid] eqn:Ehold.
  destruct Hh as (Hl & Hall & Hcount).
  assert (E : adc_button_body_run true m
                ((x, t0) :: map (fun t => (x, t)) ts ++ [(BTN_NONE, tn)])
              = (mk_adc_monitor BTN_NONE (press_time m1) (long_press_sent m1)
                                (last_repeat_time m1),
                 ev x BTN_EVENT_PRESS :: mid ++ [ev x BTN_EVENT_RELEASE])).
  { cbn [adc_button_body_run].
    unfold adc_button_monitor_body at 1.
    rewrite (button_eqb_neq x BTN_NONE Hx).
    rewrite (button_eqb_neq x (last_button m)) by congruence.
    cbn [negb andb call_back].
    rewrite body_run_app, Ehold.
    cbn [adc_button_body_run]. unfold adc_button_monitor_body.
    rewrite Hl, (button_eqb_neq x BTN_NONE Hx).
    replace (button_eqb BTN_NONE BTN_NONE) with true by reflexivity.
    replace (button_eqb BTN_NONE x) with false
      by (symmetry; apply button_eqb_neq; congruence).
    cbn [negb andb call_back app]. rewrite ?app_nil_r. reflexivity. }
  rewrite E. cbn [fst snd last_button].
  exists mid. auto.
Qed.

Lemma held_button_is_bracketed_witness :
  exists middle,
    snd (adc_button_body_run true adc_monitor_boot
           ((BTN_UP, 0) :: map (fun t => (BTN_UP, t)) [20; 1000; 1020]
            ++ [(BTN_NONE, 1040)]))
      = ev BTN_UP BTN_EVENT_PRESS :: middle ++ [ev BTN_UP BTN_EVENT_RELEASE] /\
    Forall (fun e => button e = BTN_UP /\
                     (event e = BTN_EVENT_LONG_PRESS \/
                      event e = BTN_EVENT_REPEAT)) middle /\
    (count_events BTN_EVENT_LONG_PRESS middle <= 1)%nat /\
    last_button
      (fst (adc_button_body_run true adc_monitor_boot
              ((BTN_UP, 0) :: map (fun t => (BTN_UP, t)) [20; 1000; 1020]
               ++ [(BTN_NONE, 1040)]))) = BTN_NONE.
Proof.
  apply (held_button_is_bracketed adc_monitor_boot BTN_UP 0 1040
                                  [20; 1000; 1020]); discriminate.
Defined.

(** The loop body is the iteration of the task with the decoder's answer
    put in. *)
Lemma adc_step_is_body (cb : bool) (m : adc_monitor) (rs : adc_readings)
    (now : Z) :
  adc_button_monitor_step cb m rs now
    = adc_button_monitor_body cb m (adc_read_button rs) now.
Proof. reflexivity. Qed.

End ButtonRunsProperties.

(* ===================================================================== *)
(** ** Further properties of car_stereo_state.c *)
(* ===================================================================== *)

Section StereoLawsProperties.
Import CInt CFloat Buttons Stereo StereoLaws.

Arguments nvs_snapshot : simpl never.
Arguments browsing_freq_of : simpl never.
Arguments browsing_idx_of : simpl never.
Arguments f32_positive : simpl never.
Arguments f32_lit : simpl never.
Arguments preset_get : simpl never.
Arguments preset_set : simpl never.
Arguments u8 : simpl never.
Arguments strncpy : simpl never.
Arguments list_set : simpl never.
Arguments hundredths_of : simpl never.
Arguments of_hundredths : simpl never.
Arguments mode_eqb : simpl nomatch.
Arguments button_eqb : simpl nomatch.
Arguments event_type_eqb : simpl nomatch.
Arguments band_eqb : simpl nomatch.

Ltac plumbing :=
  cbv beta iota zeta delta
    [exec bind get modify emit ret skip when on_key radio a2dp hfp
     send_display_notification notify_mode_change save_to_nvs
     start_station_tune_timer announce_a2dp_volume
     find_bt_device_by_mac find_free_bt_device_slot save_bt_device_settings
     station_tune_timer_callback auto_power_on_if_off].

Ltac next_test :=
  match goal with
  | |- context [if ?c then _ else _] =>
      lazymatch c with
      | context [if _ then _ else _] => fail
      | context [match _ with _ => _ end] => fail
      | _ => destruct c eqn:?
      end
  end.

Ltac walk := repeat (plumbing; cbn; try next_test).

Ltac walk_in Hm :=
  repeat (plumbing; repeat (progress (cbn; rewrite ?Hm)); try next_test).

Ltac walk_at Hp Hm :=
  repeat (plumbing; repeat (progress (cbn; rewrite ?Hp, ?Hm)); try next_test).

(* --------------------------------------------------------------------- *)
(** *** Handlers that keep an invariant and a discipline of effects *)

Lemma exec_seq (a b : M unit) (s : globals) :
  exec (a ;; b) s =
  (fst (exec b (fst (exec a s))),
   snd (exec a s) ++ snd (exec b (fst (exec a s)))).
Proof.
  unfold exec, bind.
  destruct (a s) as [[[] s1] o1]. cbn.
  destruct (b s1) as [[[] s2] o2]. reflexivity.
Qed.

Lemma keeps_seq (I : globals -> Prop) (P : effect -> Prop) (a b : M unit) :
  keeps I P a -> keeps I P b -> keeps I P (a ;; b).
Proof.
  intros Ha Hb s Hs. rewrite exec_seq. cbn [fst snd].
  destruct (Ha s Hs) as [Hs1 Ho1].
  destruct (Hb _ Hs1) as [Hs2 Ho2].
  split; [exact Hs2 | apply Forall_app; auto].
Qed.

Lemma keeps_get {A} (I : globals -> Prop) (P : effect -> Prop)
    (f : globals -> A) (k : A -> M unit) :
  (forall a, keeps I P (k a)) -> keeps I P (x <- get f ;; k x).
Proof.
  intros Hk s Hs. specialize (Hk (f s) s Hs).
  unfold exec, bind, get in *.
  destruct (k (f s) s) as [[[] s2] o2]. exact Hk.
Qed.

Lemma keeps_skip (I : globals -> Prop) (P : effect -> Prop) : keeps I P skip.
Proof. intros s Hs. split; [exact Hs | constructor]. Qed.

Lemma keeps_when (I : globals -> Prop) (P : effect -> Prop) (c : bool)
    (m : M unit) :
  keeps I P m -> keeps I P (when c m).
Proof. destruct c; [auto | intros _; apply keeps_skip]. Qed.

Lemma keeps_on_key {A} (I : globals -> Prop) (P : effect -> Prop)
    (v : option A) (f : A -> M unit) :
  (forall a, keeps I P (f a)) -> keeps I P (on_key v f).
Proof. destruct v; cbn; [auto | intros _; apply keeps_skip]. Qed.

Lemma keeps_modify (I : globals -> Prop) (P : effect -> Prop)
    (f : globals -> globals) :
  (forall s, I s -> I (f s)) -> keeps I P (modify f).
Proof. intros H s Hs. split; [apply H, Hs | constructor]. Qed.

Lemma keeps_emit (I : globals -> Prop) (P : effect -> Prop) (e : effect) :
  P e -> keeps I P (emit e).
Proof. intros H s Hs. split; [exact Hs | repeat constructor; exact H]. Qed.

Lemma keeps_display (I : globals -> Prop) (P : effect -> Prop)
    ty t sub duration prio :
  (forall s n, I s -> display_handler (g_config s) = true -> P (Display n)) ->
  keeps I P (send_display_notification ty t sub duration prio).
Proof.
  intros H s Hs. unfold send_display_notification, exec, bind, get, when.
  destruct (display_handler (g_config s)) eqn:E; cbn.
  - split; [exact Hs | repeat constructor; eapply H; eauto].
  - split; [exact Hs | constructor].
Qed.

Lemma keeps_mode_change (I : globals -> Prop) (P : effect -> Prop)
    old_mode new_mode :
  (forall s, I s -> on_mode_change (g_config s) = true ->
             P (ModeChange old_mode new_mode)) ->
  keeps I P (notify_mode_change old_mode new_mode).
Proof.
  intros H s Hs. unfold notify_mode_change, exec, bind, get, when.
  destruct (on_mode_change (g_config s)) eqn:E; cbn.
  - split; [exact Hs | repeat constructor; eapply H; eauto].
  - split; [exact Hs | constructor].
Qed.

Lemma keeps_load_presets (I : globals -> Prop) (P : effect -> Prop) :
  (forall s p, I s ->
     I (set_g_radio_state (Radio.set_preset_freq p (g_radio_state s)) s)) ->
  forall keys b idx, keeps I P (load_presets b idx keys).
Proof.
  intros HI. induction keys as [|k keys IH]; intros b idx; cbn [load_presets].
  - apply keeps_skip.
  - apply keeps_seq; [|apply IH].
    apply keeps_on_key. intros u. unfold radio.
    apply keeps_modify. intros s Hs. apply HI, Hs.
Qed.

Lemma keeps_load_bt_loop (I : globals -> Prop) (P : effect -> Prop)
    (blobs : list (option bt_blob)) :
  (forall s d, I s -> I (set_g_bt_devices d s)) ->
  forall n i count, keeps I P (load_bt_loop n i count blobs).
Proof.
  intros HI. induction n as [|n IH]; intros i count; cbn [load_bt_loop].
  - apply keeps_skip.
  - apply keeps_when, keeps_seq; [|apply IH].
    apply keeps_on_key. intros b.
    apply keeps_modify. intros s Hs. apply HI, Hs.
Qed.

Lemma keeps_find (I : globals -> Prop) (P : effect -> Prop) (mac : list Z)
    (k : Z -> M unit) :
  (forall a, keeps I P (k a)) ->
  keeps I P (x <- find_bt_device_by_mac mac ;; k x).
Proof.
  intros Hk s Hs.
  specialize (Hk (find_bt_device_loop
                    (firstn (Z.to_nat MAX_BT_DEVICES) (g_bt_devices s)) 0 mac)
                 s Hs).
  unfold exec, bind, get, ret, find_bt_device_by_mac in *.
  cbn in *. destruct (k _ s) as [[[] s2] o2]. exact Hk.
Qed.

Lemma keeps_find_free (I : globals -> Prop) (P : effect -> Prop)
    (k : Z -> M unit) :
  (forall a, keeps I P (k a)) ->
  keeps I P (x <- find_free_bt_device_slot ;; k x).
Proof.
  intros Hk s Hs.
  specialize (Hk (find_free_loop
                    (firstn (Z.to_nat MAX_BT_DEVICES) (g_bt_devices s)) 0)
                 s Hs).
  unfold exec, bind, get, ret, find_free_bt_device_slot in *.
  cbn in *. destruct (k _ s) as [[[] s2] o2]. exact Hk.
Qed.

(** The structure of a handler is followed statement by statement; [side]
    settles what a store into the globals or an effect has to satisfy. *)
Ltac keep_with side :=
  repeat first
    [ apply keeps_skip
    | apply keeps_display; [solve [side]]
    | apply keeps_mode_change; [solve [side]]
    | apply keeps_load_presets; [solve [side]]
    | apply keeps_load_bt_loop; [solve [side]]
    | apply keeps_emit; [solve [side]]
    | apply keeps_modify; [solve [side]]
    | apply keeps_find; intros
    | apply keeps_find_free; intros
    | apply keeps_get; intros
    | apply keeps_seq
    | apply keeps_when
    | apply keeps_on_key; intros
    | match goal with
      | |- keeps _ _ (if ?c then _ else _) => destruct c
      | |- keeps _ _ (match ?x with _ => _ end) => destruct x
      end
    | progress unfold radio, a2dp, hfp, save_to_nvs, announce_a2dp_volume,
        start_station_tune_timer, station_tune_timer_callback,
        auto_power_on_if_off, handle_phonebook_mode, stereo_state_save,
        save_bt_device_settings
    | progress cbv zeta ].


Lemma run_keeps (I : globals -> Prop) (P : effect -> Prop) (ops : list op) :
  (forall o, In o ops -> keeps I P (perform o)) ->
  forall s, I s -> I (after ops s) /\ Forall P (snd (run ops s)).
Proof.
  unfold after.
  induction ops as [|o ops IH]; intros Hops s Hs; cbn [run].
  - split; [exact Hs | constructor].
  - destruct (Hops o (or_introl eq_refl) s Hs) as [Hs1 Ho1].
    destruct (exec (perform o) s) as [s1 o1]. cbn [fst snd] in *.
    destruct (IH (fun o' H => Hops o' (or_intror H)) s1 Hs1) as [Hs2 Ho2].
    destruct (run ops s1) as [s2 o2]. cbn [fst snd] in *.
    split; [exact Hs2 | apply Forall_app; auto].
Qed.

(* --------------------------------------------------------------------- *)
(** *** Switched off *)

(** X9.  Switched off, the unit is deaf to its keys.  In [MODE_OFF] every
    button event leaves all globals as they are and has no effect at all,
    with two exceptions: a press of the encoder button, which switches
    on, and a press of the voice-stop key while a voice session is marked
    active. *)
Theorem off_discards_input (bt : bt_reply) (e : button_event_t)
    (s : globals) :
  g_current_mode s = MODE_OFF ->
  (button e, event e) <> (BTN_ROTARY, BTN_EVENT_PRESS) ->
  (g_voice_recognition_active s = true ->
   (button e, event e) <> (BTN_BAND_VF, BTN_EVENT_PRESS)) ->
  exec (stereo_state_handle_button bt e) s = (s, []).
Proof.
  intros Hm Hpow Hvoice. destruct e as [b t ts]. cbn [button event] in *.
  unfold stereo_state_handle_button. cbn [button event].
  destruct b, t; try congruence;
    walk_in Hm; try reflexivity; exfalso;
    first [ apply Hvoice; reflexivity
          | destruct (g_voice_recognition_active s); discriminate ].
Qed.

Lemma off_discards_input_witness :
  exec (stereo_state_handle_button (mk_bt_reply true true)
          (ev BTN_UP BTN_EVENT_RELEASE)) globals_boot = (globals_boot, []).
Proof.
  apply (off_discards_input (mk_bt_reply true true)
           (ev BTN_UP BTN_EVENT_RELEASE) globals_boot);
    [reflexivity | discriminate | discriminate].
Defined.


(* --------------------------------------------------------------------- *)
(** *** Handlers that were not registered *)

Lemma perform_keeps_config (c : stereo_config_t) (o : op) :
  is_init o = false ->
  keeps (fun s => g_config s = c)
        (fun e => (display_handler c = false -> is_display e = false) /\
                  (on_mode_change c = false -> is_mode_change e = false))
        (perform o).
Proof.
  intros Ho. destruct o; try discriminate Ho; clear Ho;
    unfold perform, stereo_state_handle_button, stereo_state_set_power,
      stereo_state_set_mode, stereo_state_hfp_call_status,
      stereo_state_a2dp_streaming, on_bt_volume_changed,
      stereo_state_rds_update, stereo_state_a2dp_metadata,
      stereo_state_bt_device_connected, stereo_state_bt_device_disconnected,
      handle_radio_mode, handle_bluetooth_mode, handle_phone_call_mode;
    keep_with ltac:(intros; subst; cbn in *; first [assumption | split; congruence]).
Qed.


(** X10.  A handler that was not registered is never called, and the
    registration is never touched after start-up.  Over any sequence of
    operations other than [stereo_state_init], [g_config] stays as it is;
    if it holds no display handler no notification is delivered, and if
    it holds no mode-change callback no mode change is reported. *)
Theorem unregistered_handlers_stay_silent (ops : list op) (s : globals) :
  forallb (fun o => negb (is_init o)) ops = true ->
  g_config (after ops s) = g_config s /\
  (display_handler (g_config s) = false ->
   Forall (fun e => is_display e = false) (snd (run ops s))) /\
  (on_mode_change (g_config s) = false ->
   Forall (fun e => is_mode_change e = false) (snd (run ops s))).
Proof.
  intros Hops.
  destruct (run_keeps (fun x => g_config x = g_config s)
              (fun e => (display_handler (g_config s) = false ->
                         is_display e = false) /\
                        (on_mode_change (g_config s) = false ->
                         is_mode_change e = false)) ops) with (s := s)
    as [Hc Hout].
  - intros o Ho. apply perform_keeps_config.
    rewrite forallb_forall in Hops. specialize (Hops o Ho).
    destruct (is_init o); [discriminate | reflexivity].
  - reflexivity.
  - split; [exact Hc|].
    split; intros H; eapply Forall_impl; try exact Hout;
      cbn beta; intros e [H1 H2]; auto.
Qed.

Lemma unregistered_handlers_stay_silent_witness :
  Forall (fun e => is_display e = false)
    (snd (run [SetPower true; Button (mk_bt_reply true true) (rotation true)]
              globals_boot)).
Proof.
  apply (unregistered_handlers_stay_silent
           [SetPower true; Button (mk_bt_reply true true) (rotation true)]
           globals_boot); reflexivity.
Defined.

(* --------------------------------------------------------------------- *)
(** *** The table of paired devices *)

Lemma perform_keeps_table (T : list bt_device_settings_t) (o : op) :
  writes_table o = false ->
  keeps (fun s => g_bt_devices s = T) (fun e => is_table_save e = false)
        (perform o).
Proof.
  intros Ho. destruct o; try discriminate Ho;
    try (destruct device_addr; try discriminate Ho); clear Ho;
    unfold perform, stereo_state_handle_button, stereo_state_set_power,
      stereo_state_set_mode, stereo_state_hfp_call_status,
      stereo_state_a2dp_streaming, on_bt_volume_changed,
      stereo_state_rds_update, stereo_state_a2dp_metadata,
      stereo_state_bt_device_connected, stereo_state_bt_device_disconnected,
      handle_radio_mode, handle_bluetooth_mode, handle_phone_call_mode;
    keep_with ltac:(intros; subst; cbn in *; first [assumption | reflexivity]).
Qed.

(** X11.  The table of per-device volumes is written in two places only:
    by the load at start-up and by a disconnection that names the device.
    Any sequence of other operations, a disconnection with a NULL address
    included, leaves [g_bt_devices] as it is and never writes the table to
    the store. *)
Theorem table_written_only_on_named_disconnect (ops : list op)
    (s : globals) :
  forallb (fun o => negb (writes_table o)) ops = true ->
  g_bt_devices (after ops s) = g_bt_devices s /\
  Forall (fun e => is_table_save e = false) (snd (run ops s)).
Proof.
  intros Hops.
  apply (run_keeps (fun x => g_bt_devices x = g_bt_devices s)
                   (fun e => is_table_save e = false) ops);
    [|reflexivity].
  intros o Ho. apply perform_keeps_table.
  rewrite forallb_forall in Hops. specialize (Hops o Ho).
  destruct (writes_table o); [discriminate | reflexivity].
Qed.

Lemma table_written_only_on_named_disconnect_witness :
  g_bt_devices
    (after [DeviceConnected (Some [1; 2; 3; 4; 5; 6]);
            VolumeChanged BT_VOLUME_TARGET_A2DP 7;
            DeviceDisconnected None] globals_boot)
    = g_bt_devices globals_boot.
Proof.
  apply (table_written_only_on_named_disconnect
           [DeviceConnected (Some [1; 2; 3; 4; 5; 6]);
            VolumeChanged BT_VOLUME_TARGET_A2DP 7;
            DeviceDisconnected None] globals_boot).
  reflexivity.
Defined.


(* --------------------------------------------------------------------- *)
(** *** Hanging up *)

Lemma perform_never_hangs_up (o : op) :
  keeps (fun _ => True) (fun e => e <> Bt hangup_call) (perform o).
Proof.
  destruct o;
    try (destruct e as [b t ts]; destruct b, t);
    unfold perform, stereo_state_init, load_from_nvs, load_bt_device_settings,
      stereo_state_handle_button, stereo_state_set_power,
      stereo_state_set_mode, stereo_state_hfp_call_status,
      stereo_state_a2dp_streaming, on_bt_volume_changed,
      stereo_state_rds_update, stereo_state_a2dp_metadata,
      stereo_state_bt_device_connected, stereo_state_bt_device_disconnected,
      handle_radio_mode, handle_bluetooth_mode, handle_phone_call_mode;
    cbn [button event button_eqb event_type_eqb button_code event_type_code
         is_station_button Z.eqb Z.geb Z.leb Z.compare Pos.compare
         Pos.compare_cont Pos.eqb andb negb orb when];
    keep_with ltac:(intros; first [exact I | discriminate]).
Qed.

(** X12.  The firmware never hangs up a call.  [handle_phone_call_mode]
    does ask the Bluetooth component to hang up when it is given a press of
    the encoder button, but the dispatcher takes that press as the power
    key before any mode handler sees it: whatever the sequence of
    operations, [hangup_call] is not among the requests made. *)
Theorem hang_up_is_never_requested (ops : list op) (s : globals) :
  In (Bt hangup_call)
     (snd (exec (handle_phone_call_mode (ev BTN_ROTARY BTN_EVENT_PRESS)) s)) /\
  Forall (fun e => e <> Bt hangup_call) (snd (run ops s)).
Proof.
  split.
  - unfold handle_phone_call_mode. walk; auto.
  - apply (run_keeps (fun _ => True) (fun e => e <> Bt hangup_call) ops);
      [|exact I].
    intros o _. apply perform_never_hangs_up.
Qed.

(* --------------------------------------------------------------------- *)
(** *** Calls on a unit that is on *)

(** No operation assigns [g_mode_before_phonebook]. *)
Lemma perform_keeps_before_phonebook (m : stereo_mode_t) (o : op) :
  keeps (fun s => g_mode_before_phonebook s = m) (fun _ => True) (perform o).
Proof.
  destruct o;
    unfold perform, stereo_state_init, load_from_nvs, load_bt_device_settings,
      stereo_state_handle_button, stereo_state_set_power,
      stereo_state_set_mode, stereo_state_hfp_call_status,
      stereo_state_a2dp_streaming, on_bt_volume_changed,
      stereo_state_rds_update, stereo_state_a2dp_metadata,
      stereo_state_bt_device_connected, stereo_state_bt_device_disconnected,
      handle_radio_mode, handle_bluetooth_mode, handle_phone_call_mode;
    keep_with ltac:(intros; cbn in *; first [exact I | assumption]).
Qed.

(** A call that comes and goes on a unit that is on. *)
Lemma call_and_back (s : globals) (caller_id caller_id' : option string) :
  g_powered_on s = true ->
  g_current_mode s <> MODE_PHONE_CALL ->
  let s1 := after [CallStatus true caller_id] s in
  let s2 := after [CallStatus false caller_id'] s1 in
  g_current_mode s1 = MODE_PHONE_CALL /\
  In (Bt answer_call) (snd (run [CallStatus true caller_id] s)) /\
  g_powered_on s2 = true /\
  g_current_mode s2 =
    (if mode_eqb (g_current_mode s) MODE_PHONEBOOK
     then g_mode_before_phonebook s else g_current_mode s).
Proof.
  intros Hp Hm s1 s2. subst s1 s2.
  unfold after, run, perform, stereo_state_hfp_call_status.
  destruct (g_current_mode s) eqn:E; try congruence;
    walk_at Hp E; repeat split; auto 10 using in_eq, in_cons.
Qed.

(** X13.  On a unit that is on, a call is an interruption: it takes the
    unit to [MODE_PHONE_CALL], is answered at once, and its end brings
    back the mode it interrupted - except for a call that arrives in
    [MODE_PHONEBOOK], whose end leads to [g_mode_before_phonebook].  That
    variable is assigned by no operation, [stereo_state_init] included, so
    it holds what it held at boot, [MODE_RADIO]: on a unit run from boot a
    call that arrives in the phonebook ends in Radio mode, whichever mode
    the phonebook was entered from. *)
Theorem call_returns_to_interrupted_mode :
  (forall (s : globals) (caller_id caller_id' : option string),
      g_powered_on s = true ->
      g_current_mode s <> MODE_PHONE_CALL ->
      let s1 := after [CallStatus true caller_id] s in
      let s2 := after [CallStatus false caller_id'] s1 in
      g_current_mode s1 = MODE_PHONE_CALL /\
      In (Bt answer_call) (snd (run [CallStatus true caller_id] s)) /\
      g_powered_on s2 = true /\
      g_current_mode s2 =
        (if mode_eqb (g_current_mode s) MODE_PHONEBOOK
         then g_mode_before_phonebook s else g_current_mode s)) /\
  (forall (ops : list op) (s : globals),
      g_mode_before_phonebook (after ops s) = g_mode_before_phonebook s) /\
  (forall (ops : list op) (caller_id caller_id' : option string),
      let s := after ops globals_boot in
      g_powered_on s = true ->
      g_current_mode s = MODE_PHONEBOOK ->
      g_current_mode
        (after [CallStatus true caller_id; CallStatus false caller_id'] s)
      = MODE_RADIO).
Proof.
  assert (Hkept : forall (ops : list op) (s : globals),
             g_mode_before_phonebook (after ops s)
             = g_mode_before_phonebook s).
  { intros ops s.
    apply (run_keeps (fun x => g_mode_before_phonebook x
                               = g_mode_before_phonebook s)
             (fun _ => True) ops); [|reflexivity].
    intros o _. apply perform_keeps_before_phonebook. }
  split; [exact call_and_back|].
  split; [exact Hkept|].
  intros ops caller_id caller_id' s Hp Hm.
  assert (Hne : g_current_mode s <> MODE_PHONE_CALL) by (rewrite Hm; discriminate).
  destruct (call_and_back s caller_id caller_id' Hp Hne) as (_ & _ & _ & Hback).
  cbv zeta in Hback. rewrite Hm in Hback. cbn [mode_eqb] in Hback.
  assert (Hsplit : after [CallStatus true caller_id;
                          CallStatus false caller_id'] s
                   = after [CallStatus false caller_id']
                       (after [CallStatus true caller_id] s)).
  { unfold after. cbn [run].
    destruct (exec (perform (CallStatus true caller_id)) s) as [x1 o1].
    cbn [fst].
    destruct (exec (perform (CallStatus false caller_id')) x1) as [x2 o2].
    reflexivity. }
  rewrite Hsplit, Hback. subst s. rewrite Hkept. reflexivity.
Qed.

(** The phonebook entered from Bluetooth mode, then a call: its end leads
    to Radio mode. *)
Lemma call_returns_to_interrupted_mode_witness :
  let ops := [Init (Some (mk_config true true)) None; Streaming true;
              SetMode MODE_PHONEBOOK] in
  g_current_mode
    (after [Init (Some (mk_config true true)) None; Streaming true]
           globals_boot) = MODE_BLUETOOTH /\
  g_current_mode
    (after [CallStatus true None; CallStatus false None]
       (after ops globals_boot)) = MODE_RADIO /\
  g_current_mode
    (after [CallStatus false None]
           (after [CallStatus true None] tuned_radio)) = MODE_RADIO.
Proof.
  cbv zeta. split; [reflexivity|]. split.
  - apply (proj2 (proj2 call_returns_to_interrupted_mode)
             [Init (Some (mk_config true true)) None; Streaming true;
              SetMode MODE_PHONEBOOK] None None); reflexivity.
  - apply (proj1 call_returns_to_interrupted_mode tuned_radio None None);
      [reflexivity | discriminate].
Defined.

(* --------------------------------------------------------------------- *)
(** *** Settings across a restart *)

Lemma exec_seq_fst' (a b : M unit) (s : globals) :
  fst (exec (a ;; b) s) = fst (exec b (fst (exec a s))).
Proof. rewrite exec_seq. reflexivity. Qed.

Lemma keeps_state (I : globals -> Prop) (m : M unit) (s : globals) :
  keeps I (fun _ => True) m -> I s -> I (fst (exec m s)).
Proof. intros H Hs. apply (H s Hs). Qed.

Lemma load_bt_keeps_scalars (nvs : nvs_store) (s : globals) :
  scalar_settings (fst (exec (load_bt_device_settings nvs) s))
    = scalar_settings s.
Proof.
  apply (keeps_state (fun x => scalar_settings x = scalar_settings s)).
  - unfold load_bt_device_settings.
    keep_with ltac:(intros; first [exact I | assumption]).
  - reflexivity.
Qed.

Lemma after_one (o : op) (s : globals) :
  after [o] s = fst (exec (perform o) s).
Proof.
  unfold after. cbn [run]. destruct (exec (perform o) s). reflexivity.
Qed.

Lemma load_snapshot_scalars (s x : globals) (bt : nvs_bt_image) :
  scalar_settings (fst (exec (load_from_nvs (Some (nvs_snapshot s, bt))) x))
    = scalar_settings s.
Proof.
  unfold load_from_nvs, nvs_snapshot, scalar_settings.
  cbn [nvs_power_on nvs_mode nvs_radio_band nvs_radio_freq nvs_radio_vol
       nvs_a2dp_vol nvs_hfp_spk_vol nvs_hfp_mic_vol nvs_preset_fm
       nvs_preset_am map firstn load_presets].
  destruct x as [x1 x2 x3 x4 [r1 r2 r3 r4 r5 r6] [a1 a2 a3 a4 a5]
                   [h1 h2 h3 h4] x8 x9 x10 x11 x12 x13 x14 x15 x16 x17 x18].
  cbn. destruct (g_powered_on s); reflexivity.
Qed.

(** The last statements of [stereo_state_init], after the two loads. *)
Lemma init_tail_scalars (x : globals) :
  scalar_settings
    (fst (exec
       (s <- get (fun s => s) ;;
        emit (Bt (bt_volume_control_init
                    (A2dp.volume (g_a2dp_state s))
                    (Hfp.speaker_volume (g_hfp_state s))
                    (Hfp.mic_volume (g_hfp_state s)))) ;;
        if g_powered_on s && mode_eqb (g_current_mode s) MODE_RADIO then
          send_display_notification DISPLAY_MODE_CHANGE (Str "Radio") None
            2000 100
        else
          when (negb (g_powered_on s)) (modify (set_g_current_mode MODE_OFF)))
       x)) =
  (g_powered_on x,
   (if g_powered_on x then g_current_mode x else MODE_OFF),
   g_current_band x,
   Radio.volume (g_radio_state x), A2dp.volume (g_a2dp_state x),
   Hfp.speaker_volume (g_hfp_state x), Hfp.mic_volume (g_hfp_state x)).
Proof.
  unfold scalar_settings.
  destruct (g_powered_on x) eqn:Hp; walk_in Hp; rewrite ?Hp; reflexivity.
Qed.

(** X14.  The scalar settings survive a restart.  Whatever state the
    firmware starts from, [stereo_state_init] run on the image that
    [save_to_nvs] wrote for a state [s] brings back the power flag, the
    band and the four volumes of [s], and the mode of [s] if [s] was
    switched on; a unit that was off comes back in [MODE_OFF]. *)
Theorem settings_survive_restart (s s0 : globals)
    (config : option stereo_config_t) (bt : nvs_bt_image) :
  scalar_settings (after [Init config (Some (nvs_snapshot s, bt))] s0) =
  (g_powered_on s,
   (if g_powered_on s then g_current_mode s else MODE_OFF),
   g_current_band s,
   Radio.volume (g_radio_state s), A2dp.volume (g_a2dp_state s),
   Hfp.speaker_volume (g_hfp_state s), Hfp.mic_volume (g_hfp_state s)).
Proof.
  rewrite after_one. unfold perform, stereo_state_init.
  repeat rewrite exec_seq_fst'.
  rewrite init_tail_scalars.
  match goal with
  | |- context [exec (load_bt_device_settings ?n) ?x] =>
      pose proof (load_bt_keeps_scalars n x) as Hbt;
      set (s3 := fst (exec (load_bt_device_settings n) x)) in *
  end.
  rewrite load_snapshot_scalars in Hbt. clearbody s3.
  unfold scalar_settings in Hbt. injection Hbt as -> -> -> -> -> -> ->.
  reflexivity.
Qed.

(* --------------------------------------------------------------------- *)
(** *** Frequencies in the store *)

Lemma load_snapshot_frequency (s x : globals) (bt : nvs_bt_image) :
  Radio.frequency
    (g_radio_state (fst (exec (load_from_nvs (Some (nvs_snapshot s, bt))) x)))
    = of_hundredths (hundredths_of (Radio.frequency (g_radio_state s))).
Proof.
  unfold load_from_nvs, nvs_snapshot.
  cbn [nvs_power_on nvs_mode nvs_radio_band nvs_radio_freq nvs_radio_vol
       nvs_a2dp_vol nvs_hfp_spk_vol nvs_hfp_mic_vol nvs_preset_fm
       nvs_preset_am map firstn load_presets].
  destruct x as [x1 x2 x3 x4 [r1 r2 r3 r4 r5 r6] [a1 a2 a3 a4 a5]
                   [h1 h2 h3 h4] x8 x9 x10 x11 x12 x13 x14 x15 x16 x17 x18].
  cbn. reflexivity.
Qed.

Lemma load_bt_keeps_radio (nvs : nvs_store) (s : globals) :
  g_radio_state (fst (exec (load_bt_device_settings nvs) s)) = g_radio_state s.
Proof.
  apply (keeps_state (fun x => g_radio_state x = g_radio_state s)).
  - unfold load_bt_device_settings.
    keep_with ltac:(intros; first [exact I | assumption]).
  - reflexivity.
Qed.

Lemma init_tail_radio (x : globals) :
  g_radio_state
    (fst (exec
       (s <- get (fun s => s) ;;
        emit (Bt (bt_volume_control_init
                    (A2dp.volume (g_a2dp_state s))
                    (Hfp.speaker_volume (g_hfp_state s))
                    (Hfp.mic_volume (g_hfp_state s)))) ;;
        if g_powered_on s && mode_eqb (g_current_mode s) MODE_RADIO then
          send_display_notification DISPLAY_MODE_CHANGE (Str "Radio") None
            2000 100
        else
          when (negb (g_powered_on s)) (modify (set_g_current_mode MODE_OFF)))
       x)) = g_radio_state x.
Proof. walk; reflexivity. Qed.

(** A property of every [uint8_t] value is a property of each of the 256
    values. *)
Lemma byte_cases (P : Z -> Prop) :
  Forall P (map Z.of_nat (seq 0 256)) ->
  forall idx : Z, 0 <= idx <= 255 -> P idx.
Proof.
  intros H idx Hidx. rewrite Forall_forall in H. apply H.
  apply in_map_iff. exists (Z.to_nat idx).
  split; [lia | apply in_seq; lia].
Qed.

(** The product, the truncation and the quotient on each step of the
    grid. *)
Lemma browsing_hundredths (idx : Z) :
  0 <= idx <= 255 ->
  hundredths_of (browsing_freq_of idx) = stored_step idx /\
  if short_step idx
  then of_hundredths (stored_step idx) <> browsing_freq_of idx
  else of_hundredths (stored_step idx) = browsing_freq_of idx.
Proof.
  revert idx. apply byte_cases.
  let l := eval vm_compute in (map Z.of_nat (seq 0 256)) in
  change (map Z.of_nat (seq 0 256)) with l.
  repeat (apply Forall_cons; [vm_compute; split; congruence|]).
  apply Forall_nil.
Qed.

Lemma stored_step_low (idx : Z) :
  0 <= idx < 207 -> short_step idx = false /\ stored_step idx = 8750 + 20 * idx.
Proof.
  intros H.
  assert (Hs : short_step idx = false).
  { unfold short_step. cbn [existsb].
    repeat (rewrite (proj2 (Z.eqb_neq idx _)) by lia). reflexivity. }
  unfold stored_step. rewrite Hs. split; [reflexivity | lia].
Qed.

(** X15.  The frequencies of the browsing grid across a restart.  With the
    radio on step [idx] of the grid, 87.5 + 0.2 * idx MHz for any value
    0..255 of the [uint8_t] index, [save_to_nvs] writes
    [hundredths_of] of it under ["radio_freq"] and [stereo_state_init] on
    that image reads it back.  On all steps but ten what is written is
    8750 + 20 * idx and what comes back is the very same [float]; steps
    0..206 are among them.  On the steps 207, 212, ..., 252 (128.9 MHz to
    137.9 MHz) the product by 100 truncates one hundredth short, and the
    frequency after the restart is not the one that was tuned. *)
Theorem browsed_frequency_survives_restart (s s0 : globals) (idx : Z)
    (config : option stereo_config_t) (bt : nvs_bt_image) :
  0 <= idx <= 255 ->
  Radio.frequency (g_radio_state s) = browsing_freq_of idx ->
  let s' := after [Init config (Some (nvs_snapshot s, bt))] s0 in
  nvs_radio_freq (nvs_snapshot s)
    = Some (8750 + 20 * idx - (if short_step idx then 1 else 0)) /\
  (short_step idx = false ->
   Radio.frequency (g_radio_state s') = browsing_freq_of idx) /\
  (short_step idx = true ->
   Radio.frequency (g_radio_state s') <> browsing_freq_of idx) /\
  (idx < 207 -> short_step idx = false).
Proof.
  intros Hidx Hf s'.
  destruct (browsing_hundredths idx Hidx) as [Hh Ho].
  assert (Hload : Radio.frequency (g_radio_state s')
                  = of_hundredths (stored_step idx)).
  { subst s'. rewrite after_one. unfold perform, stereo_state_init.
    repeat rewrite exec_seq_fst'.
    rewrite init_tail_radio, load_bt_keeps_radio, load_snapshot_frequency.
    rewrite Hf, Hh. reflexivity. }
  split; [|split; [|split]].
  - unfold nvs_snapshot. cbn [nvs_radio_freq]. rewrite Hf, Hh. reflexivity.
  - intros Hs. rewrite Hs in Ho. rewrite Hload. exact Ho.
  - intros Hs. rewrite Hs in Ho. rewrite Hload. exact Ho.
  - intros Hlow. apply stored_step_low. lia.
Qed.

(** Step 38, 95.1 MHz, which browsing reaches by one detent back from the
    second FM preset. *)
Lemma browsed_frequency_survives_restart_witness :
  Radio.frequency
    (g_radio_state
       (after [Init None
                 (Some (nvs_snapshot
                          (set_g_radio_state
                             (Radio.set_frequency (browsing_freq_of 38)
                                (g_radio_state globals_boot)) globals_boot),
                        mk_nvs_bt None []))] globals_boot))
    = browsing_freq_of 38.
Proof.
  apply (browsed_frequency_survives_restart
           (set_g_radio_state
              (Radio.set_frequency (browsing_freq_of 38)
                 (g_radio_state globals_boot)) globals_boot)
           globals_boot 38 None (mk_nvs_bt None []));
    [lia | reflexivity | reflexivity].
Defined.

(* --------------------------------------------------------------------- *)
(** *** Browsing *)

Lemma u8_small (z : Z) : 0 <= z < 256 -> u8 z = z.
Proof. intros H. unfold u8. apply Z.mod_small. exact H. Qed.

(** One detent while browsing. *)
Lemma browse_detent (bt : bt_reply) (cw : bool) (s : globals) :
  g_current_mode s = MODE_RADIO ->
  g_browsing_stations s = true ->
  let s' := press_button bt (rotation cw) s in
  let idx := g_browsing_station_idx s in
  g_browsing_station_idx s' =
    u8 (if cw then (idx + 1) mod 20 else if idx =? 0 then 19 else idx - 1) /\
  g_browsing_station_freq s' = browsing_freq_of (g_browsing_station_idx s') /\
  g_current_mode s' = MODE_RADIO /\
  g_browsing_stations s' = true /\
  g_station_tune_timer s' = true /\
  Radio.frequency (g_radio_state s') = Radio.frequency (g_radio_state s).
Proof.
  intros Hm Hb.
  unfold press_button, rotation, stereo_state_handle_button.
  destruct cw; walk_at Hm Hb; auto 10.
Qed.

(** X16.  On the browsing grid a detent one way and a detent back cancel.
    In Radio mode with browsing on and the index on one of the twenty
    steps, clockwise then counter-clockwise, or the other way round,
    leaves the index where it was - through the wrap between 19 and 0
    too - with the candidate frequency that of the index and the tuned
    frequency untouched. *)
Theorem browse_detents_cancel (bt : bt_reply) (cw : bool) (s : globals) :
  g_current_mode s = MODE_RADIO ->
  g_browsing_stations s = true ->
  0 <= g_browsing_station_idx s <= 19 ->
  let s' := turn bt [cw; negb cw] s in
  g_browsing_station_idx s' = g_browsing_station_idx s /\
  g_browsing_station_freq s' = browsing_freq_of (g_browsing_station_idx s) /\
  g_browsing_stations s' = true /\
  Radio.frequency (g_radio_state s') = Radio.frequency (g_radio_state s).
Proof.
  intros Hm Hb Hidx. cbn [turn].
  destruct (browse_detent bt cw s Hm Hb) as (Hi1 & _ & Hm1 & Hb1 & _ & Hf1).
  set (s1 := press_button bt (rotation cw) s) in *.
  destruct (browse_detent bt (negb cw) s1 Hm1 Hb1)
    as (Hi2 & Hq2 & _ & Hb2 & _ & Hf2).
  set (s2 := press_button bt (rotation (negb cw)) s1) in *.
  set (idx := g_browsing_station_idx s) in *.
  assert (Hback : g_browsing_station_idx s2 = idx).
  { rewrite Hi2, Hi1. destruct cw; cbn [negb].
    - rewrite (u8_small ((idx + 1) mod 20))
        by (pose proof (Z.mod_pos_bound (idx + 1) 20); lia).
      destruct (Z.eq_dec idx 19) as [E | Hne]; [rewrite E; reflexivity|].
      rewrite (Z.mod_small (idx + 1) 20) by lia.
      replace (idx + 1 =? 0) with false by (symmetry; apply Z.eqb_neq; lia).
      replace (idx + 1 - 1) with idx by lia. apply u8_small. lia.
    - destruct (Z.eq_dec idx 0) as [E | Hne]; [rewrite E; reflexivity|].
      replace (idx =? 0) with false by (symmetry; apply Z.eqb_neq; lia).
      rewrite (u8_small (idx - 1)) by lia.
      replace (idx - 1 + 1) with idx by lia.
      rewrite (Z.mod_small idx 20) by lia. apply u8_small. lia. }
  repeat split; [exact Hback | rewrite Hq2, Hback; reflexivity
                | exact Hb2 | congruence].
Qed.

Lemma browse_detents_cancel_witness :
  g_browsing_station_idx (turn (mk_bt_reply true true) [true; false]
                               browsing_radio)
  = g_browsing_station_idx browsing_radio.
Proof.
  apply (browse_detents_cancel (mk_bt_reply true true) true browsing_radio);
    [reflexivity | reflexivity | cbn; lia].
Defined.


(** The timer running out while browsing is on. *)
Lemma timer_commits (s : globals) :
  g_station_tune_timer s = true ->
  g_browsing_stations s = true ->
  let s' := after [TimerFires] s in
  Radio.frequency (g_radio_state s') = g_browsing_station_freq s /\
  g_browsing_stations s' = false /\
  g_station_tune_timer s' = false /\
  g_current_mode s' = g_current_mode s /\
  In (NvsSave (nvs_snapshot s')) (snd (run [TimerFires] s)).
Proof.
  intros Ht Hb. rewrite after_one. unfold run, perform.
  walk_at Ht Hb; repeat split; auto using in_eq, in_cons.
Qed.

(** X17.  A detent and two quiet seconds tune the radio.  In Radio mode
    with station browsing on, a detent sets the index - any value 0..255
    of the [uint8_t], since browsing starts on the step of the tuned
    frequency - to [(idx + 1) mod 20] clockwise, and to [idx - 1], or to 19
    from 0, counter-clockwise; the candidate becomes 87.5 + 0.2 MHz times
    the new index and the timer is armed.  When the timer then runs out
    the candidate becomes the tuned frequency, browsing ends, and the
    state is saved with the frequency as 8750 + 20 * idx hundredths, one
    less on the steps of [short_step]. *)
Theorem detent_then_timeout_tunes (bt : bt_reply) (cw : bool) (s : globals) :
  g_current_mode s = MODE_RADIO ->
  g_browsing_stations s = true ->
  0 <= g_browsing_station_idx s <= 255 ->
  let s1 := press_button bt (rotation cw) s in
  let s2 := after [TimerFires] s1 in
  let idx :=
    if cw then (g_browsing_station_idx s + 1) mod 20
    else if g_browsing_station_idx s =? 0 then 19
         else g_browsing_station_idx s - 1 in
  g_browsing_station_idx s1 = idx /\
  g_browsing_station_freq s1 = browsing_freq_of idx /\
  g_station_tune_timer s1 = true /\
  Radio.frequency (g_radio_state s1) = Radio.frequency (g_radio_state s) /\
  Radio.frequency (g_radio_state s2) = browsing_freq_of idx /\
  g_browsing_stations s2 = false /\
  g_station_tune_timer s2 = false /\
  In (NvsSave (nvs_snapshot s2)) (snd (run [TimerFires] s1)) /\
  nvs_radio_freq (nvs_snapshot s2)
    = Some (8750 + 20 * idx - (if short_step idx then 1 else 0)) /\
  (idx < 207 -> short_step idx = false).
Proof.
  intros Hm Hb Hidx s1 s2 idx.
  destruct (browse_detent bt cw s Hm Hb)
    as (Hi1 & Hq1 & Hm1 & Hb1 & Ht1 & Hf1).
  fold s1 in Hi1, Hq1, Hm1, Hb1, Ht1, Hf1.
  destruct (timer_commits s1 Ht1 Hb1) as (Hf2 & Hb2 & Ht2 & _ & Hsave).
  fold s2 in Hf2, Hb2, Ht2, Hsave.
  assert (Hrange : 0 <= idx <= 255).
  { subst idx. destruct cw.
    - pose proof (Z.mod_pos_bound (g_browsing_station_idx s + 1) 20). lia.
    - destruct (g_browsing_station_idx s =? 0) eqn:E;
        [lia | apply Z.eqb_neq in E; lia]. }
  assert (Hi : g_browsing_station_idx s1 = idx).
  { rewrite Hi1. fold idx. apply u8_small. lia. }
  assert (Hf : Radio.frequency (g_radio_state s2) = browsing_freq_of idx)
    by (rewrite Hf2, Hq1, Hi; reflexivity).
  repeat split; try assumption.
  - rewrite Hq1, Hi. reflexivity.
  - unfold nvs_snapshot. cbn [nvs_radio_freq]. rewrite Hf.
    destruct (browsing_hundredths idx Hrange) as [-> _]. reflexivity.
  - intros Hlow. apply stored_step_low. lia.
Qed.

(** Browsing entered on the second FM preset, 95.3 MHz, stands on index
    39.  A clockwise detent goes to step 0, 87.5 MHz; a counter-clockwise
    one to step 38, 95.1 MHz, which is tuned and saved as 9510. *)
Lemma detent_then_timeout_tunes_witness :
  let bt := mk_bt_reply true true in
  g_browsing_station_idx browsing_from_preset
    = browsing_idx_of (Radio.frequency (g_radio_state browsing_from_preset)) /\
  g_browsing_station_idx (press_button bt (rotation true) browsing_from_preset)
    = 0 /\
  g_browsing_station_idx (press_button bt (rotation false) browsing_from_preset)
    = 38 /\
  nvs_radio_freq
    (nvs_snapshot
       (after [TimerFires]
          (press_button bt (rotation false) browsing_from_preset)))
    = Some 9510.
Proof.
  cbv zeta.
  split; [vm_compute; reflexivity|].
  split; [|split].
  - apply (detent_then_timeout_tunes (mk_bt_reply true true) true
             browsing_from_preset); [reflexivity | reflexivity | cbn; lia].
  - apply (detent_then_timeout_tunes (mk_bt_reply true true) false
             browsing_from_preset); [reflexivity | reflexivity | cbn; lia].
  - apply (detent_then_timeout_tunes (mk_bt_reply true true) false
             browsing_from_preset); [reflexivity | reflexivity | cbn; lia].
Defined.

(* --------------------------------------------------------------------- *)
(** *** Presets *)

Lemma nth_list_set_same {A} (i : nat) (v d : A) (l : list A) :
  (i < List.length l)%nat -> nth i (list_set i v l) d = v.
Proof.
  revert i. induction l as [|x l IH]; intros i Hi; cbn in Hi; [lia|].
  destruct i; cbv [list_set]; fold (@list_set A); cbn [nth];
    [reflexivity | apply IH; lia].
Qed.

Lemma nth_list_set_other {A} (i j : nat) (v d : A) (l : list A) :
  i <> j -> nth j (list_set i v l) d = nth j l d.
Proof.
  revert i j. induction l as [|x l IH]; intros i j Hij.
  - destruct i; reflexivity.
  - destruct i, j; cbv [list_set]; fold (@list_set A); cbn [nth];
      try reflexivity; try congruence.
    apply IH. congruence.
Qed.

Lemma length_list_set {A} (i : nat) (v : A) (l : list A) :
  List.length (list_set i v l) = List.length l.
Proof.
  revert i. induction l as [|x l IH]; intros i; destruct i;
    cbv [list_set]; fold (@list_set A); cbn [List.length]; auto.
Qed.

Lemma band_row_length (p : list (list float)) (b : radio_band_t) :
  presets_shaped p ->
  (Z.to_nat (band_code b) < List.length p)%nat /\
  List.length (nth (Z.to_nat (band_code b)) p []) = 5%nat.
Proof.
  intros [Hlen Hrows].
  destruct p as [|r0 [|r1 [|r2 p]]]; try discriminate Hlen.
  inversion Hrows as [|? ? H0 Hrows']; subst.
  inversion Hrows' as [|? ? H1 _]; subst.
  destruct b; cbn; split; auto; lia.
Qed.

Lemma preset_get_set_same (p : list (list float)) (b : radio_band_t)
    (k : Z) (f : float) :
  presets_shaped p -> 0 <= k < 5 ->
  preset_get (preset_set p b k f) b k = f.
Proof.
  intros Hp Hk. destruct (band_row_length p b Hp) as [Hb Hrow].
  unfold preset_get, preset_set.
  rewrite nth_list_set_same by exact Hb.
  apply nth_list_set_same. rewrite Hrow. lia.
Qed.

Lemma preset_get_set_other (p : list (list float)) (b b' : radio_band_t)
    (k k' : Z) (f : float) :
  presets_shaped p -> 0 <= k < 5 -> 0 <= k' < 5 ->
  (b', k') <> (b, k) ->
  preset_get (preset_set p b k f) b' k' = preset_get p b' k'.
Proof.
  intros Hp Hk Hk' Hne. destruct (band_row_length p b Hp) as [Hb Hrow].
  unfold preset_get, preset_set.
  assert (Hcase : b = b' /\ k <> k' \/ b <> b').
  { destruct b, b'; try (right; discriminate); left; split; auto;
      intros ->; apply Hne; reflexivity. }
  destruct Hcase as [[<- Hkk] | Hbb].
  - rewrite nth_list_set_same by exact Hb.
    apply nth_list_set_other. lia.
  - rewrite nth_list_set_other; [reflexivity|].
    destruct b, b'; try congruence; vm_compute; discriminate.
Qed.

Lemma station_button_cases (k : Z) :
  0 <= k < 5 ->
  is_station_button (station_button k) = true /\
  button_code (station_button k) - button_code BTN_STATION_1 = k.
Proof.
  intros Hk.
  assert (Hc : k = 0 \/ k = 1 \/ k = 2 \/ k = 3 \/ k = 4) by lia.
  repeat (destruct Hc as [-> | Hc]); try subst k; split; reflexivity.
Qed.

(** A long press of a station key in Radio mode. *)
Lemma long_press_stores (bt : bt_reply) (b : button_id_t) (ts : Z)
    (s : globals) :
  g_current_mode s = MODE_RADIO ->
  is_station_button b = true ->
  let s1 := press_button bt (mk_event b BTN_EVENT_LONG_PRESS ts) s in
  g_radio_state s1 =
    Radio.set_preset_freq
      (preset_set (Radio.preset_freq (g_radio_state s)) (g_current_band s)
         (button_code b - button_code BTN_STATION_1)
         (Radio.frequency (g_radio_state s)))
      (g_radio_state s) /\
  g_current_mode s1 = MODE_RADIO /\
  g_current_band s1 = g_current_band s.
Proof.
  intros Hm Hb.
  unfold press_button, stereo_state_handle_button.
  cbn [button event].
  replace (event_type_eqb BTN_EVENT_LONG_PRESS BTN_EVENT_PRESS) with false
    by reflexivity.
  rewrite !andb_false_r.
  plumbing. cbn. rewrite Hm. cbn. unfold handle_radio_mode. cbn [event button].
  rewrite Hb. change (button_code BTN_STATION_1) with 3 in *.
  walk_in Hm; auto.
Qed.

(** The release of a station key in Radio mode, its preset being set. *)
Lemma release_recalls (bt : bt_reply) (b : button_id_t) (ts : Z)
    (s : globals) :
  g_current_mode s = MODE_RADIO ->
  is_station_button b = true ->
  f32_positive
    (preset_get (Radio.preset_freq (g_radio_state s)) (g_current_band s)
       (button_code b - button_code BTN_STATION_1)) = true ->
  Radio.frequency
    (g_radio_state (press_button bt (mk_event b BTN_EVENT_RELEASE ts) s))
  = preset_get (Radio.preset_freq (g_radio_state s)) (g_current_band s)
      (button_code b - button_code BTN_STATION_1).
Proof.
  intros Hm Hb Hpos.
  unfold press_button, stereo_state_handle_button.
  cbn [button event].
  replace (event_type_eqb BTN_EVENT_RELEASE BTN_EVENT_PRESS) with false
    by reflexivity.
  rewrite !andb_false_r.
  plumbing. cbn. rewrite Hm. cbn. unfold handle_radio_mode. cbn [event button].
  rewrite Hb. change (button_code BTN_STATION_1) with 3 in *.
  walk_at Hm Hpos; first [reflexivity | congruence].
Qed.

(** X18.  A preset is stored by a long press and recalled by a release.
    In Radio mode, a long press of station key [k] puts the tuned
    frequency into slot [k] of the current band and leaves the other nine
    slots alone; whatever the radio is tuned to afterwards, a release of
    the same key then tunes back to it, provided the frequency is
    positive (a slot holding 0 is taken as empty and ignored). *)
Theorem preset_store_then_recall (bt : bt_reply) (k : Z) (f : float)
    (s : globals) :
  0 <= k < 5 ->
  g_current_mode s = MODE_RADIO ->
  presets_shaped (Radio.preset_freq (g_radio_state s)) ->
  f32_positive (Radio.frequency (g_radio_state s)) = true ->
  let s1 := press_button bt (ev (station_button k) BTN_EVENT_LONG_PRESS) s in
  let s2 := set_g_radio_state (Radio.set_frequency f (g_radio_state s1)) s1 in
  let s3 := press_button bt (ev (station_button k) BTN_EVENT_RELEASE) s2 in
  Radio.frequency (g_radio_state s3) = Radio.frequency (g_radio_state s) /\
  forall (b' : radio_band_t) (k' : Z),
    0 <= k' < 5 -> (b', k') <> (g_current_band s, k) ->
    preset_get (Radio.preset_freq (g_radio_state s1)) b' k'
    = preset_get (Radio.preset_freq (g_radio_state s)) b' k'.
Proof.
  intros Hk Hm Hp Hpos s1 s2 s3.
  destruct (station_button_cases k Hk) as [Hst Hidx].
  destruct (long_press_stores bt (station_button k) 0 s Hm Hst)
    as (Hr1 & Hm1 & Hb1).
  fold (ev (station_button k) BTN_EVENT_LONG_PRESS) in Hr1, Hm1, Hb1.
  fold s1 in Hr1, Hm1, Hb1. rewrite Hidx in Hr1.
  split.
  - subst s3. unfold ev.
    rewrite release_recalls; subst s2; cbn [g_current_mode set_g_radio_state
      g_radio_state g_current_band Radio.preset_freq Radio.set_frequency];
      rewrite ?Hidx, ?Hb1, ?Hr1; cbn [Radio.preset_freq Radio.set_preset_freq];
      rewrite ?preset_get_set_same by assumption; auto.
  - intros b' k' Hk' Hne. rewrite Hr1. cbn [Radio.preset_freq Radio.set_preset_freq].
    apply preset_get_set_other; assumption.
Qed.

Lemma preset_store_then_recall_witness :
  let s1 :=
    press_button (mk_bt_reply true true)
      (ev (station_button 2) BTN_EVENT_LONG_PRESS) tuned_radio in
  let s2 :=
    set_g_radio_state
      (Radio.set_frequency (f32_lit 879 10) (g_radio_state s1)) s1 in
  Radio.frequency
    (g_radio_state
       (press_button (mk_bt_reply true true)
          (ev (station_button 2) BTN_EVENT_RELEASE) s2))
  = Radio.frequency (g_radio_state tuned_radio).
Proof.
  apply (preset_store_then_recall (mk_bt_reply true true) 2
           (f32_lit 879 10) tuned_radio);
    [lia | reflexivity | split; [reflexivity | repeat constructor]
    | reflexivity].
Defined.

(* --------------------------------------------------------------------- *)
(** *** Volumes of a paired device *)

(** The test of [find_bt_device_by_mac] on one slot. *)
Lemma mac_eqb_refl (a : list Z) : mac_eqb a a = true.
Proof.
  unfold mac_eqb. rewrite Nat.eqb_refl. cbn [andb].
  induction a as [|x a IH]; [reflexivity|].
  cbn [combine forallb fst snd]. rewrite Z.eqb_refl. exact IH.
Qed.

Lemma find_after_set (mac : list Z) (D : bt_device_settings_t)
    (l : list bt_device_settings_t) :
  valid D && mac_eqb (firstn 6 (mac_addr D)) (firstn 6 mac) = true ->
  forall (n : nat) (i : Z),
    (n < List.length l)%nat ->
    (forall j, (j < n)%nat ->
       valid (nth j l D) &&
       mac_eqb (firstn 6 (mac_addr (nth j l D))) (firstn 6 mac) = false) ->
    find_bt_device_loop (list_set n D l) i mac = i + Z.of_nat n.
Proof.
  intros HD. induction l as [|d l IH]; intros n i Hn Hbefore.
  - cbn in Hn. lia.
  - destruct n as [|n]; cbv [list_set]; fold (@list_set bt_device_settings_t);
      cbn [find_bt_device_loop].
    + rewrite HD. lia.
    + pose proof (Hbefore 0%nat ltac:(lia)) as H0. cbn [nth] in H0.
      rewrite H0. rewrite IH.
      * lia.
      * cbn in Hn. lia.
      * intros j Hj. apply (Hbefore (S j)). lia.
Qed.

Lemma find_hit (mac : list Z) (D : bt_device_settings_t)
    (l : list bt_device_settings_t) (i : Z) :
  0 <= i ->
  0 <= find_bt_device_loop l i mac ->
  exists n : nat,
    find_bt_device_loop l i mac = i + Z.of_nat n /\
    (n < List.length l)%nat /\
    holds mac (nth n l D) = true /\
    forall j, (j < n)%nat -> holds mac (nth j l D) = false.
Proof.
  unfold holds.
  revert i. induction l as [|d l IH]; intros i Hi Hr; cbn [find_bt_device_loop] in *.
  - lia.
  - destruct (valid d && mac_eqb (firstn 6 (mac_addr d)) (firstn 6 mac)) eqn:E.
    + exists 0%nat. repeat split; [lia | cbn; lia | exact E | intros j Hj; lia].
    + destruct (IH (i + 1) ltac:(lia) Hr) as (n & Hn & Hlen & Hat & Hbefore).
      exists (S n). repeat split; [lia | cbn; lia | exact Hat |].
      intros [|j] Hj; cbn [nth]; [exact E | apply Hbefore; lia].
Qed.

Lemma find_miss (mac : list Z) (D : bt_device_settings_t)
    (l : list bt_device_settings_t) (i : Z) :
  0 <= i ->
  find_bt_device_loop l i mac < 0 ->
  forall j, (j < List.length l)%nat -> holds mac (nth j l D) = false.
Proof.
  unfold holds.
  revert i. induction l as [|d l IH]; intros i Hi Hr j Hj;
    cbn [find_bt_device_loop List.length] in *.
  - lia.
  - destruct (valid d && mac_eqb (firstn 6 (mac_addr d)) (firstn 6 mac)) eqn:E;
      [lia|].
    destruct j as [|j]; cbn [nth]; [exact E|].
    apply (IH (i + 1)); [lia | exact Hr | lia].
Qed.

(** [find_free_bt_device_slot]: the first slot not in use, or 0 when every
    slot is in use. *)
Lemma find_free_first (D : bt_device_settings_t)
    (l : list bt_device_settings_t) (i : Z) :
  0 <= i ->
  (exists n : nat,
     find_free_loop l i = i + Z.of_nat n /\
     (n < List.length l)%nat /\
     valid (nth n l D) = false /\
     forall j, (j < n)%nat -> valid (nth j l D) = true) \/
  (find_free_loop l i = 0 /\
   forall j, (j < List.length l)%nat -> valid (nth j l D) = true).
Proof.
  revert i. induction l as [|d l IH]; intros i Hi; cbn [find_free_loop].
  - right. split; [reflexivity | intros j Hj; cbn in Hj; lia].
  - destruct (valid d) eqn:E; cbn [negb].
    + destruct (IH (i + 1) ltac:(lia))
        as [(n & Hn & Hlen & Hat & Hbefore) | [H0 Hall]].
      * left. exists (S n). repeat split; [lia | cbn; lia | exact Hat |].
        intros [|j] Hj; cbn [nth]; [exact E | apply Hbefore; lia].
      * right. split; [exact H0|].
        intros [|j] Hj; cbn [nth]; [exact E | apply Hall; cbn in Hj; lia].
    + left. exists 0%nat.
      repeat split; [lia | cbn; lia | exact E | intros j Hj; lia].
Qed.

(** The slot a disconnection writes, and what it writes there. *)
Lemma disconnect_writes_slot (addr : list Z) (s : globals) :
  let devs := firstn (Z.to_nat MAX_BT_DEVICES) (g_bt_devices s) in
  let found := find_bt_device_loop devs 0 addr in
  let idx := if found <? 0 then find_free_loop devs 0 else found in
  let s1 := after [DeviceDisconnected (Some addr)] s in
  g_bt_devices s1 =
    list_set (Z.to_nat idx)
      (mk_bt_device (firstn 6 addr) (A2dp.volume (g_a2dp_state s))
         (Hfp.speaker_volume (g_hfp_state s)) (Hfp.mic_volume (g_hfp_state s))
         true)
      (g_bt_devices s) /\
  g_current_bt_device_mac s1 = repeat 0 6 /\
  bt_volumes s1 = bt_volumes s.
Proof.
  cbv zeta. rewrite after_one.
  unfold perform, stereo_state_bt_device_disconnected.
  walk; repeat split; reflexivity.
Qed.

(** A connection of a device that the table holds. *)
Lemma connect_restores_slot (addr : list Z) (s : globals) (r : Z) :
  find_bt_device_loop (firstn (Z.to_nat MAX_BT_DEVICES) (g_bt_devices s)) 0 addr
    = r ->
  0 <= r ->
  let d := nth (Z.to_nat r) (g_bt_devices s) (mk_bt_device [] 0 0 0 false) in
  bt_volumes (after [DeviceConnected (Some addr)] s)
    = (a2dp_volume d, hfp_speaker_volume d, hfp_mic_volume d) /\
  exists shown : list effect,
    snd (run [DeviceConnected (Some addr)] s)
      = [Bt (set_a2dp_volume (a2dp_volume d));
         Bt (set_hfp_speaker_volume (hfp_speaker_volume d));
         Bt (set_hfp_mic_volume (hfp_mic_volume d))] ++ shown /\
    Forall (fun e => is_display e = true) shown.
Proof.
  intros Hfind Hr. cbv zeta. rewrite after_one.
  unfold run, perform, stereo_state_bt_device_connected.
  assert (Hge : (r >=? 0) = true) by (rewrite Z.geb_leb; apply Z.leb_le; lia).
  cbn in Hfind.
  walk_at Hfind Hge;
    first [ split; [reflexivity|];
            eexists; split; [reflexivity | repeat constructor]
          | congruence ].
Qed.

(** X19.  The volumes of a device are remembered from its disconnection
    to its next connection.  On a table of [MAX_BT_DEVICES] slots, a
    disconnection that names the device writes its address and the three
    Bluetooth volumes of the moment into one slot: the first slot that
    holds the address if there is one, else the first slot not in use,
    else slot 0.  Whatever the volumes are when the same address connects
    again on that table, they are set back to the remembered ones, and
    the three are forwarded to the Bluetooth component - A2DP volume, call
    speaker volume, microphone volume, in this order - followed by nothing
    but the notification to the display. *)
Theorem device_volumes_are_restored (addr : list Z) (s s' : globals) :
  table_shaped s ->
  g_bt_devices s' = g_bt_devices (after [DeviceDisconnected (Some addr)] s) ->
  (exists n : nat,
      slot_of addr (g_bt_devices s) n /\
      g_bt_devices (after [DeviceDisconnected (Some addr)] s)
        = list_set n (remembered addr s) (g_bt_devices s)) /\
  bt_volumes (after [DeviceConnected (Some addr)] s') = bt_volumes s /\
  exists shown : list effect,
    snd (run [DeviceConnected (Some addr)] s')
      = [Bt (set_a2dp_volume (A2dp.volume (g_a2dp_state s)));
         Bt (set_hfp_speaker_volume (Hfp.speaker_volume (g_hfp_state s)));
         Bt (set_hfp_mic_volume (Hfp.mic_volume (g_hfp_state s)))] ++ shown /\
    Forall (fun e => is_display e = true) shown.
Proof.
  intros Hshape Htable.
  destruct (disconnect_writes_slot addr s) as (Hdevs & _ & _).
  cbv zeta in Hdevs. rewrite <- Htable.
  rewrite <- Htable in Hdevs. clear Htable.
  unfold table_shaped in Hshape.
  rewrite firstn_all2 in Hdevs by lia.
  set (l := g_bt_devices s) in *.
  fold (remembered addr s) in Hdevs.
  set (D := remembered addr s) in *.
  set (found := find_bt_device_loop l 0 addr) in *.
  set (idx := if found <? 0 then find_free_loop l 0 else found) in *.
  assert (HD : holds addr D = true).
  { subst D. unfold holds, remembered. cbn [valid mac_addr andb].
    rewrite firstn_firstn. apply mac_eqb_refl. }
  assert (Hlen : List.length l = 5%nat) by exact Hshape.
  assert (Hslot : exists n : nat,
            idx = Z.of_nat n /\ (n < List.length l)%nat /\
            slot_of addr l n /\
            forall j, (j < n)%nat -> holds addr (nth j l D) = false).
  { subst idx. destruct (found <? 0) eqn:E.
    - apply Z.ltb_lt in E.
      pose proof (find_miss addr D l 0 ltac:(lia) E) as Hmiss.
      pose proof (find_miss addr no_device l 0 ltac:(lia) E) as Hmiss'.
      destruct (find_free_first no_device l 0 ltac:(lia))
        as [(n & Hn & Hl & Hat & Hbefore) | [H0 Hall]].
      + exists n. repeat split; [lia | exact Hl | | intros j Hj; apply Hmiss; lia].
        apply first_free_slot; assumption.
      + exists 0%nat. rewrite H0.
        repeat split; [lia | | intros j Hj; lia].
        apply slot_zero; [reflexivity | exact Hmiss' | exact Hall].
    - apply Z.ltb_ge in E.
      destruct (find_hit addr D l 0 ltac:(lia) E) as (n & Hn & Hl & _ & Hb).
      destruct (find_hit addr no_device l 0 ltac:(lia) E)
        as (n' & Hn' & Hl' & Hat' & Hb').
      assert (n' = n) by lia. subst n'.
      exists n. fold found in Hn.
      repeat split; [lia | exact Hl | | exact Hb].
      apply own_slot; assumption. }
  destruct Hslot as (n & Hidx & Hn & Hpolicy & Hbefore).
  rewrite Hidx, Nat2Z.id in Hdevs.
  split; [exists n; split; [exact Hpolicy | exact Hdevs]|].
  assert (Hfind : find_bt_device_loop
                    (firstn (Z.to_nat MAX_BT_DEVICES) (g_bt_devices s')) 0 addr
                  = Z.of_nat n).
  { rewrite Hdevs. rewrite firstn_all2
      by (rewrite length_list_set; unfold MAX_BT_DEVICES; lia).
    rewrite (find_after_set addr D l HD n 0 Hn Hbefore). lia. }
  destruct (connect_restores_slot addr s' (Z.of_nat n) Hfind ltac:(lia))
    as [Hvol Hsent].
  cbv zeta in Hvol, Hsent.
  rewrite Nat2Z.id, Hdevs in Hvol, Hsent.
  rewrite nth_list_set_same in Hvol, Hsent by exact Hn.
  split; [exact Hvol | exact Hsent].
Qed.

(** With the A2DP volume at 9 a device leaves; the volume is then reported
    as 3; the device comes back and the volume is 9 again. *)
Lemma device_volumes_are_restored_witness :
  let addr := [1; 2; 3; 4; 5; 6] in
  let s := after [VolumeChanged BT_VOLUME_TARGET_A2DP 9] globals_boot in
  let s' := after [DeviceDisconnected (Some addr);
                   VolumeChanged BT_VOLUME_TARGET_A2DP 3] s in
  bt_volumes s = (9, 0, 0) /\
  bt_volumes s' = (3, 0, 0) /\
  bt_volumes (after [DeviceConnected (Some addr)] s') = bt_volumes s.
Proof.
  cbv zeta. split; [reflexivity|]. split; [reflexivity|].
  apply (device_volumes_are_restored [1; 2; 3; 4; 5; 6]
           (after [VolumeChanged BT_VOLUME_TARGET_A2DP 9] globals_boot)
           (after [DeviceDisconnected (Some [1; 2; 3; 4; 5; 6]);
                   VolumeChanged BT_VOLUME_TARGET_A2DP 3]
              (after [VolumeChanged BT_VOLUME_TARGET_A2DP 9] globals_boot)));
    reflexivity.
Defined.

(* --------------------------------------------------------------------- *)
(** *** What is saved and what is reported *)

Lemma init_reports_nothing (config : option stereo_config_t)
    (nvs : nvs_store) :
  keeps (fun _ => True)
        (fun e => match e with
                  | NvsSave _ | ModeChange _ _ => False
                  | _ => True
                  end)
        (stereo_state_init config nvs).
Proof.
  unfold stereo_state_init, load_from_nvs, load_bt_device_settings.
  keep_with ltac:(intros; exact I).
Qed.

Ltac final_reports :=
  repeat constructor; cbn [reports];
  try reflexivity; try (unfold nvs_snapshot; cbn; reflexivity).

(** X20.  What an operation writes or reports is its outcome.  For every
    operation and every state, each image handed to the store by
    [save_to_nvs] is the image of the state the operation ends in, and
    each mode change reported to [on_mode_change] names as new mode the
    mode the operation ends in: nothing stale is saved, and no transient
    mode is announced. *)
Theorem reports_are_final (o : op) (s : globals) :
  Forall (reports (fst (exec (perform o) s))) (snd (exec (perform o) s)).
Proof.
  destruct o.
  - eapply Forall_impl;
      [|apply (init_reports_nothing config nvs s I)].
    intros [] H; cbn in *; tauto.
  - destruct e as [b t ts].
    unfold perform, stereo_state_handle_button, handle_radio_mode,
      handle_bluetooth_mode, handle_phone_call_mode, handle_phonebook_mode.
    destruct (g_current_mode s) eqn:Hm; destruct b, t;
      walk_in Hm; final_reports.
  - unfold perform, stereo_state_set_power. walk; final_reports.
  - unfold perform, stereo_state_set_mode. walk; final_reports.
  - unfold perform, stereo_state_hfp_call_status.
    destruct caller_id; walk; final_reports.
  - unfold perform, stereo_state_a2dp_streaming. walk; final_reports.
  - unfold perform, on_bt_volume_changed. destruct target; walk; final_reports.
  - unfold perform. walk; final_reports.
  - unfold perform, stereo_state_rds_update.
    destruct station_name, song_info; walk; final_reports.
  - unfold perform, stereo_state_a2dp_metadata.
    destruct title, artist; walk; final_reports.
  - unfold perform, stereo_state_bt_device_connected.
    destruct device_addr; walk; final_reports.
  - unfold perform, stereo_state_bt_device_disconnected.
    destruct device_addr; walk; final_reports.
  - unfold perform, stereo_state_save. walk; final_reports.
Qed.

End StereoLawsProperties.

(* ===================================================================== *)
(** ** Properties of main.c *)
(* ===================================================================== *)

Section MainProperties.
Import CInt CFloat Buttons Stereo StereoLaws Main.

Arguments nvs_snapshot : simpl never.
Arguments browsing_freq_of : simpl never.
Arguments browsing_idx_of : simpl never.
Arguments f32_positive : simpl never.
Arguments f32_lit : simpl never.
Arguments preset_get : simpl never.
Arguments preset_set : simpl never.
Arguments u8 : simpl never.
Arguments strncpy : simpl never.
Arguments list_set : simpl never.
Arguments cleaned : simpl never.
Arguments mode_eqb : simpl nomatch.
Arguments button_eqb : simpl nomatch.
Arguments event_type_eqb : simpl nomatch.
Arguments band_eqb : simpl nomatch.

Ltac unfold_main :=
  cbv beta iota zeta delta
    [exec bind get modify emit ret skip when on_key radio a2dp hfp
     send_display_notification notify_mode_change save_to_nvs
     start_station_tune_timer announce_a2dp_volume
     find_bt_device_by_mac find_free_bt_device_slot save_bt_device_settings
     station_tune_timer_callback auto_power_on_if_off stereo_state_get_mode].

Ltac split_test :=
  match goal with
  | |- context [if ?c then _ else _] =>
      lazymatch c with
      | context [if _ then _ else _] => fail
      | context [match _ with _ => _ end] => fail
      | _ => destruct c eqn:?
      end
  end.

Ltac step_main Hm :=
  repeat (unfold_main; repeat (progress (cbn; rewrite ?Hm)); try split_test).

Ltac step_main2 Hp Hm :=
  repeat (unfold_main; repeat (progress (cbn; rewrite ?Hp, ?Hm));
          try split_test).

(* --------------------------------------------------------------------- *)
(** *** Streaming starts *)

(** X21.  When audio starts to stream the unit ends up switched on and
    playing.  Whatever the state before - off, in the radio, even with
    power flag and mode at odds - [a2dp_audio_state_callback(true)] leaves
    the power flag set, the mode at Bluetooth, or at PhoneCall if a call
    was shown, and the player marked as playing. *)
Theorem streaming_switches_to_bluetooth (s : globals) :
  let s' := fst (exec (a2dp_audio_state_callback true) s) in
  g_powered_on s' = true /\
  g_current_mode s' =
    (if mode_eqb (g_current_mode s) MODE_PHONE_CALL && g_powered_on s
     then MODE_PHONE_CALL else MODE_BLUETOOTH) /\
  A2dp.playing (g_a2dp_state s') = true.
Proof.
  unfold a2dp_audio_state_callback, stereo_state_set_mode,
    stereo_state_a2dp_streaming.
  destruct (g_current_mode s) eqn:Hm; destruct (g_powered_on s) eqn:Hp;
    step_main2 Hp Hm; auto.
Qed.


(* --------------------------------------------------------------------- *)
(** *** What the callbacks of main.c can and cannot bring about *)

Lemma react_all_keeps (I : globals -> Prop) (P : effect -> Prop)
    (xs : list stimulus) :
  (forall x, keeps I P (react x)) ->
  forall s, I s ->
    I (fst (react_all xs s)) /\ Forall P (snd (react_all xs s)).
Proof.
  intros Hx. induction xs as [|x xs IH]; intros s Hs; cbn [react_all].
  - split; [exact Hs | constructor].
  - destruct (Hx x s Hs) as [Hs1 Ho1].
    destruct (exec (react x) s) as [s1 o1]. cbn [fst snd] in *.
    destruct (IH s1 Hs1) as [Hs2 Ho2].
    destruct (react_all xs s1) as [s2 o2]. cbn [fst snd] in *.
    split; [exact Hs2 | apply Forall_app; auto].
Qed.

Lemma react_keeps_table (T : list bt_device_settings_t) (x : stimulus) :
  keeps (fun s => g_bt_devices s = T) (fun e => is_table_save e = false)
        (react x).
Proof.
  destruct x as [is_up bda | streams | ca cs | md | ge | bt be | tg nv | ];
    unfold react.
  - destruct is_up; unfold bt_connection_callback.
    + apply (perform_keeps_table T (DeviceConnected bda)). reflexivity.
    + apply (perform_keeps_table T (DeviceDisconnected None)). reflexivity.
  - destruct streams; unfold a2dp_audio_state_callback,
      stereo_state_get_mode.
    + apply keeps_get. intros current_mode. apply keeps_seq.
      * apply keeps_when.
        apply (perform_keeps_table T (SetMode MODE_BLUETOOTH)). reflexivity.
      * apply (perform_keeps_table T (Streaming true)). reflexivity.
    + apply (perform_keeps_table T (Streaming false)). reflexivity.
  - apply keeps_skip.
  - destruct md as [m|]; unfold avrcp_metadata_callback.
    + apply (perform_keeps_table T
               (Metadata (cleaned (title m) 128) (cleaned (artist m) 64)
                         (cleaned (album m) 64))). reflexivity.
    + apply keeps_skip.
  - destruct ge as [success bda| |]; unfold gap_event_handler.
    + apply keeps_when.
      apply (perform_keeps_table T (DeviceConnected (Some bda))). reflexivity.
    + apply (perform_keeps_table T (DeviceDisconnected None)). reflexivity.
    + apply keeps_skip.
  - apply (perform_keeps_table T (Button bt be)). reflexivity.
  - apply (perform_keeps_table T (VolumeChanged tg nv)).
    reflexivity.
  - apply (perform_keeps_table T TimerFires). reflexivity.
Qed.

(** X22.  As [main.c] wires the firmware, the volumes of a device are
    never remembered.  Both places that report a disconnection pass a NULL
    address, so over any sequence of connection, GAP, audio, call and
    metadata callbacks, button events, volume reports and timer expiries
    the table [g_bt_devices] keeps the content it was loaded with and is
    never written to the store. *)
Theorem main_never_remembers_a_device (xs : list stimulus) (s : globals) :
  g_bt_devices (fst (react_all xs s)) = g_bt_devices s /\
  Forall (fun e => is_table_save e = false) (snd (react_all xs s)).
Proof.
  apply (react_all_keeps (fun x => g_bt_devices x = g_bt_devices s)
                         (fun e => is_table_save e = false) xs);
    [|reflexivity].
  intros x. apply react_keeps_table.
Qed.

Lemma react_keeps_out_of_call (x : stimulus) :
  keeps (fun s => g_current_mode s <> MODE_PHONE_CALL /\
                  g_current_mode s <> MODE_PHONEBOOK)
        (fun _ => True) (react x).
Proof.
  intros s [Hc Hb]. split; [|apply Forall_forall; intros; exact I].
  destruct x as [is_up bda | streams | ca cs | md | ge | bt be | tg nv | ];
    unfold react.
  - destruct is_up; unfold bt_connection_callback,
      stereo_state_bt_device_connected, stereo_state_bt_device_disconnected;
      [destruct bda|]; step_main Hc; auto.
  - unfold a2dp_audio_state_callback, stereo_state_set_mode,
      stereo_state_a2dp_streaming.
    destruct streams; destruct (g_current_mode s) eqn:Hm; try congruence;
      destruct (g_powered_on s) eqn:Hp;
      step_main2 Hp Hm; split; congruence.
  - unfold hfp_call_state_callback. cbn. auto.
  - destruct md as [m|]; unfold avrcp_metadata_callback,
      stereo_state_a2dp_metadata; [|cbn; auto].
    generalize (cleaned (title m) 128), (cleaned (artist m) 64).
    intros [t|] [a|]; step_main Hc; auto.
  - destruct ge as [[|] bda| |]; unfold gap_event_handler,
      stereo_state_bt_device_connected, stereo_state_bt_device_disconnected;
      step_main Hc; auto.
  - unfold button_event_callback, stereo_state_handle_button,
      handle_radio_mode, handle_bluetooth_mode, handle_phone_call_mode,
      handle_phonebook_mode.
    destruct be as [b t ts].
    destruct (g_current_mode s) eqn:Hm; try congruence;
      destruct b, t; step_main Hm; split; congruence.
  - unfold on_bt_volume_changed. destruct tg; step_main Hc; auto.
  - unfold perform. step_main Hc; auto.
Qed.

(** X23.  As [main.c] wires the firmware, the unit never shows a call.
    Nothing calls [stereo_state_hfp_call_status], and the call-state
    callback is empty: from a mode other than PhoneCall and Phonebook, no
    sequence of callbacks, button events, volume reports and timer
    expiries leads to either of them. *)
Theorem main_never_enters_a_call (xs : list stimulus) (s : globals) :
  g_current_mode s <> MODE_PHONE_CALL ->
  g_current_mode s <> MODE_PHONEBOOK ->
  g_current_mode (fst (react_all xs s)) <> MODE_PHONE_CALL /\
  g_current_mode (fst (react_all xs s)) <> MODE_PHONEBOOK.
Proof.
  intros Hc Hb.
  apply (react_all_keeps
           (fun x => g_current_mode x <> MODE_PHONE_CALL /\
                     g_current_mode x <> MODE_PHONEBOOK)
           (fun _ => True) xs react_keeps_out_of_call s).
  split; assumption.
Qed.

Lemma main_never_enters_a_call_witness :
  g_current_mode
    (fst (react_all [ButtonEvent (mk_bt_reply true true)
                       (ev BTN_ROTARY BTN_EVENT_PRESS);
                     AudioState true; CallState true 1]
                    globals_boot)) <> MODE_PHONE_CALL.
Proof.
  apply (main_never_enters_a_call
           [ButtonEvent (mk_bt_reply true true)
              (ev BTN_ROTARY BTN_EVENT_PRESS);
            AudioState true; CallState true 1] globals_boot);
    discriminate.
Defined.

End MainProperties.

(* ===================================================================== *)
(** ** Properties of display.c *)
(* ===================================================================== *)

Section DisplayProperties.
Import CInt Stereo Display.

(* --------------------------------------------------------------------- *)
(** *** From the bus to the controller *)

Lemma latched_app (t1 t2 : list bus_op) :
  forall prev,
    latched prev (t1 ++ t2)
    = latched prev t1 ++ latched (last_write prev t1) t2.
Proof.
  induction t1 as [|op t1 IH]; intros prev; [reflexivity|].
  destruct op as [v | us | ms]; cbn [app latched last_write];
    try apply IH.
  destruct prev as [p|]; [|apply IH].
  destruct (Z.testbit p 2 && negb (Z.testbit v 2)); rewrite IH; reflexivity.
Qed.

Lemma last_write_app (t1 t2 : list bus_op) :
  forall prev,
    last_write prev (t1 ++ t2) = last_write (last_write prev t1) t2.
Proof.
  induction t1 as [|op t1 IH]; intros prev; [reflexivity|].
  destruct op; cbn [app last_write]; apply IH.
Qed.

Lemma delivers_nil : delivers [] [].
Proof. intros prev H. split; [reflexivity | exact H]. Qed.

Lemma delivers_app (t1 t2 : list bus_op) (b1 b2 : list lcd_byte) :
  delivers t1 b1 -> delivers t2 b2 -> delivers (t1 ++ t2) (b1 ++ b2).
Proof.
  intros H1 H2 prev Hp.
  destruct (H1 prev Hp) as [L1 E1].
  destruct (H2 _ E1) as [L2 E2].
  rewrite latched_app, last_write_app, flat_map_app, L1, L2.
  split; [reflexivity | exact E2].
Qed.

Lemma delivers_delay_us (us : Z) : delivers [DelayUs us] [].
Proof. intros prev H. split; [reflexivity | exact H]. Qed.

Lemma delivers_delay_ms (ms : Z) : delivers [DelayMs ms] [].
Proof. intros prev H. split; [reflexivity | exact H]. Qed.

(** The first write of a sequence that starts with E low latches
    nothing. *)
Lemma latched_from_low (prev : option Z) (v : Z) (rest : list bus_op) :
  e_low prev = true ->
  latched prev (I2cWrite v :: rest) = latched None (I2cWrite v :: rest).
Proof.
  intros H. destruct prev as [p|]; [|reflexivity].
  cbn [latched e_low] in *.
  apply negb_true_iff in H. rewrite H. reflexivity.
Qed.

Lemma last_write_after_write (prev : option Z) (v : Z) (rest : list bus_op) :
  last_write prev (I2cWrite v :: rest) = last_write None (I2cWrite v :: rest).
Proof. reflexivity. Qed.

(** All 256 bytes, with the backlight on and off, as commands and as
    characters, checked by evaluation. *)
Lemma byte_table :
  forallb (fun n =>
    forallb (fun bl =>
      forallb (fun is_data =>
        let t := lcd_write_byte (mk_driver true bl) (Z.of_nat n) is_data in
        match latched None t with
        | [(r1, h1); (r2, h2)] =>
            Bool.eqb r1 is_data && Bool.eqb r2 is_data &&
            (h1 =? Z.land (Z.of_nat n) 240) &&
            (h2 =? Z.land (Z.shiftl (Z.of_nat n) 4) 240) &&
            (Z.lor h1 (Z.shiftr h2 4) =? Z.of_nat n) &&
            e_low (last_write None t)
        | _ => false
        end) [true; false]) [0; 8]) (seq 0 256) = true.
Proof. vm_compute. reflexivity. Qed.

Lemma byte_table_at (d : driver) (data : Z) (is_data : bool) :
  0 <= data <= 255 ->
  backlight_state d = 0 \/ backlight_state d = LCD_BIT_BL ->
  latched None (lcd_write_byte d data is_data)
    = [(is_data, Z.land data 240); (is_data, Z.land (Z.shiftl data 4) 240)] /\
  Z.lor (Z.land data 240) (Z.shiftr (Z.land (Z.shiftl data 4) 240) 4) = data /\
  e_low (last_write None (lcd_write_byte d data is_data)) = true.
Proof.
  intros Hdata Hbl.
  pose proof byte_table as H. rewrite forallb_forall in H.
  specialize (H (Z.to_nat data)).
  rewrite Z2Nat.id in H by lia.
  assert (Hin : In (Z.to_nat data) (seq 0 256)) by (apply in_seq; lia).
  specialize (H Hin). rewrite forallb_forall in H.
  assert (Hd : lcd_write_byte d data is_data
               = lcd_write_byte (mk_driver true (backlight_state d)) data
                                is_data) by reflexivity.
  rewrite Hd.
  assert (Hbl' : In (backlight_state d) [0; 8]).
  { destruct Hbl as [-> | ->]; cbn; auto. }
  specialize (H _ Hbl'). rewrite forallb_forall in H.
  assert (Hi : In is_data [true; false]) by (destruct is_data; cbn; auto).
  specialize (H _ Hi). cbv zeta in H.
  destruct (latched None (lcd_write_byte (mk_driver true (backlight_state d))
                            data is_data))
    as [|[r1 h1] [|[r2 h2] [|? ?]]]; try discriminate H.
  repeat (apply andb_true_iff in H; destruct H as [H ?]).
  repeat match goal with
         | E : (_ =? _) = true |- _ => apply Z.eqb_eq in E
         | E : Bool.eqb _ _ = true |- _ => apply eqb_prop in E
         end.
  subst. repeat split; auto.
Qed.

Lemma write_byte_shape (d : driver) (data : Z) (is_data : bool) :
  exists v rest, lcd_write_byte d data is_data = I2cWrite v :: rest.
Proof.
  unfold lcd_write_byte, lcd_write_4bits, pcf8574_write.
  cbn [app]. eauto.
Qed.

Lemma delivers_byte (d : driver) (data : Z) (is_data : bool) :
  0 <= data <= 255 ->
  backlight_state d = 0 \/ backlight_state d = LCD_BIT_BL ->
  delivers (lcd_write_byte d data is_data)
           [if is_data then Character data else Command data].
Proof.
  intros Hdata Hbl prev Hp.
  destruct (byte_table_at d data is_data Hdata Hbl) as (HL & _ & HE).
  destruct (write_byte_shape d data is_data) as (v & rest & Hshape).
  rewrite Hshape in *.
  rewrite (latched_from_low prev v rest Hp), last_write_after_write, HL, HE.
  split; [|reflexivity].
  destruct is_data; cbn [flat_map nibbles app]; reflexivity.
Qed.

Lemma pair_nibbles_bytes (bs : list lcd_byte) :
  Forall (fun b => 0 <= byte_value b <= 255) bs ->
  pair_nibbles (flat_map nibbles bs) = bs.
Proof.
  induction 1 as [|b bs Hb _ IH]; [reflexivity|].
  pose proof (byte_table_at driver_boot (byte_value b) true Hb
                (or_intror eq_refl)) as (_ & Hjoin & _).
  destruct b as [c | c]; cbn [flat_map nibbles app pair_nibbles byte_value] in *;
    rewrite Hjoin, IH; reflexivity.
Qed.

Lemma delivers_received (t : list bus_op) (bs : list lcd_byte) :
  delivers t bs ->
  Forall (fun b => 0 <= byte_value b <= 255) bs ->
  received t = bs.
Proof.
  intros H Hb. unfold received.
  destruct (H None eq_refl) as [-> _]. apply pair_nibbles_bytes, Hb.
Qed.

(** X24.  A byte written by the driver is the byte the controller gets.
    [lcd_write_byte] puts each byte on the expander as two strobed
    transfers, high nibble first; a controller in 4-bit mode that latches
    on the falling edge of E receives exactly that byte, as a character
    when [is_data] is set and as a command otherwise, whatever the state
    of the backlight bit. *)
Theorem byte_reaches_controller (d : driver) (data : Z) (is_data : bool) :
  0 <= data <= 255 ->
  backlight_state d = 0 \/ backlight_state d = LCD_BIT_BL ->
  received (lcd_write_byte d data is_data)
    = [if is_data then Character data else Command data].
Proof.
  intros Hdata Hbl.
  apply delivers_received; [apply delivers_byte; assumption|].
  constructor; [destruct is_data; exact Hdata | constructor].
Qed.

Lemma byte_reaches_controller_witness :
  received (lcd_write_byte driver_boot 65 true) = [Character 65].
Proof.
  apply (byte_reaches_controller driver_boot 65 true);
    [lia | right; reflexivity].
Defined.


(* --------------------------------------------------------------------- *)
(** *** What the controller receives from the driver *)

Lemma delivers_command (d : driver) (cmd : Z) :
  0 <= cmd <= 255 -> bl_ok d ->
  delivers (lcd_command d cmd) [Command cmd].
Proof.
  intros Hc Hbl. unfold lcd_command.
  replace [Command cmd] with ([Command cmd] ++ []) by reflexivity.
  apply delivers_app; [apply (delivers_byte d cmd false Hc Hbl)|].
  destruct ((cmd =? LCD_CMD_CLEAR) || (cmd =? LCD_CMD_HOME));
    [apply delivers_delay_ms | apply delivers_nil].
Qed.

Lemma bytes_in_range (s : string) :
  Forall (fun c => 0 <= c <= 255) (bytes s).
Proof.
  unfold bytes. apply Forall_forall. intros c Hc.
  apply in_map_iff in Hc. destruct Hc as (a & <- & _).
  pose proof (Ascii.N_ascii_bounded a). lia.
Qed.

Lemma delivers_print (d : driver) (s : string) :
  bl_ok d ->
  delivers (lcd_print d s) (map Character (bytes s)).
Proof.
  intros Hbl. unfold lcd_print.
  pose proof (bytes_in_range s) as Hr.
  induction Hr as [|c l Hc _ IH]; cbn [flat_map map].
  - apply delivers_nil.
  - change (Character c :: map Character l)
      with ([Character c] ++ map Character l).
    apply delivers_app; [|exact IH].
    apply (delivers_byte d c true Hc Hbl).
Qed.

(** The address [lcd_set_cursor] sends. *)
Lemma cursor_address (col row : Z) :
  0 <= col <= 255 -> 0 <= row <= 255 ->
  u8 (Z.lor LCD_CMD_DDRAM_ADDR
        ((if col >=? DISPLAY_COLS then 0 else col) +
         nth (Z.to_nat (if row >=? DISPLAY_ROWS then 0 else row))
             row_offsets 0))
  = 128 + (if row =? 1 then 64 else 0) + (if col <? 16 then col else 0).
Proof.
  intros Hc Hr.
  assert (Hrow : (if row >=? DISPLAY_ROWS then 0 else row)
                 = if row =? 1 then 1 else 0).
  { unfold DISPLAY_ROWS. destruct (row >=? 2) eqn:E1; rewrite Z.geb_leb in E1.
    - apply Z.leb_le in E1.
      replace (row =? 1) with false by (symmetry; apply Z.eqb_neq; lia).
      reflexivity.
    - apply Z.leb_gt in E1. destruct (row =? 1) eqn:E2.
      + apply Z.eqb_eq in E2. exact E2.
      + apply Z.eqb_neq in E2. lia. }
  rewrite Hrow.
  assert (Hcol : (if col >=? DISPLAY_COLS then 0 else col)
                 = if col <? 16 then col else 0).
  { unfold DISPLAY_COLS. rewrite Z.geb_leb.
    destruct (16 <=? col) eqn:E1; destruct (col <? 16) eqn:E2;
      try reflexivity.
    - apply Z.leb_le in E1. apply Z.ltb_lt in E2. lia.
    - apply Z.leb_gt in E1. apply Z.ltb_ge in E2. lia. }
  rewrite Hcol.
  destruct (col <? 16) eqn:E.
  - apply Z.ltb_lt in E.
    assert (Hc16 : col = 0 \/ col = 1 \/ col = 2 \/ col = 3 \/ col = 4 \/
                   col = 5 \/ col = 6 \/ col = 7 \/ col = 8 \/ col = 9 \/
                   col = 10 \/ col = 11 \/ col = 12 \/ col = 13 \/
                   col = 14 \/ col = 15) by lia.
    destruct (row =? 1);
      repeat (destruct Hc16 as [-> | Hc16]); try subst col; reflexivity.
  - destruct (row =? 1); reflexivity.
Qed.

Lemma delivers_cursor (d : driver) (col row : Z) :
  0 <= col <= 255 -> 0 <= row <= 255 -> bl_ok d ->
  delivers (lcd_set_cursor d col row)
    [Command (128 + (if row =? 1 then 64 else 0) +
              (if col <? 16 then col else 0))].
Proof.
  intros Hc Hr Hbl. unfold lcd_set_cursor. cbv zeta.
  rewrite (cursor_address col row Hc Hr).
  apply delivers_command; [|exact Hbl].
  destruct (row =? 1); destruct (col <? 16) eqn:E;
    try (apply Z.ltb_lt in E); lia.
Qed.

Lemma delivers_cursor_at (d : driver) (col row addr : Z) :
  0 <= col <= 255 -> 0 <= row <= 255 -> bl_ok d ->
  addr = 128 + (if row =? 1 then 64 else 0) + (if col <? 16 then col else 0) ->
  delivers (lcd_set_cursor d col row) [Command addr].
Proof. intros Hc Hr Hbl ->. apply delivers_cursor; assumption. Qed.

(** X25.  The cursor never leaves the screen.  Whatever column and row
    [lcd_set_cursor] is given, the controller receives one command, a
    DDRAM address between 0x80 and 0x8F (first line) or between 0xC0 and
    0xCF (second line): a row other than 1 is taken as row 0 and a column
    beyond 15 as column 0. *)
Theorem cursor_stays_on_screen (d : driver) (col row : Z) :
  0 <= col <= 255 -> 0 <= row <= 255 ->
  backlight_state d = 0 \/ backlight_state d = LCD_BIT_BL ->
  exists addr,
    received (lcd_set_cursor d col row) = [Command addr] /\
    addr = 128 + (if row =? 1 then 64 else 0) +
           (if col <? 16 then col else 0) /\
    (128 <= addr <= 143 \/ 192 <= addr <= 207).
Proof.
  intros Hc Hr Hbl.
  eexists. split; [|split; [reflexivity|]].
  - apply delivers_received; [apply delivers_cursor; assumption|].
    constructor; [|constructor]. cbn [byte_value].
    destruct (row =? 1); destruct (col <? 16) eqn:E;
      try (apply Z.ltb_lt in E); lia.
  - destruct (row =? 1); destruct (col <? 16) eqn:E;
      try (apply Z.ltb_lt in E); lia.
Qed.

Lemma cursor_stays_on_screen_witness :
  exists addr,
    received (lcd_set_cursor driver_boot 200 7) = [Command addr] /\
    addr = 128 + (if 7 =? 1 then 64 else 0) + (if 200 <? 16 then 200 else 0) /\
    (128 <= addr <= 143 \/ 192 <= addr <= 207).
Proof.
  apply (cursor_stays_on_screen driver_boot 200 7);
    [lia | lia | right; reflexivity].
Defined.


(* --------------------------------------------------------------------- *)
(** *** Notifications on the screen *)

Lemma strncpy_length (n : nat) (s : string) :
  (String.length (strncpy n s) <= n)%nat.
Proof.
  unfold strncpy. revert s. induction n as [|n IH]; intros s.
  - destruct s; cbn; lia.
  - destruct s as [|a s]; cbn; [lia|]. specialize (IH s). lia.
Qed.

Lemma strncpy_idem (n : nat) (s : string) :
  strncpy n (strncpy n s) = strncpy n s.
Proof.
  unfold strncpy. revert s. induction n as [|n IH]; intros s.
  - destruct s; reflexivity.
  - destruct s as [|a s]; cbn; [reflexivity|]. rewrite IH. reflexivity.
Qed.

Lemma bytes_length (s : string) :
  List.length (bytes s) = String.length s.
Proof.
  unfold bytes. rewrite length_map.
  induction s as [|a s IH]; cbn; [reflexivity | rewrite IH; reflexivity].
Qed.

Lemma line_or_shown (s fallback : string) :
  String.length fallback <> 0%nat ->
  (String.length fallback <= 16)%nat ->
  ((0 <? Z.of_nat (String.length (line_or s fallback))) = true) /\
  strncpy 16 (line_or s fallback) = line_or s fallback.
Proof.
  intros Hne Hle. unfold line_or.
  destruct s as [|a s].
  - cbn [String.length Z.of_nat Z.ltb Z.compare].
    split; [apply Z.ltb_lt; lia|].
    unfold strncpy. clear Hne.
    revert Hle. generalize 16%nat. induction fallback as [|c f IH];
      intros n Hn; [destruct n; reflexivity|].
    destruct n as [|n]; cbn in *; [lia|]. rewrite IH by lia. reflexivity.
  - replace (0 <? Z.of_nat (String.length (String a s))) with true
      by (symmetry; apply Z.ltb_lt; cbn [String.length]; lia).
    split; [|apply strncpy_idem].
    apply Z.ltb_lt. unfold strncpy. cbn. lia.
Qed.

Lemma delivers_clear (d : driver) :
  display_initialized d = true -> bl_ok d ->
  delivers (display_clear d) [Command 1].
Proof.
  intros Hi Hbl. unfold display_clear. rewrite Hi. cbn [negb].
  apply delivers_command; [unfold LCD_CMD_CLEAR; lia | exact Hbl].
Qed.

Lemma chars_in_range (s : string) :
  Forall (fun b => 0 <= byte_value b <= 255) (map Character (bytes s)).
Proof.
  apply Forall_forall. intros b Hb.
  apply in_map_iff in Hb. destruct Hb as (c & <- & Hc).
  pose proof (bytes_in_range s) as Hr. rewrite Forall_forall in Hr.
  exact (Hr c Hc).
Qed.

(** X26.  What reaches the screen of a notification is at most sixteen
    characters a line.  Once the display is initialised,
    [display_notification] makes the controller clear the screen and then,
    for each line that is not NULL, move to the start of that line (0x80,
    0xC0) and print the first 16 characters of the text; nothing else is
    sent, and a NULL line leaves its row blank. *)
Theorem notification_fits_the_screen (d : driver) (l1 l2 : option string)
    (duration_ms : Z) :
  display_initialized d = true ->
  backlight_state d = 0 \/ backlight_state d = LCD_BIT_BL ->
  received (display_notification d l1 l2 duration_ms)
    = Command 1 :: shown_line 128 l1 ++ shown_line 192 l2 /\
  (List.length (shown_line 128 l1) <= 17)%nat /\
  (List.length (shown_line 192 l2) <= 17)%nat.
Proof.
  intros Hi Hbl.
  assert (Hline : forall row addr l,
            (row = 0 /\ addr = 128 \/ row = 1 /\ addr = 192) ->
            delivers (match l with
                      | Some s => lcd_set_cursor d 0 row ++
                                  lcd_print d (strncpy 16 s)
                      | None => []
                      end) (shown_line addr l)).
  { intros row addr [s|] Hrow; cbn [shown_line]; [|apply delivers_nil].
    change (Command addr :: map Character (bytes (strncpy 16 s)))
      with ([Command addr] ++ map Character (bytes (strncpy 16 s))).
    apply delivers_app; [|apply delivers_print, Hbl].
    destruct Hrow as [[-> ->] | [-> ->]];
      apply (delivers_cursor_at d 0 _ _); try lia; try exact Hbl;
      reflexivity. }
  assert (Hlen : forall addr l, (List.length (shown_line addr l) <= 17)%nat).
  { intros addr [s|]; cbn [shown_line List.length]; [|lia].
    rewrite length_map, bytes_length.
    pose proof (strncpy_length 16 s). lia. }
  split; [|split; apply Hlen].
  apply delivers_received.
  - unfold display_notification. rewrite Hi. cbn [negb].
    replace (Command 1 :: shown_line 128 l1 ++ shown_line 192 l2)
      with ([Command 1] ++ shown_line 128 l1 ++ shown_line 192 l2 ++ [])
      by (rewrite app_nil_r; reflexivity).
    apply delivers_app; [apply delivers_clear; assumption|].
    apply delivers_app; [apply (Hline 0 128); auto|].
    apply delivers_app; [apply (Hline 1 192); auto|].
    destruct (duration_ms >? 0); [apply delivers_delay_ms | apply delivers_nil].
  - constructor; [cbn; lia|].
    apply Forall_app. split.
    + destruct l1 as [s|]; cbn [shown_line]; [|constructor].
      constructor; [cbn; lia | apply chars_in_range].
    + destruct l2 as [s|]; cbn [shown_line]; [|constructor].
      constructor; [cbn; lia | apply chars_in_range].
Qed.

Lemma notification_fits_the_screen_witness :
  received (display_notification (mk_driver true LCD_BIT_BL)
              (Some "A very long line of text"%string) None 0)
    = Command 1 :: shown_line 128 (Some "A very long line of text"%string)
      ++ shown_line 192 None.
Proof.
  apply (notification_fits_the_screen (mk_driver true LCD_BIT_BL)
           (Some "A very long line of text"%string) None 0);
    [reflexivity | right; reflexivity].
Defined.

Lemma line_or_text (a : Ascii.ascii) (t fallback : string) :
  line_or (String a t) fallback = strncpy 16 (String a t).
Proof. reflexivity. Qed.

Lemma text_test (a : Ascii.ascii) (t : string) :
  (0 <? Z.of_nat (String.length (strncpy 16 (String a t)))) = true.
Proof. reflexivity. Qed.

Ltac shown_lines Hupdate text subtext :=
  apply Hupdate;
  cbn [line1 line2 mode playing connected volume fallback_line1
       fallback_line2];
  [ destruct text as [|a t] | destruct subtext as [|a t] ];
  first [ reflexivity
        | rewrite !line_or_text; rewrite text_test, strncpy_idem;
          reflexivity ].

(** X27.  What the handler of the state machine puts on the screen.
    In [MODE_OFF] the notification is ignored and the screen shows
    ["System OFF"] from column 3.  In every other mode line 1 shows the
    first 16 characters of the text, or the name of the mode if the text
    is empty, and line 2 the first 16 characters of the subtext, or, if
    that is empty, a status line whose volume is the constant the handler
    fills in - 10, or 0 in Phonebook mode - not a volume of the state
    machine. *)
Theorem handler_shows_text_or_fallback (d : driver) (m : stereo_mode_t)
    (text subtext : string) :
  display_initialized d = true ->
  backlight_state d = 0 \/ backlight_state d = LCD_BIT_BL ->
  received (display_handle_notification d m text subtext) =
    match m with
    | MODE_OFF =>
        [Command 1; Command 131] ++ map Character (bytes "System OFF")
    | _ =>
        [Command 1; Command 128] ++
        map Character (bytes (line_or text (fallback_line1 m))) ++
        [Command 192] ++
        map Character (bytes (line_or subtext (fallback_line2 m)))
    end.
Proof.
  intros Hi Hbl.
  assert (Hc0 : delivers (lcd_set_cursor d 0 0) [Command 128])
    by (apply (delivers_cursor_at d 0 0); try lia; try exact Hbl;
        reflexivity).
  assert (Hc1 : delivers (lcd_set_cursor d 0 1) [Command 192])
    by (apply (delivers_cursor_at d 0 1); try lia; try exact Hbl;
        reflexivity).
  assert (Hc3 : delivers (lcd_set_cursor d 3 0) [Command 131])
    by (apply (delivers_cursor_at d 3 0); try lia; try exact Hbl;
        reflexivity).
  assert (Hupdate : forall st l1 l2,
    (if 0 <? Z.of_nat (String.length (line1 st))
     then lcd_print d (strncpy 16 (line1 st))
     else match mode st with
          | DISPLAY_MODE_RADIO => lcd_print d "FM Radio"
          | DISPLAY_MODE_BLUETOOTH =>
              lcd_print d (if connected st then "BT: Connected"
                           else "BT: Waiting")
          | DISPLAY_MODE_PHONE_CALL => lcd_print d "CALL"
          | DISPLAY_MODE_OFF => lcd_print d "System OFF"
          | DISPLAY_MODE_PHONEBOOK => []
          end) = lcd_print d l1 ->
    (if 0 <? Z.of_nat (String.length (line2 st))
     then lcd_print d (strncpy 16 (line2 st))
     else lcd_print d (status_line st)) = lcd_print d l2 ->
    received (display_update d (Some st)) =
      [Command 1; Command 128] ++ map Character (bytes l1) ++
      [Command 192] ++ map Character (bytes l2)).
  { intros st l1 l2 H1 H2. unfold display_update. rewrite Hi. cbn [negb].
    rewrite H1, H2.
    apply delivers_received.
    - change ([Command 1; Command 128] ++ map Character (bytes l1) ++
              [Command 192] ++ map Character (bytes l2))
        with ([Command 1] ++ [Command 128] ++ map Character (bytes l1) ++
              [Command 192] ++ map Character (bytes l2)).
      repeat first [ apply delivers_app
                   | apply delivers_clear; assumption
                   | exact Hc0 | exact Hc1
                   | apply delivers_print; exact Hbl ].
    - cbn [app]. constructor; [cbn; lia|]. constructor; [cbn; lia|].
      apply Forall_app. split; [apply chars_in_range|].
      constructor; [cbn; lia | apply chars_in_range]. }
  unfold display_handle_notification. rewrite Hi. cbn [negb].
  destruct m.
  - apply delivers_received.
    + change ([Command 1; Command 131] ++ map Character (bytes "System OFF"))
        with ([Command 1] ++ [Command 131] ++
              map Character (bytes "System OFF")).
      repeat first [ apply delivers_app
                   | apply delivers_clear; assumption
                   | exact Hc3
                   | apply delivers_print; exact Hbl ].
    + cbn [app]. constructor; [cbn; lia|]. constructor; [cbn; lia|].
      apply chars_in_range.
  - shown_lines Hupdate text subtext.
  - shown_lines Hupdate text subtext.
  - shown_lines Hupdate text subtext.
  - shown_lines Hupdate text subtext.
Qed.

Lemma handler_shows_text_or_fallback_witness :
  received (display_handle_notification (mk_driver true LCD_BIT_BL)
              MODE_RADIO "" "") =
  [Command 1; Command 128] ++ map Character (bytes "FM Radio") ++
  [Command 192] ++ map Character (bytes "Vol:10  ").
Proof.
  apply (handler_shows_text_or_fallback (mk_driver true LCD_BIT_BL)
           MODE_RADIO "" ""); [reflexivity | right; reflexivity].
Defined.

(* --------------------------------------------------------------------- *)
(** *** Cleaning of track metadata *)

Lemma drop_while_suffix (f : Z -> bool) (l : list Z) :
  exists h, l = h ++ drop_while f l.
Proof.
  induction l as [|c l [h IH]]; [exists []; reflexivity|].
  cbn [drop_while]. destruct (f c).
  - exists (c :: h). cbn. rewrite <- IH. reflexivity.
  - exists []. reflexivity.
Qed.

Lemma drop_trailing_prefix (f : Z -> bool) (l : list Z) :
  exists t, l = drop_trailing f l ++ t.
Proof.
  unfold drop_trailing.
  destruct (drop_while_suffix f (rev l)) as [h Hh].
  exists (rev h).
  rewrite <- rev_app_distr, <- Hh, rev_involutive. reflexivity.
Qed.

Lemma cut_at_prefix (needle l : list Z) :
  exists t, l = cut_at needle l ++ t.
Proof.
  unfold cut_at. destruct (strstr l needle) as [pos|].
  - exists (skipn pos l). symmetry. apply firstn_skipn.
  - exists []. symmetry. apply app_nil_r.
Qed.

Lemma strip_known_patterns_prefix (l : list Z) :
  exists t, l = strip_known_patterns l ++ t.
Proof.
  unfold strip_known_patterns.
  destruct (cut_at_prefix [226; 128; 162] l) as [t1 H1].
  destruct (cut_at_prefix [32; 63; 32] (cut_at [226; 128; 162] l)) as [t2 H2].
  destruct (drop_trailing_prefix is_blank
              (cut_at [32; 63; 32] (cut_at [226; 128; 162] l))) as [t3 H3].
  exists (t3 ++ t2 ++ t1).
  rewrite app_assoc, <- H3, app_assoc, <- H2. exact H1.
Qed.

Lemma truncate_trailing_garbage_prefix (l : list Z) :
  exists t, l = truncate_trailing_garbage l ++ t.
Proof.
  unfold truncate_trailing_garbage.
  destruct (drop_trailing_prefix (fun c => negb (is_printable c)) l)
    as [t1 H1].
  destruct (drop_trailing_prefix is_blank
              (drop_trailing (fun c => negb (is_printable c)) l))
    as [t2 H2].
  exists (t2 ++ t1). rewrite app_assoc, <- H2. exact H1.
Qed.

Lemma e2_replacement_printable (b2 b3 : Z) :
  is_printable (e2_replacement b2 b3) = true.
Proof.
  unfold e2_replacement.
  repeat match goal with
         | |- context [if ?c then _ else _] => destruct c
         end; reflexivity.
Qed.

Lemma is_printable_range (c : Z) :
  is_printable c = true <-> 32 <= c <= 126.
Proof.
  unfold is_printable. rewrite andb_true_iff, !Z.leb_le. tauto.
Qed.

(** What the conversion loop writes, whatever it reads. *)
Lemma convert_loop_output (n : nat) :
  forall (str : list Z) (dst : nat),
    (List.length str <= n)%nat ->
    (List.length (convert_loop str dst) <= 255 - dst)%nat /\
    Forall (fun c => 32 <= c <= 128) (convert_loop str dst) /\
    (~ In 195 str ->
     Forall (fun c => is_printable c = true) (convert_loop str dst)).
Proof.
  induction n as [|n IH]; intros str dst Hlen.
  - destruct str; [|cbn in Hlen; lia].
    cbn. repeat split; try constructor; lia.
  - destruct str as [|c rest]; [cbn; repeat split; try constructor; lia|].
    cbn [List.length] in Hlen. cbn [convert_loop].
    destruct (255 <=? dst)%nat eqn:Edst;
      [cbn; repeat split; try constructor; lia|].
    apply Nat.leb_gt in Edst.
    destruct (is_printable c) eqn:Ep.
    { destruct (IH rest (S dst) ltac:(lia)) as (L & R & P).
      apply is_printable_range in Ep.
      repeat split.
      - cbn [List.length]. lia.
      - constructor; [lia | exact R].
      - intros Hno. constructor; [apply is_printable_range; exact Ep|].
        apply P. intros Hin. apply Hno. right. exact Hin. }
    assert (Hskip :
      (List.length (convert_loop rest dst) <= 255 - dst)%nat /\
      Forall (fun c => 32 <= c <= 128) (convert_loop rest dst) /\
      (~ In 195 (c :: rest) ->
       Forall (fun c => is_printable c = true) (convert_loop rest dst))).
    { destruct (IH rest dst ltac:(lia)) as (L & R & P).
      repeat split; auto. intros Hno. apply P. intros Hin.
      apply Hno. right. exact Hin. }
    destruct (c =? 226) eqn:E226.
    { destruct rest as [|b2 [|b3 rest']].
      - destruct (c =? 195); exact Hskip.
      - destruct (c =? 195) eqn:E195; [|exact Hskip].
        apply Z.eqb_eq in E226, E195. lia.
      - destruct (IH rest' (S dst) ltac:(cbn [List.length] in Hlen; lia))
          as (L & R & P).
        pose proof (e2_replacement_printable b2 b3) as Hr.
        repeat split.
        + cbn [List.length]. lia.
        + constructor; [apply is_printable_range in Hr; lia | exact R].
        + intros Hno. constructor; [exact Hr|].
          apply P. intros Hin. apply Hno. right. right. right. exact Hin. }
    destruct (c =? 195) eqn:E195; [|exact Hskip].
    destruct rest as [|next rest']; [exact Hskip|].
    destruct (IH rest' (S dst) ltac:(cbn [List.length] in Hlen; lia))
      as (L & R & P).
    destruct (IH rest' dst ltac:(cbn [List.length] in Hlen; lia))
      as (L' & R' & P').
    apply Z.eqb_eq in E195.
    destruct ((128 <=? next) && (next <=? 191)) eqn:Enext.
    + repeat split.
      * cbn [List.length]. lia.
      * constructor; [|exact R].
        unfold u8. pose proof (Z.mod_pos_bound (next - 128) 32 ltac:(lia)).
        rewrite Z.mod_small; lia.
      * intros Hno. exfalso. apply Hno. left. exact E195.
    + repeat split; auto.
      intros Hno. exfalso. apply Hno. left. exact E195.
Qed.

Lemma Forall_prefix {A} (P : A -> Prop) (l h t : list A) :
  l = h ++ t -> Forall P l -> Forall P h.
Proof. intros -> H. apply Forall_app in H. tauto. Qed.

Lemma length_prefix {A} (l h t : list A) :
  l = h ++ t -> (List.length h <= List.length l)%nat.
Proof. intros ->. rewrite length_app. lia. Qed.

Lemma In_prefix {A} (x : A) (l h t : list A) :
  l = h ++ t -> In x h -> In x l.
Proof. intros -> H. apply in_or_app. left. exact H. Qed.

(** X28.  What [sanitize_for_lcd] hands back is short and nearly clean.
    When it writes to [dest] at all, the result is at most [max_len - 1]
    and at most 255 bytes long, and every byte lies between 0x20 and
    0x80; if the source holds no byte 0xC3, every byte is printable
    ASCII.  (The replacement for a two-byte sequence [C3 xx] is
    ['a' + (xx - 0x80) % 32], which runs up to 0x80, past the last
    printable character.) *)
Theorem sanitized_text_is_bounded (src out : list Z) (max_len : Z) :
  sanitize_for_lcd false (Some src) max_len = Some out ->
  (Z.of_nat (List.length out) <= max_len - 1) /\
  (List.length out <= 255)%nat /\
  Forall (fun c => 32 <= c <= 128) out /\
  (~ In 195 src -> Forall (fun c => is_printable c = true) out).
Proof.
  unfold sanitize_for_lcd. cbn [orb].
  destruct (max_len <? 2) eqn:Emax; [discriminate|].
  apply Z.ltb_ge in Emax. intros H.
  assert (Hout : out = firstn (Z.to_nat (max_len - 1))
                         (strip_spotify_junk
                            (drop_while (fun c => c <? 32) (firstn 255 src))))
    by congruence.
  clear H. rewrite Hout. clear Hout out.
  set (lead := drop_while (fun c => c <? 32) (firstn 255 src)).
  unfold strip_spotify_junk.
  set (junk := strip_known_patterns lead).
  destruct (convert_loop_output (List.length junk) junk 0 (le_n _))
    as (L & R & P).
  fold (convert_utf8_to_ascii junk) in L, R, P.
  destruct (truncate_trailing_garbage_prefix (convert_utf8_to_ascii junk))
    as [t Ht].
  set (clean := truncate_trailing_garbage (convert_utf8_to_ascii junk)) in *.
  assert (Hfirst : exists u,
            clean = firstn (Z.to_nat (max_len - 1)) clean ++ u).
  { exists (skipn (Z.to_nat (max_len - 1)) clean).
    symmetry. apply firstn_skipn. }
  destruct Hfirst as [u Hu].
  repeat split.
  - pose proof (firstn_le_length (Z.to_nat (max_len - 1)) clean). lia.
  - pose proof (length_prefix _ _ _ Ht).
    pose proof (length_prefix _ _ _ Hu). lia.
  - eapply Forall_prefix; [exact Hu|].
    eapply Forall_prefix; [exact Ht | exact R].
  - intros Hno.
    eapply Forall_prefix; [exact Hu|].
    eapply Forall_prefix; [exact Ht|].
    apply P. intros Hin. apply Hno.
    destruct (strip_known_patterns_prefix lead) as [t3 H3].
    fold junk in H3.
    pose proof (In_prefix _ _ _ _ H3 Hin) as Hlead.
    destruct (drop_while_suffix (fun c => c <? 32) (firstn 255 src))
      as [h Hh].
    fold lead in Hh.
    assert (Hin255 : In 195 (firstn 255 src))
      by (rewrite Hh; apply in_or_app; right; exact Hlead).
    rewrite <- (firstn_skipn 255 src). apply in_or_app. left. exact Hin255.
Qed.

Lemma sanitized_text_is_bounded_witness :
  (Z.of_nat (List.length [65; 98]) <= 64 - 1) /\
  (List.length [65; 98] <= 255)%nat.
Proof.
  destruct (sanitized_text_is_bounded [7; 65; 195; 161; 32; 226; 128; 162; 66]
              [65; 98] 64) as (H1 & H2 & _).
  - vm_compute. reflexivity.
  - split; [exact H1 | exact H2].
Defined.


Lemma strstr_without_first (c : Z) (needle str : list Z) :
  ~ In c str -> strstr str (c :: needle) = None.
Proof.
  induction str as [|x str IH]; intros Hno; cbn [strstr starts_with].
  - reflexivity.
  - replace (c =? x) with false
      by (symmetry; apply Z.eqb_neq; intros ->; apply Hno; left; reflexivity).
    cbn [andb]. rewrite IH; [reflexivity|].
    intros Hin. apply Hno. right. exact Hin.
Qed.

Lemma drop_trailing_keeps (f : Z -> bool) (l : list Z) :
  f (last l 0) = false -> l <> [] -> drop_trailing f l = l.
Proof.
  intros Hlast Hne. unfold drop_trailing.
  destruct (exists_last Hne) as (h & x & ->).
  rewrite last_last in Hlast.
  rewrite rev_app_distr. cbn [rev app drop_while]. rewrite Hlast.
  cbn [rev]. rewrite rev_involutive. reflexivity.
Qed.

Lemma drop_trailing_nil (f : Z -> bool) : drop_trailing f [] = [].
Proof. reflexivity. Qed.

Lemma convert_loop_printable (str : list Z) :
  forall dst,
    Forall (fun c => is_printable c = true) str ->
    (dst + List.length str <= 255)%nat ->
    convert_loop str dst = str.
Proof.
  induction str as [|c str IH]; intros dst Hp Hlen; [reflexivity|].
  inversion Hp as [|? ? Hc Hrest]; subst.
  cbn [List.length] in Hlen. cbn [convert_loop].
  replace (255 <=? dst)%nat with false
    by (symmetry; apply Nat.leb_gt; lia).
  rewrite Hc, IH; [reflexivity | exact Hrest | lia].
Qed.

(** X29.  Clean text passes unchanged.  A string of printable ASCII that
    fits the buffers, does not end in a blank and does not contain the
    three characters [" ? "] comes out of [sanitize_for_lcd] exactly as
    it went in. *)
Theorem clean_text_passes (src : list Z) (max_len : Z) :
  Forall (fun c => is_printable c = true) src ->
  is_blank (last src 0) = false ->
  strstr src [32; 63; 32] = None ->
  (List.length src <= 255)%nat ->
  Z.of_nat (List.length src) <= max_len - 1 ->
  2 <= max_len ->
  sanitize_for_lcd false (Some src) max_len = Some src.
Proof.
  intros Hp Hlast Hq Hlen Hfit Hmax.
  unfold sanitize_for_lcd. cbn [orb].
  replace (max_len <? 2) with false by (symmetry; apply Z.ltb_ge; lia).
  cbv zeta. f_equal.
  rewrite (firstn_all2 (n := 255)) by lia.
  assert (Hlead : drop_while (fun c => c <? 32) src = src).
  { destruct Hp as [|c l Hc _]; [reflexivity|].
    cbn [drop_while]. apply is_printable_range in Hc.
    replace (c <? 32) with false by (symmetry; apply Z.ltb_ge; lia).
    reflexivity. }
  rewrite Hlead.
  assert (Hkeep : forall f, (forall c, is_printable c = true -> f c = false)
                            \/ f = is_blank ->
                            drop_trailing f src = src).
  { intros f Hf. destruct src as [|c l]; [reflexivity|].
    apply drop_trailing_keeps; [|discriminate].
    destruct Hf as [Hf | ->]; [|exact Hlast].
    apply Hf. rewrite Forall_forall in Hp. apply Hp.
    destruct (@exists_last _ (c :: l) ltac:(discriminate)) as (h & x & E).
    rewrite E, last_last. apply in_or_app. right. left. reflexivity. }
  assert (Hstrip : strip_known_patterns src = src).
  { assert (Hcut1 : cut_at [226; 128; 162] src = src).
    { unfold cut_at. rewrite strstr_without_first; [reflexivity|].
      intros Hin. rewrite Forall_forall in Hp.
      specialize (Hp _ Hin). discriminate Hp. }
    assert (Hcut2 : cut_at [32; 63; 32] src = src)
      by (unfold cut_at; rewrite Hq; reflexivity).
    unfold strip_known_patterns. cbv zeta. rewrite Hcut1, Hcut2.
    apply Hkeep. right. reflexivity. }
  unfold strip_spotify_junk. rewrite Hstrip.
  unfold convert_utf8_to_ascii.
  rewrite convert_loop_printable by (try exact Hp; lia).
  unfold truncate_trailing_garbage.
  rewrite (Hkeep (fun c => negb (is_printable c)))
    by (left; intros c ->; reflexivity).
  rewrite (Hkeep is_blank) by (right; reflexivity).
  apply firstn_all2. lia.
Qed.

Lemma clean_text_passes_witness :
  sanitize_for_lcd false (Some (bytes "Blue in Green")) 64
    = Some (bytes "Blue in Green").
Proof.
  apply (clean_text_passes (bytes "Blue in Green") 64);
    [repeat constructor | reflexivity | reflexivity | cbn; lia | cbn; lia
    | lia].
Defined.

End DisplayProperties.
